(** * auto-lofi: a shallow embedding of [autologin.js] and [autolofi.js]

  The repository holds two near-duplicate programs built around one class,
  [AdvancedAutoLogin]: the batch/menu service [autologin.js] and the
  Termux wizard [autolofi.js].  Both are embedded here, method by method,
  as computations in a small exception/state/trace monad over

  - the fields of the instance ([this.isRunning], [this.config], ...), and
  - the host: the files next to the script, the timer table of the event
    loop, the wall clock and the replies of the network.

  What the host answers (HTTP replies, file contents, faults on writing,
  the rendering of dates) is data of the state, so every theorem
  quantifies over it.

  Conventions of the embedding:

  - a method runs to its end before anything else happens: each [await] is
    completed in place, and the one call the source does not await
    ([this.logToFile(...)]) is run at the point of the call;
  - numbers are integers ([Z]); times are milliseconds since the epoch;
  - the text of a JSON file is represented by what [JSON.parse] makes of
    it, and [JSON.stringify] by the value its text parses back to;
  - a [for] loop over [1 .. n] is a recursion on the number of turns left;
  - the clock moves only while a [delay] is awaited: file accesses, requests
    and the latency of timers take no time, so no statement is made about
    the time a run of several calls takes.

  The file first gives the definitions (values, host, computations, the two
  programs, the observations and the transition system used to state the
  properties), then the properties. *)

From Stdlib Require Import ZArith List String Ascii Bool Lia DecimalString.
Import ListNotations.

Local Open Scope string_scope.
Local Open Scope Z_scope.
#[local] Set Warnings "-register-all".

(* ================================================================= *)
(** ** JavaScript values *)

Module JS.

(** The values that reach the code: what [JSON.parse] returns, plus
    [undefined].  Numbers are restricted to integers, which is all the
    programs compute with (attempt counters, HTTP statuses, milliseconds). *)
Inductive Value : Type :=
| VUndef
| VNull
| VBool (b : bool)
| VNum (n : Z)
| VStr (s : string)
| VArr (items : list Value)
| VObj (props : list (string * Value)).

(** An [Error] object: its [message] and, for system errors, its [code]. *)
Record JsError : Type := mkError {
  err_message : string;
  err_code : option string
}.

Inductive Res (A : Type) : Type :=
| Val (a : A)
| Throw (e : JsError).
Arguments Val {A} a.
Arguments Throw {A} e.

(** [ToBoolean]: what [if (v)] and [!v] look at. *)
Definition truthy (v : Value) : bool :=
  match v with
  | VUndef | VNull => false
  | VBool b => b
  | VNum n => negb (n =? 0)
  | VStr s => negb (s =? "")%string
  | VArr _ | VObj _ => true
  end.

Fixpoint lookup (k : string) (props : list (string * Value)) : Value :=
  match props with
  | [] => VUndef
  | (k', v) :: rest => if (k =? k')%string then v else lookup k rest
  end.

(** [o[k] = v] on an object literal: an existing key keeps its place. *)
Fixpoint assign (k : string) (v : Value) (props : list (string * Value))
  : list (string * Value) :=
  match props with
  | [] => [(k, v)]
  | (k', v') :: rest =>
      if (k =? k')%string then (k, v) :: rest else (k', v') :: assign k v rest
  end.

Definition type_error (k : string) : JsError :=
  mkError ("Cannot read properties of undefined (reading '" ++ k ++ "')") None.

(** The same read on [null]. *)
Definition null_error (k : string) : JsError :=
  mkError ("Cannot read properties of null (reading '" ++ k ++ "')") None.

(** [v.k].  The keys the programs read ([username], [password],
    [settings], [autoRetry], [checkConnection], [enableNotifications],
    [logToFile], [lastLogin]) are no built-in property of a string, number,
    boolean or array, so on those the read gives [undefined]. *)
Definition get (v : Value) (k : string) : Res Value :=
  match v with
  | VUndef => Throw (type_error k)
  | VNull => Throw (null_error k)
  | VObj props => Val (lookup k props)
  | _ => Val VUndef
  end.

(** [v?.k] *)
Definition get_opt (v : Value) (k : string) : Value :=
  match v with
  | VObj props => lookup k props
  | _ => VUndef
  end.

(** The own enumerable properties copied by the spread [{...v}]; the
    programs only ever spread an object literal. *)
Definition spread (v : Value) : list (string * Value) :=
  match v with
  | VObj props => props
  | _ => []
  end.

(** What survives [JSON.parse(JSON.stringify(v))]: properties holding
    [undefined] are dropped, [undefined] array items become [null]. *)
Fixpoint jsonify (v : Value) : Value :=
  match v with
  | VArr items =>
      VArr (map (fun x => match x with VUndef => VNull | _ => jsonify x end) items)
  | VObj props =>
      VObj ((fix go (ps : list (string * Value)) : list (string * Value) :=
               match ps with
               | [] => []
               | (k, x) :: rest =>
                   match x with
                   | VUndef => go rest
                   | _ => (k, jsonify x) :: go rest
                   end
               end) props)
  | _ => v
  end.

(** Whether turning [v] into a primitive throws.  The values are parsed
    JSON, where no property is callable: an object for which [toString] is
    a property of its own has neither a [toString] nor a [valueOf] that
    gives a primitive (the inherited [valueOf] returns the object); every
    other object prints as [[object Object]].  An array prints its items,
    so it throws when one of them does. *)
Fixpoint no_primitive (v : Value) : bool :=
  match v with
  | VObj props => existsb (fun kv => (fst kv =? "toString")%string) props
  | VArr items => existsb no_primitive items
  | _ => false
  end.

Definition cannot_convert : JsError :=
  mkError "Cannot convert object to primitive value" None.

(** [error.code === code] *)
Definition code_is (error : JsError) (code : string) : bool :=
  match err_code error with
  | Some c => (c =? code)%string
  | None => false
  end.

(** [`${n}`] for an integer.  The quotients the programs print,
    [retryDelay / 1000] and [checkInterval / 60000], are integers for the
    values the constructors set. *)
Definition show (n : Z) : string := NilZero.string_of_int (Z.to_int n).

End JS.
Export JS.

(* ================================================================= *)
(** ** The host: files, network, timers, clock *)

Module Host.

Inductive FileName : Type := CONFIG_FILE | SESSION_FILE.

(** The text of a file, seen through [JSON.parse]: either the parser
    rejects it with a [SyntaxError], or it denotes a value. *)
Inductive Text : Type :=
| NotJson (syntax_error : string)
| Json (v : Value).

Inductive FileState : Type :=
| Missing
| Unreadable (e : JsError)
| Holds (t : Text).

(** What the network does with one request, before axios looks at it. *)
Inductive Reply : Type :=
| NoReply (e : JsError)
| HttpReply (status : Z) (statusText : string).

Record Response : Type := mkResponse {
  status : Z;
  statusText : string
}.

Definition Timer : Type := nat.

(** The functions handed to [setInterval]. *)
Inductive Callback : Type :=
| CbExecuteLogin
| CbConnectionCheck
| CbExecuteLoginWith (config : Value).

Inductive Event : Type :=
| Post (url : string) (data : Value) (userAgent : string) (timeout : Z)
| Get (url : string) (timeout : Z)
| Sleep (ms : Z)
| ConsoleLog (line : string)
| ConsoleError (line : string)
| WriteFile (f : FileName) (t : Text)
| AppendLog (line : string)
| SetInterval (t : Timer) (cb : Callback) (ms : Z)
| ClearInterval (t : Timer)
| Question (prompt : string).

Record World : Type := mkWorld {
  clock : Z;                          (* ms since the epoch *)
  config_file : FileState;
  session_file : FileState;
  log_file : list string;             (* lines of login.log *)
  write_fails : FileName -> option JsError;  (* disk full, no permission, ... *)
  append_fails : option JsError;      (* the same for login.log *)
  post_replies : nat -> Reply;        (* reply to the n-th POST *)
  posts_sent : nat;
  get_replies : nat -> Reply;         (* reply to the n-th GET *)
  gets_sent : nat;
  answers : nat -> string;            (* n-th line typed at the prompt *)
  questions_asked : nat;
  timers : list (Timer * Callback);   (* active repeating timers *)
  next_timer : Timer;
  toLocaleString : Z -> string;       (* Date.prototype.toLocaleString *)
  toISOString : Z -> string;          (* Date.prototype.toISOString *)
  Date_of : Value -> option Z         (* the instant new Date(v) denotes, if any *)
}.

Definition set_clock (x : Z) (w : World) : World :=
  mkWorld x (config_file w) (session_file w) (log_file w) (write_fails w) (append_fails w)
    (post_replies w) (posts_sent w) (get_replies w) (gets_sent w)
    (answers w) (questions_asked w) (timers w) (next_timer w)
    (toLocaleString w) (toISOString w) (Date_of w).

Definition set_config_file (x : FileState) (w : World) : World :=
  mkWorld (clock w) x (session_file w) (log_file w) (write_fails w) (append_fails w)
    (post_replies w) (posts_sent w) (get_replies w) (gets_sent w)
    (answers w) (questions_asked w) (timers w) (next_timer w)
    (toLocaleString w) (toISOString w) (Date_of w).

Definition set_session_file (x : FileState) (w : World) : World :=
  mkWorld (clock w) (config_file w) x (log_file w) (write_fails w) (append_fails w)
    (post_replies w) (posts_sent w) (get_replies w) (gets_sent w)
    (answers w) (questions_asked w) (timers w) (next_timer w)
    (toLocaleString w) (toISOString w) (Date_of w).

Definition set_log_file (x : list string) (w : World) : World :=
  mkWorld (clock w) (config_file w) (session_file w) x (write_fails w) (append_fails w)
    (post_replies w) (posts_sent w) (get_replies w) (gets_sent w)
    (answers w) (questions_asked w) (timers w) (next_timer w)
    (toLocaleString w) (toISOString w) (Date_of w).

Definition set_posts_sent (x : nat) (w : World) : World :=
  mkWorld (clock w) (config_file w) (session_file w) (log_file w) (write_fails w) (append_fails w)
    (post_replies w) x (get_replies w) (gets_sent w)
    (answers w) (questions_asked w) (timers w) (next_timer w)
    (toLocaleString w) (toISOString w) (Date_of w).

Definition set_gets_sent (x : nat) (w : World) : World :=
  mkWorld (clock w) (config_file w) (session_file w) (log_file w) (write_fails w) (append_fails w)
    (post_replies w) (posts_sent w) (get_replies w) x
    (answers w) (questions_asked w) (timers w) (next_timer w)
    (toLocaleString w) (toISOString w) (Date_of w).

Definition set_questions_asked (x : nat) (w : World) : World :=
  mkWorld (clock w) (config_file w) (session_file w) (log_file w) (write_fails w) (append_fails w)
    (post_replies w) (posts_sent w) (get_replies w) (gets_sent w)
    (answers w) x (timers w) (next_timer w)
    (toLocaleString w) (toISOString w) (Date_of w).

Definition set_timers (x : list (Timer * Callback)) (n : Timer) (w : World) : World :=
  mkWorld (clock w) (config_file w) (session_file w) (log_file w) (write_fails w) (append_fails w)
    (post_replies w) (posts_sent w) (get_replies w) (gets_sent w)
    (answers w) (questions_asked w) x n
    (toLocaleString w) (toISOString w) (Date_of w).

End Host.
Export Host.

(* ================================================================= *)
(** ** Computations: exceptions, state, trace *)

Module Run.

Section Computations.

(** [T] is the type of the instance ([this]). *)
Context {T : Type}.

(** An [async] method: from the instance and the world to a result or a
    thrown error, the new instance and world, and the events it caused, in
    order.  Every [await] is run to completion before the next statement. *)
Definition M (A : Type) : Type :=
  T -> World -> Res A * T * World * list Event.

Definition ret {A} (a : A) : M A :=
  fun t w => (Val a, t, w, []).

Definition throw {A} (e : JsError) : M A :=
  fun t w => (Throw e, t, w, []).

Definition bind {A B} (m : M A) (f : A -> M B) : M B :=
  fun t w =>
    match m t w with
    | (Val a, t1, w1, e1) =>
        match f a t1 w1 with
        | (r, t2, w2, e2) => (r, t2, w2, (e1 ++ e2)%list)
        end
    | (Throw e, t1, w1, e1) => (Throw e, t1, w1, e1)
    end.

(** [try { m } catch (error) { h error }] *)
Definition try_catch {A} (m : M A) (h : JsError -> M A) : M A :=
  fun t w =>
    match m t w with
    | (Val a, t1, w1, e1) => (Val a, t1, w1, e1)
    | (Throw e, t1, w1, e1) =>
        match h e t1 w1 with
        | (r, t2, w2, e2) => (r, t2, w2, (e1 ++ e2)%list)
        end
    end.

Definition lift {A} (r : Res A) : M A :=
  fun t w => (r, t, w, []).

Definition this {A} (field : T -> A) : M A :=
  fun t w => (Val (field t), t, w, []).

Definition update (f : T -> T) : M unit :=
  fun t w => (Val tt, f t, w, []).

Definition host {A} (field : World -> A) : M A :=
  fun t w => (Val (field w), t, w, []).

Definition modify (f : World -> World) : M unit :=
  fun t w => (Val tt, t, f w, []).

Definition emit (e : Event) : M unit :=
  fun t w => (Val tt, t, w, [e]).

End Computations.

Arguments M : clear implicits.

Definition result {T A} (x : Res A * T * World * list Event) : Res A :=
  fst (fst (fst x)).
Definition final_this {T A} (x : Res A * T * World * list Event) : T :=
  snd (fst (fst x)).
Definition final_world {T A} (x : Res A * T * World * list Event) : World :=
  snd (fst x).
Definition events {T A} (x : Res A * T * World * list Event) : list Event :=
  snd x.

End Run.
Export Run.

Declare Scope js_scope.
Delimit Scope js_scope with js.
Notation "x <- m ;; k" := (bind m (fun x => k))
  (at level 61, m at next level, right associativity) : js_scope.
Notation "m ;; k" := (bind m (fun _ => k))
  (at level 61, right associativity) : js_scope.
Local Open Scope js_scope.

(* ================================================================= *)
(** ** Built-ins of Node and axios *)

Module Builtin.

Section Builtins.

Context {T : Type}.

Definition console_log (line : string) : M T unit := emit (ConsoleLog line).
Definition console_error (line : string) : M T unit := emit (ConsoleError line).

(** [new Date()] as milliseconds since the epoch. *)
Definition new_Date : M T Z := host clock.

(** [new Date(v)]: the instant, or [None] for [Invalid Date].  The host's
    [Date_of] tells which instant a value denotes, if any.  A value that
    denotes none is [Invalid Date] when it can be turned into a primitive,
    and makes the constructor throw a [TypeError] when it cannot. *)
Definition new_Date_of (v : Value) : M T (option Z) :=
  parsed <- host (fun w => Date_of w v) ;;
  match parsed with
  | Some instant => ret (Some instant)
  | None => if no_primitive v then throw cannot_convert else ret None
  end.

(** [await this.delay(ms)]: the timer resolves after [ms] milliseconds.  In
    this model time passes only here: reading and writing files, requests
    and the latency of timers take none. *)
Definition delay (ms : Z) : M T unit :=
  emit (Sleep ms) ;;
  now <- host clock ;;
  modify (set_clock (now + ms)).

(** axios's default [validateStatus]. *)
Definition status_2xx (status : Z) : bool :=
  (200 <=? status) && (status <? 300).

Definition bad_status (status : Z) : JsError :=
  mkError ("Request failed with status code " ++ show status)
    (if (400 <=? status) && (status <? 500) then Some "ERR_BAD_REQUEST"
     else if (500 <=? status) && (status <? 600) then Some "ERR_BAD_RESPONSE"
     else None).

(** axios resolves with the response when [validateStatus] accepts its
    status, and rejects otherwise; without a response it rejects with the
    transport's error (refused, unreachable, timed out). *)
Definition settle (validateStatus : Z -> bool) (r : Reply) : Res Response :=
  match r with
  | NoReply e => Throw e
  | HttpReply s text =>
      if validateStatus s then Val (mkResponse s text) else Throw (bad_status s)
  end.

Definition axios_post (url : string) (data : Value) (userAgent : string)
    (timeout : Z) (validateStatus : Z -> bool) : M T Response :=
  emit (Post url data userAgent timeout) ;;
  n <- host posts_sent ;;
  reply <- host (fun w => post_replies w n) ;;
  modify (set_posts_sent (S n)) ;;
  lift (settle validateStatus reply).

Definition axios_get (url : string) (timeout : Z) : M T Response :=
  emit (Get url timeout) ;;
  n <- host gets_sent ;;
  reply <- host (fun w => get_replies w n) ;;
  modify (set_gets_sent (S n)) ;;
  lift (settle status_2xx reply).

Definition file_state (f : FileName) (w : World) : FileState :=
  match f with
  | CONFIG_FILE => config_file w
  | SESSION_FILE => session_file w
  end.

Definition set_file (f : FileName) (x : FileState) : World -> World :=
  match f with
  | CONFIG_FILE => set_config_file x
  | SESSION_FILE => set_session_file x
  end.

Definition ENOENT : JsError :=
  mkError "ENOENT: no such file or directory" (Some "ENOENT").

(** [await fs.readFile(f, "utf8")] *)
Definition readFile (f : FileName) : M T Text :=
  st <- host (file_state f) ;;
  match st with
  | Missing => throw ENOENT
  | Unreadable e => throw e
  | Holds t => ret t
  end.

(** [await fs.writeFile(f, text)]: replaces the whole file, or fails and
    leaves it alone. *)
Definition writeFile (f : FileName) (text : Text) : M T unit :=
  emit (WriteFile f text) ;;
  fault <- host (fun w => write_fails w f) ;;
  match fault with
  | Some e => throw e
  | None => modify (set_file f (Holds text))
  end.

(** [await fs.appendFile(logFile, line + "\n")] *)
Definition appendFile (line : string) : M T unit :=
  emit (AppendLog line) ;;
  fault <- host append_fails ;;
  match fault with
  | Some e => throw e
  | None =>
      old <- host log_file ;;
      modify (set_log_file (old ++ [line])%list)
  end.

Definition JSON_parse (text : Text) : M T Value :=
  match text with
  | NotJson why => throw (mkError why None)
  | Json v => ret v
  end.

(** [JSON.stringify(v, null, 2)]: the text that parses back to [jsonify v]. *)
Definition JSON_stringify (v : Value) : Text := Json (jsonify v).

(** [setInterval(cb, ms)] hands out a fresh [Timeout]. *)
Definition setInterval (cb : Callback) (ms : Z) : M T Timer :=
  id <- host next_timer ;;
  active <- host timers ;;
  emit (SetInterval id cb ms) ;;
  modify (set_timers (active ++ [(id, cb)])%list (S id)) ;;
  ret id.

Definition clearInterval (id : Timer) : M T unit :=
  active <- host timers ;;
  next <- host next_timer ;;
  emit (ClearInterval id) ;;
  modify (set_timers (filter (fun tc => negb (Nat.eqb (fst tc) id)) active) next).

(** [rl.question(prompt, resolve)] *)
Definition question (prompt : string) : M T string :=
  emit (Question prompt) ;;
  n <- host questions_asked ;;
  line <- host (fun w => answers w n) ;;
  modify (set_questions_asked (S n)) ;;
  ret line.

End Builtins.

End Builtin.
Export Builtin.

(* ================================================================= *)
(** ** autologin.js *)

Module Autologin.

(** The fields set by the constructor, and those set later by [start]
    ([config], [loginInterval], [connectionInterval]; a field never assigned
    reads [undefined]). *)
Record Instance : Type := mkInstance {
  retryCount : Z;
  maxRetries : Z;
  retryDelay : Z;
  checkInterval : Z;
  connectionCheckInterval : Z;
  isRunning : bool;
  config : Value;
  loginInterval : option Timer;
  connectionInterval : option Timer
}.

Definition LOGIN_URL : string := "http://hotspot2.stymsta.sch.id/login".

Definition constructor : Instance :=
  mkInstance 0 3 5000 (15 * 60 * 1000) (5 * 60 * 1000) false VUndef None None.

Definition set_retryCount (x : Z) (t : Instance) : Instance :=
  mkInstance x (maxRetries t) (retryDelay t) (checkInterval t)
    (connectionCheckInterval t) (isRunning t) (config t)
    (loginInterval t) (connectionInterval t).

Definition set_isRunning (x : bool) (t : Instance) : Instance :=
  mkInstance (retryCount t) (maxRetries t) (retryDelay t) (checkInterval t)
    (connectionCheckInterval t) x (config t)
    (loginInterval t) (connectionInterval t).

Definition set_config (x : Value) (t : Instance) : Instance :=
  mkInstance (retryCount t) (maxRetries t) (retryDelay t) (checkInterval t)
    (connectionCheckInterval t) (isRunning t) x
    (loginInterval t) (connectionInterval t).

Definition set_loginInterval (x : option Timer) (t : Instance) : Instance :=
  mkInstance (retryCount t) (maxRetries t) (retryDelay t) (checkInterval t)
    (connectionCheckInterval t) (isRunning t) (config t)
    x (connectionInterval t).

Definition set_connectionInterval (x : option Timer) (t : Instance) : Instance :=
  mkInstance (retryCount t) (maxRetries t) (retryDelay t) (checkInterval t)
    (connectionCheckInterval t) (isRunning t) (config t)
    (loginInterval t) x.

(** The object [loginWithRetry] returns. *)
Record LoginOutcome : Type := mkOutcome {
  success : bool;
  message : string;
  attempt : Z;
  timestamp : string
}.

Definition template : Value :=
  VObj [ ("username", VStr "your_username_here");
         ("password", VStr "your_password_here");
         ("settings", VObj [ ("enableNotifications", VBool true);
                             ("autoRetry", VBool true);
                             ("checkConnection", VBool true);
                             ("logToFile", VBool true) ]) ].

Definition createConfigTemplate : M Instance unit :=
  writeFile CONFIG_FILE (JSON_stringify template) ;;
  console_log "📁 config.json file has been created".

Definition loadConfig : M Instance Value :=
  try_catch
    (configData <- readFile CONFIG_FILE ;;
     config <- JSON_parse configData ;;
     username <- lift (get config "username") ;;
     if negb (truthy username)
     then throw (mkError "Username or password not found in config" None)
     else
       password <- lift (get config "password") ;;
       if negb (truthy password)
       then throw (mkError "Username or password not found in config" None)
       else ret config)
    (fun error =>
       if code_is error "ENOENT" then
         createConfigTemplate ;;
         throw (mkError "config.json file has been created. Please fill in your username and password." None)
       else throw error).

Definition saveSession (sessionData : Value) : M Instance unit :=
  try_catch
    (now <- new_Date ;;
     iso <- host (fun w => toISOString w now) ;;
     writeFile SESSION_FILE
       (JSON_stringify (VObj (assign "lastLogin" (VStr iso) (spread sessionData)))))
    (fun error =>
       console_error ("❌ Failed to save session: " ++ err_message error)).

Definition loadSession : M Instance Value :=
  try_catch
    (sessionData <- readFile SESSION_FILE ;;
     JSON_parse sessionData)
    (fun _ => ret VNull).

Definition checkInternetConnection : M Instance bool :=
  try_catch
    (response <- axios_get "http://www.google.com" 10000 ;;
     ret (status response =? 200))
    (fun _ => ret false).

Definition USER_AGENT : string :=
  "Mozilla/5.0 (Windows NT 10.0; Win64; x64) AppleWebKit/537.36".

(** [validateStatus: status => status >= 200 && status < 500] *)
Definition validateStatus (status : Z) : bool :=
  (200 <=? status) && (status <? 500).

(** One turn of the [for] loop of [loginWithRetry]: [Some o] when the body
    executes [return o], [None] when it falls through to [attempt++]. *)
Definition attempt_once (attempt : Z) (loginData : Value)
  : M Instance (option LoginOutcome) :=
  try_catch
    (max <- this maxRetries ;;
     console_log ("🔐 Trying to login... (Attempt " ++ show attempt ++ "/"
                    ++ show max ++ ")") ;;
     response <- axios_post LOGIN_URL loginData USER_AGENT 15000 validateStatus ;;
     if status response =? 200 then
       username <- lift (get loginData "username") ;;
       now <- new_Date ;;
       loginTime <- host (fun w => toISOString w now) ;;
       saveSession (VObj [ ("username", username);
                           ("loginTime", VStr loginTime);
                           ("attempt", VNum attempt) ]) ;;
       update (set_retryCount 0) ;;
       now' <- new_Date ;;
       stamp <- host (fun w => toLocaleString w now') ;;
       ret (Some (mkOutcome true "✅ Login successful!" attempt stamp))
     else
       throw (mkError ("HTTP " ++ show (status response) ++ ": "
                         ++ statusText response) None))
    (fun error =>
       console_error ("❌ Login attempt " ++ show attempt ++ " failed: "
                        ++ err_message error) ;;
       max <- this maxRetries ;;
       if attempt <? max then
         d <- this retryDelay ;;
         console_log ("⏳ Waiting " ++ show (d / 1000)
                        ++ " seconds before retrying...") ;;
         delay d ;;
         ret None
       else
         now <- new_Date ;;
         stamp <- host (fun w => toLocaleString w now) ;;
         ret (Some (mkOutcome false
                      ("❌ All login attempts failed: " ++ err_message error)
                      attempt stamp))).

(** [for (let attempt = a; attempt <= this.maxRetries; attempt++)], with
    [remaining] the number of turns left: [this.maxRetries - a + 1]. *)
Fixpoint attempts_from (remaining : nat) (attempt : Z) (loginData : Value)
  : M Instance (option LoginOutcome) :=
  match remaining with
  | O => ret None
  | S k =>
      r <- attempt_once attempt loginData ;;
      match r with
      | Some outcome => ret (Some outcome)
      | None => attempts_from k (attempt + 1) loginData
      end
  end.

(** Returns [None] for [undefined], when the loop ends without a [return]. *)
Definition loginWithRetry (loginData : Value) : M Instance (option LoginOutcome) :=
  max <- this maxRetries ;;
  attempts_from (Z.to_nat max) 1 loginData.

Definition logToFile (line : string) : M Instance unit :=
  try_catch
    (appendFile line)
    (fun error => console_error ("Failed to write log: " ++ err_message error)).

(** [type] is accepted and not used, as in the source. *)
Definition log (message : string) (type : string) : M Instance unit :=
  now <- new_Date ;;
  stamp <- host (fun w => toLocaleString w now) ;;
  let logMessage := "[" ++ stamp ++ "] " ++ message in
  console_log logMessage ;;
  cfg <- this config ;;
  if truthy (get_opt (get_opt cfg "settings") "logToFile")
  then logToFile logMessage
  else ret tt.

(** [Math.floor((now - lastLogin) / (1000 * 60))] is the floor division of
    the two integers. *)
Definition getLoginStatus : M Instance string :=
  session <- loadSession ;;
  if negb (truthy session) then ret "Never logged in"
  else
    field <- lift (get session "lastLogin") ;;
    lastLogin <- new_Date_of field ;;
    now <- new_Date ;;
    match lastLogin with
    | Some at_ =>
        let diffMinutes := (now - at_) / (1000 * 60) in
        shown <- host (fun w => toLocaleString w at_) ;;
        ret ("Last login: " ++ shown ++ " (" ++ show diffMinutes ++ " minutes ago)")
    | None =>
        ret ("Last login: Invalid Date (NaN minutes ago)")
    end.

Definition sendNotification (result : option LoginOutcome) : M Instance unit :=
  match result with
  | None => throw (type_error "success")
  | Some r =>
      if success r
      then log "📢 Notification: Login successful!" "info"
      else log "🚨 Notification: Login failed! Please check manually." "info"
  end.

(** The method has no [return] with a value: on every path the caller gets
    [undefined], here [None]. *)
Definition executeLogin : M Instance (option LoginOutcome) :=
  log "--- Starting login process ---" "info" ;;
  cfg <- this config ;;
  settings <- lift (get cfg "settings") ;;
  proceed <-
    (if truthy (get_opt settings "checkConnection") then
       isConnected <- checkInternetConnection ;;
       if negb isConnected then
         log "❌ No internet connection" "error" ;;
         ret false
       else ret true
     else ret true) ;;
  if negb proceed then ret None
  else
    cfg <- this config ;;
    username <- lift (get cfg "username") ;;
    password <- lift (get cfg "password") ;;
    let loginData := VObj [ ("username", username); ("password", password) ] in
    result <- loginWithRetry loginData ;;
    match result with
    | None => throw (type_error "message")
    | Some r =>
        log (message r) "info" ;;
        cfg <- this config ;;
        settings <- lift (get cfg "settings") ;;
        (if truthy (get_opt settings "enableNotifications")
         then sendNotification result
         else ret tt) ;;
        ret None
    end.

(** What the two timers run on each tick. *)
Definition login_tick : M Instance unit :=
  _ <- executeLogin ;;
  ret tt.

Definition connection_tick : M Instance unit :=
  isConnected <- checkInternetConnection ;;
  if negb isConnected then
    log "🌐 Internet connection lost, retrying login..." "warning" ;;
    _ <- executeLogin ;;
    ret tt
  else ret tt.

(** The [try] block of [start]. *)
Definition start_try : M Instance unit :=
  cfg <- loadConfig ;;
  update (set_config cfg) ;;
  log "✅ Config loaded successfully" "info" ;;
  status <- getLoginStatus ;;
  log ("📊 " ++ status) "info" ;;
  _ <- executeLogin ;;
  every <- this checkInterval ;;
  h <- setInterval CbExecuteLogin every ;;
  update (set_loginInterval (Some h)) ;;
  cfg <- this config ;;
  settings <- lift (get cfg "settings") ;;
  (if truthy (get_opt settings "checkConnection") then
     every' <- this connectionCheckInterval ;;
     h' <- setInterval CbConnectionCheck every' ;;
     update (set_connectionInterval (Some h'))
   else ret tt) ;;
  every <- this checkInterval ;;
  log ("✅ Service running. Auto login every " ++ show (every / 60000)
         ++ " minutes") "info".

(** The [catch] block of [start]. *)
Definition start_catch (error : JsError) : M Instance unit :=
  log ("❌ Failed to start service: " ++ err_message error) "error" ;;
  update (set_isRunning false).

Definition start : M Instance unit :=
  running <- this isRunning ;;
  if running then log "Service already running" "warning"
  else
    update (set_isRunning true) ;;
    log "🚀 Starting Advanced Auto Login Service..." "info" ;;
    try_catch start_try start_catch.

Definition stop : M Instance unit :=
  h <- this loginInterval ;;
  match h with Some id => clearInterval id | None => ret tt end ;;
  h' <- this connectionInterval ;;
  match h' with Some id => clearInterval id | None => ret tt end ;;
  update (set_isRunning false) ;;
  log "🛑 Service stopped" "info".

Definition restart : M Instance unit :=
  log "🔄 Restarting service..." "info" ;;
  stop ;;
  delay 2000 ;;
  start.

End Autologin.

(* ================================================================= *)
(** ** autolofi.js *)

Module Autolofi.

Record Instance : Type := mkInstance {
  retryCount : Z;
  maxRetries : Z;
  retryDelay : Z;
  checkInterval : Z;
  isRunning : bool;
  loginInterval : option Timer
}.

Definition LOGIN_URL : string := "http://hotspot2.stymsta.sch.id/login".

Definition constructor : Instance :=
  mkInstance 0 3 5000 (15 * 60 * 1000) false None.

Definition set_isRunning (x : bool) (t : Instance) : Instance :=
  mkInstance (retryCount t) (maxRetries t) (retryDelay t) (checkInterval t)
    x (loginInterval t).

Definition set_loginInterval (x : option Timer) (t : Instance) : Instance :=
  mkInstance (retryCount t) (maxRetries t) (retryDelay t) (checkInterval t)
    (isRunning t) x.

(** What [executeLogin] returns: [{ success: true, attempt }] or
    [{ success: false }]. *)
Record LoginOutcome : Type := mkOutcome {
  success : bool;
  attempt : option Z
}.

Definition checkInternetConnection : M Instance bool :=
  try_catch
    (_ <- axios_get "http://www.google.com" 5000 ;;
     ret true)
    (fun _ => ret false).

Definition askQuestion (prompt : string) : M Instance string :=
  question prompt.

Definition waitForUser (message : string) : M Instance unit :=
  _ <- question message ;;
  ret tt.

Definition saveConfig (config : Value) : M Instance bool :=
  try_catch
    (writeFile CONFIG_FILE (JSON_stringify config) ;;
     ret true)
    (fun error =>
       console_error ("Failed to save config: " ++ err_message error) ;;
       ret false).

(** [s.replace(/./g, '*')] on a line read from the terminal. *)
Fixpoint mask (s : string) : string :=
  match s with
  | EmptyString => EmptyString
  | String _ rest => String "*" (mask rest)
  end.

(** [s.toLowerCase() === 'y'] *)
Definition is_y (s : string) : bool :=
  ((s =? "y") || (s =? "Y"))%string.

(** Returns the configuration, or [VNull] when the user declines. *)
Definition setupWizard : M Instance Value :=
  console_log "SETUP WIZARD" ;;
  console_log "Let's configure your auto login system..." ;;
  username <- askQuestion "Enter your hotspot username: " ;;
  password <- askQuestion "Enter your hotspot password: " ;;
  let config :=
    VObj [ ("username", VStr username);
           ("password", VStr password);
           ("settings", VObj [ ("enableNotifications", VBool true);
                               ("autoRetry", VBool true);
                               ("checkConnection", VBool true);
                               ("logToFile", VBool true) ]) ] in
  console_log "SETTINGS SUMMARY:" ;;
  console_log ("Username: " ++ username) ;;
  console_log ("Password: " ++ mask password) ;;
  console_log "Auto Retry: Yes" ;;
  console_log "Check Connection: Yes" ;;
  confirm <- askQuestion "Save this configuration? (y/n): " ;;
  if is_y confirm then
    _ <- saveConfig config ;;
    console_log "Configuration saved successfully" ;;
    ret config
  else
    console_log "Configuration cancelled" ;;
    ret VNull.

Definition loadConfig : M Instance Value :=
  try_catch
    (configData <- readFile CONFIG_FILE ;;
     JSON_parse configData)
    (fun error =>
       if code_is error "ENOENT" then
         console_log "No configuration found. Starting setup wizard..." ;;
         config <- setupWizard ;;
         if truthy config then ret config
         else throw (mkError "Setup cancelled by user" None)
       else throw error).

Definition logToFile (message : string) : M Instance unit :=
  try_catch (appendFile message) (fun _ => ret tt).

Definition USER_AGENT : string := "Mozilla/5.0 (Linux; Android 10; Termux)".

(** [config.settings.autoRetry] *)
Definition autoRetry (config : Value) : M Instance bool :=
  settings <- lift (get config "settings") ;;
  flag <- lift (get settings "autoRetry") ;;
  ret (truthy flag).

(** One turn of the [for] loop of [executeLogin]: [Some o] when the body
    executes [return o], [None] when it goes on to [attempt++]. *)
Definition attempt_once (config : Value) (isTest : bool) (attempt : Z)
  : M Instance (option LoginOutcome) :=
  try_catch
    (username <- lift (get config "username") ;;
     password <- lift (get config "password") ;;
     response <- axios_post LOGIN_URL
                   (VObj [ ("username", username); ("password", password) ])
                   USER_AGENT 10000 status_2xx ;;
     if status response =? 200 then
       let successMsg := "Login successful (Attempt " ++ show attempt ++ ")" in
       console_log successMsg ;;
       (if negb isTest then logToFile successMsg else ret tt) ;;
       ret (Some (mkOutcome true (Some attempt)))
     else ret None)
    (fun error =>
       let errorMsg := "Attempt " ++ show attempt ++ " failed: "
                         ++ err_message error in
       console_log errorMsg ;;
       (if negb isTest then logToFile errorMsg else ret tt) ;;
       max <- this maxRetries ;;
       again <- (if attempt <? max then autoRetry config else ret false) ;;
       (if again then
          d <- this retryDelay ;;
          console_log ("Retrying in " ++ show (d / 1000) ++ "s...") ;;
          delay d
        else ret tt) ;;
       ret None).

Fixpoint attempts_from (remaining : nat) (config : Value) (isTest : bool)
    (attempt : Z) : M Instance (option LoginOutcome) :=
  match remaining with
  | O => ret None
  | S k =>
      r <- attempt_once config isTest attempt ;;
      match r with
      | Some outcome => ret (Some outcome)
      | None => attempts_from k config isTest (attempt + 1)
      end
  end.

(** The loop runs while
    [attempt <= (config.settings.autoRetry ? this.maxRetries : 1)]; neither
    operand changes during the call, so the bound is computed on entry. *)
Definition executeLogin (config : Value) (isTest : bool) : M Instance LoginOutcome :=
  now <- new_Date ;;
  timestamp <- host (fun w => toLocaleString w now) ;;
  let logMessage := "[" ++ timestamp ++ "] " ++ (if isTest then "TEST " else "")
                      ++ "Login attempt" in
  (if negb isTest then logToFile logMessage else ret tt) ;;
  console_log logMessage ;;
  retry <- autoRetry config ;;
  max <- this maxRetries ;;
  let bound := if retry then max else 1 in
  r <- attempts_from (Z.to_nat bound) config isTest 1 ;;
  match r with
  | Some outcome => ret outcome
  | None =>
      let failureMsg := "All login attempts failed" in
      console_log failureMsg ;;
      (if negb isTest then logToFile failureMsg else ret tt) ;;
      ret (mkOutcome false None)
  end.

Definition startService : M Instance unit :=
  running <- this isRunning ;;
  if running then
    console_log "Service is already running!" ;;
    waitForUser "Press Enter to continue..."
  else
    try_catch
      (config <- loadConfig ;;
       console_log "Starting service..." ;;
       update (set_isRunning true) ;;
       every <- this checkInterval ;;
       h <- setInterval (CbExecuteLoginWith config) every ;;
       update (set_loginInterval (Some h)) ;;
       _ <- executeLogin config false ;;
       console_log "Service started successfully!" ;;
       console_log ("Auto login every " ++ show (every / 60000) ++ " minutes") ;;
       logToFile "Service started")
      (fun error =>
         console_log ("Failed to start service: " ++ err_message error)) ;;
    waitForUser "Press Enter to continue...".

Definition stopService : M Instance unit :=
  running <- this isRunning ;;
  if negb running then
    console_log "Service is not running!" ;;
    waitForUser "Press Enter to continue..."
  else
    h <- this loginInterval ;;
    match h with Some id => clearInterval id | None => ret tt end ;;
    update (set_isRunning false) ;;
    console_log "Service stopped successfully!" ;;
    logToFile "Service stopped" ;;
    waitForUser "Press Enter to continue...".

End Autolofi.

(* ================================================================= *)
(** ** Observations on a run *)

Module Observe.

Definition is_post (e : Event) : bool :=
  match e with Post _ _ _ _ => true | _ => false end.

(** The number of POST requests among the events. *)
Definition posts (evs : list Event) : nat := List.length (filter is_post evs).

Definition on_wire (e : Event) : bool :=
  match e with Post _ _ _ _ | Sleep _ => true | _ => false end.

(** The requests to the portal and the pauses, in order. *)
Definition wire (evs : list Event) : list Event := filter on_wire evs.

Definition writes_session (e : Event) : bool :=
  match e with WriteFile SESSION_FILE _ => true | _ => false end.

Definition arms_timer (e : Event) : bool :=
  match e with SetInterval _ _ _ => true | _ => false end.

Definition is_logging (e : Event) : bool :=
  match e with
  | ConsoleLog _ | ConsoleError _ | AppendLog _ => true
  | _ => false
  end.

(** [n] requests [p] with a pause [s] between consecutive ones. *)
Fixpoint paced (n : nat) (p s : Event) : list Event :=
  match n with
  | O => []
  | S O => [p]
  | S k => p :: s :: paced k p s
  end.

(** The reply to the [i]-th POST sent from world [w] on. *)
Definition post_reply (w : World) (i : nat) : Reply :=
  post_replies w (posts_sent w + i)%nat.

(** The reply to the next GET sent from world [w]. *)
Definition probe_reply (w : World) : Reply :=
  get_replies w (gets_sent w).

(** An attempt succeeds exactly on a reply with HTTP status 200. *)
Definition accepted (r : Reply) : bool :=
  match r with
  | HttpReply s _ => s =? 200
  | NoReply _ => false
  end.

Definition is_2xx (r : Reply) : bool :=
  match r with
  | HttpReply s _ => status_2xx s
  | NoReply _ => false
  end.

End Observe.
Export Observe.

Module AutologinSpec.
Import Autologin.

(** The error [loginWithRetry] catches on a reply that is not accepted:
    axios's own for no reply or a status outside 200..499, the thrown
    [HTTP <status>: <text>] otherwise. *)
Definition failure (r : Reply) : JsError :=
  match r with
  | NoReply e => e
  | HttpReply s text =>
      if validateStatus s
      then mkError ("HTTP " ++ show s ++ ": " ++ text) None
      else bad_status s
  end.

Definition request (loginData : Value) : Event :=
  Post LOGIN_URL loginData USER_AGENT 15000.

(** What [saveSession] writes for the session of a successful turn [a],
    from login data with properties [props]. *)
Definition session_text (props : list (string * Value)) (w : World) (a : Z)
  : Text :=
  let iso := toISOString w (clock w) in
  JSON_stringify
    (VObj [ ("username", lookup "username" props);
            ("loginTime", VStr iso);
            ("attempt", VNum a);
            ("lastLogin", VStr iso) ]).

(** A run that did not write the session file. *)
Definition untouched {A} (w : World)
    (x : Res A * Instance * World * list Event) : Prop :=
  session_file (final_world x) = session_file w
  /\ existsb writes_session (events x) = false.

(** What [loadSession] hands back: the parsed content of the session file,
    or [null] when the file is missing, unreadable or not JSON. *)
Definition loaded (w : World) : Value :=
  match session_file w with
  | Holds (Json v) => v
  | _ => VNull
  end.

(** The session file is absent or cannot be read and parsed. *)
Definition no_session_file (w : World) : bool :=
  match session_file w with
  | Holds (Json _) => false
  | _ => true
  end.

(** The session object built by [loginWithRetry]. *)
Definition session_record (username loginTime : string) (attempt : Z) : Value :=
  VObj [ ("username", VStr username);
         ("loginTime", VStr loginTime);
         ("attempt", VNum attempt) ].

End AutologinSpec.

(* ================================================================= *)
(** ** Sample hosts *)

Module Sample.

Definition refused : JsError :=
  mkError "connect ECONNREFUSED 10.0.0.1:80" (Some "ECONNREFUSED").

(** A stand-in for the runtime's date functions: an instant is printed as
    its number of milliseconds and read back from it. *)
Definition read_date (v : Value) : option Z :=
  match v with
  | VStr s => option_map Z.of_int (NilZero.int_of_string s)
  | VNum n => Some n
  | _ => None
  end.

(** A fresh install behind a portal that refuses every connection. *)
Definition offline : World :=
  mkWorld 0 Missing Missing [] (fun _ => None) None
    (fun _ => NoReply refused) 0%nat
    (fun _ => NoReply refused) 0%nat
    (fun _ => "") 0%nat
    [] 0%nat
    show show read_date.

(** The portal refuses twice, then answers 200. *)
Definition third_time : World :=
  mkWorld 0 Missing Missing [] (fun _ => None) None
    (fun n => if (n <? 2)%nat then NoReply refused else HttpReply 200 "OK") 0%nat
    (fun _ => HttpReply 200 "OK") 0%nat
    (fun _ => "") 0%nat
    [] 0%nat
    show show read_date.

Definition settings (autoRetry checkConnection : bool) : Value :=
  VObj [ ("enableNotifications", VBool true);
         ("autoRetry", VBool autoRetry);
         ("checkConnection", VBool checkConnection);
         ("logToFile", VBool true) ].

Definition user_config (autoRetry checkConnection : bool) : Value :=
  VObj [ ("username", VStr "student");
         ("password", VStr "secret");
         ("settings", settings autoRetry checkConnection) ].

Definition credentials : list (string * Value) :=
  [ ("username", VStr "student"); ("password", VStr "secret") ].

(** The probe is answered [204 No Content]. *)
Definition no_content : World :=
  mkWorld 0 Missing Missing [] (fun _ => None) None
    (fun _ => HttpReply 200 "OK") 0%nat
    (fun _ => HttpReply 204 "No Content") 0%nat
    (fun _ => "") 0%nat
    [] 0%nat
    show show read_date.

(** A configuration file with a password and settings but no username. *)
Definition nameless_config : Value :=
  VObj [ ("password", VStr "secret"); ("settings", settings true true) ].

Definition nameless : World :=
  mkWorld 0 (Holds (Json nameless_config)) Missing [] (fun _ => None) None
    (fun _ => HttpReply 200 "OK") 0%nat
    (fun _ => HttpReply 200 "OK") 0%nat
    (fun _ => "") 0%nat
    [] 0%nat
    show show read_date.

(** The session file holds the JSON text [null]. *)
Definition null_session : World :=
  mkWorld 0 Missing (Holds (Json VNull)) [] (fun _ => None) None
    (fun _ => HttpReply 200 "OK") 0%nat
    (fun _ => HttpReply 200 "OK") 0%nat
    (fun _ => "") 0%nat
    [] 0%nat
    show show read_date.

(** A session saved at instant 1000, looked at 130 seconds later. *)
Definition later : World :=
  mkWorld 131000 Missing
    (Holds (Json (VObj [ ("username", VStr "student");
                         ("loginTime", VStr "1000");
                         ("attempt", VNum 1);
                         ("lastLogin", VStr "1000") ])))
    [] (fun _ => None) None
    (fun _ => HttpReply 200 "OK") 0%nat
    (fun _ => HttpReply 200 "OK") 0%nat
    (fun _ => "") 0%nat
    [] 0%nat
    show show read_date.

(** A filled-in configuration and a portal that answers 200. *)
Definition configured : World :=
  mkWorld 0 (Holds (Json (user_config true true))) Missing [] (fun _ => None) None
    (fun _ => HttpReply 200 "OK") 0%nat
    (fun _ => HttpReply 200 "OK") 0%nat
    (fun _ => "") 0%nat
    [] 0%nat
    show show read_date.

End Sample.

(* ================================================================= *)
(** ** The scheduler of autologin.js as a transition system *)

Module Scheduler.
Import Autologin.

(** What a timer runs when it fires.  [autologin.js] arms only the first
    two kinds. *)
Definition callback (cb : Callback) : M Instance unit :=
  match cb with
  | CbExecuteLogin => login_tick
  | CbConnectionCheck => connection_tick
  | CbExecuteLoginWith _ => ret tt
  end.

(** The commands of the menu and of the command line. *)
Inductive Command : Type := Start | Stop | Restart | Status | LoginNow.

Definition command (c : Command) : M Instance unit :=
  match c with
  | Start => start
  | Stop => stop
  | Restart => restart
  | Status => _ <- getLoginStatus ;; ret tt
  | LoginNow => _ <- executeLogin ;; ret tt
  end.

Definition State : Type := Instance * World.

Definition after {A} (m : M Instance A) (s : State) : State :=
  (final_this (m (fst s) (snd s)), final_world (m (fst s) (snd s))).

(** One step: a command runs to its end, an active timer fires and its
    callback runs to its end, or the host changes (files are edited, time
    passes, the network changes) without touching the timer table. *)
Inductive step : State -> State -> Prop :=
| step_command (c : Command) (s : State) :
    step s (after (command c) s)
| step_tick (id : Timer) (cb : Callback) (s : State) :
    In (id, cb) (timers (snd s)) ->
    step s (after (callback cb) s)
| step_host (t : Instance) (w w' : World) :
    timers w' = timers w ->
    next_timer w' = next_timer w ->
    step (t, w) (t, w').

(** The states of a process: it starts from the constructor with no timer. *)
Inductive reachable : State -> Prop :=
| reach_init (w : World) :
    timers w = [] -> reachable (constructor, w)
| reach_step (s s' : State) :
    reachable s -> step s s' -> reachable s'.

Definition is_login_timer (tc : Timer * Callback) : bool :=
  match snd tc with CbExecuteLogin => true | _ => false end.

Definition is_connectivity_timer (tc : Timer * Callback) : bool :=
  match snd tc with CbConnectionCheck => true | _ => false end.

Definition login_timers (w : World) : nat :=
  List.length (filter is_login_timer (timers w)).

Definition connectivity_timers (w : World) : nat :=
  List.length (filter is_connectivity_timer (timers w)).

(** What the scheduler owns: its flag, its handles, the loaded
    configuration, and the timer table. *)
Definition owned (t : Instance) (w : World)
  : bool * option Timer * option Timer * Value * list (Timer * Callback) * Timer :=
  (isRunning t, loginInterval t, connectionInterval t, config t,
   timers w, next_timer w).

(** A computation that leaves all of that alone. *)
Definition quiet {A} (m : M Instance A) : Prop :=
  forall t w,
    owned (final_this (m t w)) (final_world (m t w)) = owned t w.

(** The timers are exactly those the handles of the instance point to. *)
Definition armed (t : Instance) (w : World) : Prop :=
  exists n,
    loginInterval t = Some n
    /\ (timers w = [(n, CbExecuteLogin)]
        \/ exists m,
             m <> n
             /\ connectionInterval t = Some m
             /\ timers w = [(n, CbExecuteLogin); (m, CbConnectionCheck)]).

Definition invariant (s : State) : Prop :=
  (isRunning (fst s) = false -> timers (snd s) = [])
  /\ (timers (snd s) = [] \/ armed (fst s) (snd s)).

(** Running with no timer yet: the state in which the [try] block of
    [start] is entered. *)
Definition idle
    (o : bool * option Timer * option Timer * Value
         * list (Timer * Callback) * Timer) : Prop :=
  let '(running, _, _, _, active, _) := o in
  running = true /\ active = [].

(** The same, with the configuration loaded. *)
Definition ready
    (o : bool * option Timer * option Timer * Value
         * list (Timer * Callback) * Timer) : Prop :=
  let '(running, _, _, cfg, active, _) := o in
  running = true /\ active = [] /\ exists props, cfg = VObj props.

(** The timer table after [stop]: the timers the two handles point to are
    cleared. *)
Definition cleared (t : Instance) (w : World) : list (Timer * Callback) :=
  let without (h : option Timer) (active : list (Timer * Callback)) :=
    match h with
    | Some id => filter (fun tc => negb (Nat.eqb (fst tc) id)) active
    | None => active
    end in
  without (connectionInterval t) (without (loginInterval t) (timers w)).

End Scheduler.

(** ** Pre- and postconditions *)

Module Logic.

(** From a state satisfying [P], [m] either returns [a] in a state
    satisfying [Q a] or throws [e] in a state satisfying [X e]. *)
Definition triple {T A}
    (P : T -> World -> Prop) (m : M T A)
    (Q : A -> T -> World -> Prop) (X : JsError -> T -> World -> Prop) : Prop :=
  forall t w,
    P t w ->
    match m t w with
    | (Val a, t', w', _) => Q a t' w'
    | (Throw e, t', w', _) => X e t' w'
    end.

End Logic.

(* ================================================================= *)
(** ** More sample hosts *)

Module Cases.
Import Sample.

(** The configuration file is not JSON. *)
Definition corrupt : World :=
  mkWorld 0 (Holds (NotJson "Unexpected end of JSON input")) Missing []
    (fun _ => None) None
    (fun _ => HttpReply 200 "OK") 0%nat
    (fun _ => HttpReply 200 "OK") 0%nat
    (fun _ => "") 0%nat
    [] 0%nat
    show show read_date.



(** The session file holds a record without [lastLogin]. *)
Definition undated : World :=
  mkWorld 0 Missing (Holds (Json (VObj [ ("username", VStr "student") ]))) []
    (fun _ => None) None
    (fun _ => HttpReply 200 "OK") 0%nat
    (fun _ => HttpReply 200 "OK") 0%nat
    (fun _ => "") 0%nat
    [] 0%nat
    show show read_date.

(** A filled-in configuration, and a session file whose [lastLogin] is an
    object with a property [toString] of its own:
    [{"lastLogin": {"toString": 1}}]. *)
Definition unprintable : World :=
  mkWorld 0 (Holds (Json (user_config true true)))
    (Holds (Json (VObj [ ("lastLogin", VObj [ ("toString", VNum 1) ]) ]))) []
    (fun _ => None) None
    (fun _ => HttpReply 200 "OK") 0%nat
    (fun _ => HttpReply 200 "OK") 0%nat
    (fun _ => "") 0%nat
    [] 0%nat
    show show read_date.

(** The portal answers every POST with [204 No Content]. *)
Definition portal_204 : World :=
  mkWorld 0 Missing Missing [] (fun _ => None) None
    (fun _ => HttpReply 204 "No Content") 0%nat
    (fun _ => HttpReply 200 "OK") 0%nat
    (fun _ => "") 0%nat
    [] 0%nat
    show show read_date.

End Cases.

(* ================================================================= *)
(** ** Observations on the status query of autologin.js *)

Module StatusSpec.
Import AutologinSpec.

(** The stored session is truthy and its [lastLogin] neither denotes an
    instant nor can be turned into a primitive: [new Date(session.lastLogin)]
    throws. *)
Definition status_throws (w : World) : bool :=
  truthy (loaded w)
  && match Date_of w (get_opt (loaded w) "lastLogin") with
     | Some _ => false
     | None => no_primitive (get_opt (loaded w) "lastLogin")
     end.

(** Whether [loginData.username] can be read. *)
Definition readable (loginData : Value) : bool :=
  match loginData with
  | VUndef | VNull => false
  | _ => true
  end.

End StatusSpec.

(* ================================================================= *)
(** ** Observations on the login procedure of autolofi.js *)

Module AutolofiSpec.
Import Autolofi.

Definition request (config : Value) : Event :=
  Post LOGIN_URL
    (VObj [ ("username", get_opt config "username");
            ("password", get_opt config "password") ])
    USER_AGENT 10000.

(** The number of turns of the loop of [executeLogin]:
    [config.settings.autoRetry ? this.maxRetries : 1]. *)
Definition budget (config : Value) (t : Instance) : nat :=
  if truthy (get_opt (get_opt config "settings") "autoRetry")
  then Z.to_nat (maxRetries t)
  else 1%nat.

(** [config.settings] can be read and is itself neither [null] nor
    [undefined], so that [config.settings.autoRetry] does not throw. *)
Definition has_settings (config : Value) : Prop :=
  exists props settings,
    config = VObj props
    /\ lookup "settings" props = settings
    /\ settings <> VUndef /\ settings <> VNull.

End AutolofiSpec.

(* ================================================================= *)
(** ** Frames: what a computation leaves alone *)

Module Frame.

(** [m] keeps the observation [f] of the instance and the world as it
    was, also when it throws, and causes no event of kind [P]. *)
Definition frames {T A X} (f : T -> World -> X) (P : Event -> bool)
    (m : M T A) : Prop :=
  forall t w,
    f (final_this (m t w)) (final_world (m t w)) = f t w
    /\ existsb P (events (m t w)) = false.

Definition appends_log (e : Event) : bool :=
  match e with AppendLog _ => true | _ => false end.

Definition touches_timer (e : Event) : bool :=
  match e with
  | SetInterval _ _ _ | ClearInterval _ => true
  | _ => false
  end.

Definition writes_file (e : Event) : bool :=
  match e with WriteFile _ _ => true | _ => false end.

(** A connectivity probe, or a write to the session file. *)
Definition probes_or_saves (e : Event) : bool :=
  match e with
  | Get _ _ | WriteFile SESSION_FILE _ => true
  | _ => false
  end.

End Frame.
Export Frame.

(* ================================================================= *)
(** ** autolofi.js: the menu's other actions *)

Module AutolofiMenu.
Import Autolofi.

Definition getServiceStatus : M Instance string :=
  running <- this isRunning ;;
  if running then ret "RUNNING" else ret "STOPPED".

Definition testLogin : M Instance unit :=
  console_log "Testing login..." ;;
  try_catch
    (config <- loadConfig ;;
     result <- executeLogin config true ;;
     if success result then console_log "Login test successful!"
     else console_log "Login test failed!")
    (fun error => console_log ("Test failed: " ++ err_message error)) ;;
  waitForUser "Press Enter to continue...".

End AutolofiMenu.

(* ================================================================= *)
(** ** autolofi.js: the service as a transition system *)

Module Service.
Import Autolofi AutolofiMenu.

(** The menu's actions that reach the service or the portal. *)
Inductive Command : Type := StartService | StopService | TestLogin.

Definition command (c : Command) : M Instance unit :=
  match c with
  | StartService => startService
  | StopService => stopService
  | TestLogin => testLogin
  end.

(** What a timer runs when it fires: [() => { this.executeLogin(config) }].
    [autolofi.js] arms no other kind. *)
Definition callback (cb : Callback) : M Instance unit :=
  match cb with
  | CbExecuteLoginWith config => _ <- executeLogin config false ;; ret tt
  | _ => ret tt
  end.

Definition State : Type := Instance * World.

Definition after {A} (m : M Instance A) (s : State) : State :=
  (final_this (m (fst s) (snd s)), final_world (m (fst s) (snd s))).

(** One step: an action of the menu runs to its end, the active timer
    fires and its callback runs to its end, or the host changes (the
    configuration is edited, time passes, the network changes) without
    touching the timer table. *)
Inductive step : State -> State -> Prop :=
| step_command (c : Command) (s : State) :
    step s (after (command c) s)
| step_tick (id : Timer) (cb : Callback) (s : State) :
    In (id, cb) (timers (snd s)) ->
    step s (after (callback cb) s)
| step_host (t : Instance) (w w' : World) :
    timers w' = timers w ->
    next_timer w' = next_timer w ->
    step (t, w) (t, w').

Inductive reachable : State -> Prop :=
| reach_init (w : World) :
    timers w = [] -> reachable (constructor, w)
| reach_step (s s' : State) :
    reachable s -> step s s' -> reachable s'.

(** What the service owns: its flag, its handle and the timer table. *)
Definition owned (t : Instance) (w : World)
  : bool * option Timer * list (Timer * Callback) * Timer :=
  (isRunning t, loginInterval t, timers w, next_timer w).

(** Stopped with no timer, or running with exactly the timer the handle
    points to. *)
Definition invariant (s : State) : Prop :=
  if isRunning (fst s)
  then exists n config,
         loginInterval (fst s) = Some n
         /\ timers (snd s) = [(n, CbExecuteLoginWith config)]
  else timers (snd s) = [].

End Service.

(* ================================================================= *)
(** ** Observations on the setup wizard of autolofi.js *)

Module WizardSpec.

(** The [i]-th line typed from world [w] on. *)
Definition typed (w : World) (i : nat) : string :=
  answers w (questions_asked w + i)%nat.



(** The same, the user answering [n] to everything. *)
Definition declining : World :=
  mkWorld 0 Missing Missing [] (fun _ => None) None
    (fun _ => HttpReply 200 "OK") 0%nat
    (fun _ => HttpReply 200 "OK") 0%nat
    (fun _ => "n") 0%nat
    [] 0%nat
    show show Sample.read_date.

(** A configuration file without a [settings] object. *)
Definition bare_config : Value :=
  VObj [ ("username", VStr "student"); ("password", VStr "secret") ].

Definition bare : World :=
  mkWorld 0 (Holds (Json bare_config)) Missing [] (fun _ => None) None
    (fun _ => HttpReply 200 "OK") 0%nat
    (fun _ => HttpReply 200 "OK") 0%nat
    (fun _ => "") 0%nat
    [] 0%nat
    show show Sample.read_date.

End WizardSpec.

(* ================================================================= *)
(** * Properties *)

Arguments show : simpl never.
Arguments String.append : simpl never.

Section LoginWithRetry.
Import Autologin AutologinSpec.

Variable loginData : Value.

(** A turn whose reply is not accepted: the error is logged, and either the
    loop pauses and goes on, or (last turn) the failure is returned. *)
Lemma attempt_once_fail (a : Z) (t : Instance) (w : World) :
  accepted (post_reply w 0) = false ->
  let err := failure (post_reply w 0) in
  let sent := set_posts_sent (S (posts_sent w)) w in
  attempt_once a loginData t w =
    if a <? maxRetries t then
      (Val None, t, set_clock (clock w + retryDelay t) sent,
       [ ConsoleLog ("🔐 Trying to login... (Attempt " ++ show a ++ "/"
                       ++ show (maxRetries t) ++ ")");
         request loginData;
         ConsoleError ("❌ Login attempt " ++ show a ++ " failed: "
                         ++ err_message err);
         ConsoleLog ("⏳ Waiting " ++ show (retryDelay t / 1000)
                       ++ " seconds before retrying...");
         Sleep (retryDelay t) ])
    else
      (Val (Some (mkOutcome false
                    ("❌ All login attempts failed: " ++ err_message err)
                    a (toLocaleString w (clock w)))),
       t, sent,
       [ ConsoleLog ("🔐 Trying to login... (Attempt " ++ show a ++ "/"
                       ++ show (maxRetries t) ++ ")");
         request loginData;
         ConsoleError ("❌ Login attempt " ++ show a ++ " failed: "
                         ++ err_message err) ]).
Proof.
  unfold post_reply, failure. rewrite Nat.add_0_r.
  intros Hacc.
  unfold attempt_once, try_catch, bind, axios_post, bind, this, host, emit,
    modify, lift, console_log, console_error, delay, new_Date, ret, throw.
  cbn.
  destruct (post_replies w (posts_sent w)) as [e | s text]; cbn in *.
  - destruct (a <? maxRetries t); reflexivity.
  - destruct (validateStatus s); cbn.
    + rewrite Hacc. cbn. destruct (a <? maxRetries t); reflexivity.
    + destruct (a <? maxRetries t); reflexivity.
Qed.

End LoginWithRetry.

Section LoginWithRetryLoop.
Import Autologin AutologinSpec.

Variable loginData : Value.

Lemma post_reply_sent (w : World) (c : Z) (i : nat) :
  post_reply (set_clock c (set_posts_sent (S (posts_sent w)) w)) i
  = post_reply w (S i).
Proof. unfold post_reply. cbn. now rewrite Nat.add_succ_r. Qed.

Lemma attempts_from_step (k : nat) (a : Z) (t : Instance) (w : World) :
  attempts_from (S k) a loginData t w =
    match attempt_once a loginData t w with
    | (Val (Some o), t1, w1, e1) => (Val (Some o), t1, w1, (e1 ++ [])%list)
    | (Val None, t1, w1, e1) =>
        match attempts_from k (a + 1) loginData t1 w1 with
        | (r, t2, w2, e2) => (r, t2, w2, (e1 ++ e2)%list)
        end
    | (Throw e, t1, w1, e1) => (Throw e, t1, w1, e1)
    end.
Proof.
  cbn [attempts_from]. unfold bind at 1.
  destruct (attempt_once a loginData t w) as [[[[[o|]|e] t1] w1] e1]; reflexivity.
Qed.

(** Every reply refused: one request per turn up to [maxRetries], a pause of
    [retryDelay] after each but the last, then the failure outcome carrying
    the last error. *)
Lemma attempts_from_all_fail (k : nat) :
  forall (a : Z) (t : Instance) (w : World),
  a + Z.of_nat k = maxRetries t ->
  (forall i, (i <= k)%nat -> accepted (post_reply w i) = false) ->
  let x := attempts_from (S k) a loginData t w in
  wire (events x) = paced (S k) (request loginData) (Sleep (retryDelay t))
  /\ final_this x = t
  /\ session_file (final_world x) = session_file w
  /\ posts_sent (final_world x) = (posts_sent w + S k)%nat
  /\ exists stamp,
       result x = Val (Some (mkOutcome false
                     ("❌ All login attempts failed: "
                        ++ err_message (failure (post_reply w k)))
                     (maxRetries t) stamp)).
Proof.
  induction k as [|k IH]; intros a t w Ha Hfail x; subst x.
  - rewrite attempts_from_step, attempt_once_fail by (apply Hfail; lia).
    replace (a <? maxRetries t) with false by (symmetry; apply Z.ltb_ge; lia).
    cbn. repeat split; try lia.
    exists (toLocaleString w (clock w)). repeat f_equal. lia.
  - rewrite attempts_from_step, attempt_once_fail by (apply Hfail; lia).
    replace (a <? maxRetries t) with true by (symmetry; apply Z.ltb_lt; lia).
    set (w1 := set_clock _ _).
    assert (Hfail1 : forall i, (i <= k)%nat -> accepted (post_reply w1 i) = false).
    { intros i Hi. subst w1. rewrite post_reply_sent. apply Hfail. lia. }
    assert (Ha1 : a + 1 + Z.of_nat k = maxRetries t) by lia.
    pose proof (IH (a + 1) t w1 Ha1 Hfail1) as (Hw & Ht & Hs & Hp & stamp & Hr).
    destruct (attempts_from (S k) (a + 1) loginData t w1) as [[[r t2] w2] e2].
    unfold events, final_this, final_world, result in *. cbn [fst snd] in *.
    repeat split.
    + cbn. do 2 f_equal. exact Hw.
    + exact Ht.
    + exact Hs.
    + rewrite Hp. subst w1. cbn. lia.
    + exists stamp. subst w1. rewrite post_reply_sent in Hr. exact Hr.
Qed.

End LoginWithRetryLoop.

Section LoginWithRetrySuccess.
Import Autologin AutologinSpec.

Variable props : list (string * Value).

(** A turn whose reply has status 200: the session is handed to
    [saveSession] and the success outcome is returned, whether or not the
    write went through. *)
Lemma attempt_once_success (a : Z) (t : Instance) (w : World) :
  accepted (post_reply w 0) = true ->
  let sent := set_posts_sent (S (posts_sent w)) w in
  let trying :=
    ConsoleLog ("🔐 Trying to login... (Attempt " ++ show a ++ "/"
                  ++ show (maxRetries t) ++ ")") in
  let outcome :=
    mkOutcome true "✅ Login successful!" a (toLocaleString w (clock w)) in
  attempt_once a (VObj props) t w =
    match write_fails w SESSION_FILE with
    | None =>
        (Val (Some outcome), set_retryCount 0 t,
         set_session_file (Holds (session_text props w a)) sent,
         [ trying; request (VObj props); WriteFile SESSION_FILE (session_text props w a) ])
    | Some e =>
        (Val (Some outcome), set_retryCount 0 t, sent,
         [ trying; request (VObj props); WriteFile SESSION_FILE (session_text props w a);
           ConsoleError ("❌ Failed to save session: " ++ err_message e) ])
    end.
Proof.
  unfold post_reply. rewrite Nat.add_0_r. intros Hacc.
  unfold attempt_once, saveSession, writeFile, try_catch, bind, axios_post, bind,
    this, host, emit, modify, lift, console_log, console_error, new_Date, ret,
    throw, update, session_text.
  cbn.
  destruct (post_replies w (posts_sent w)) as [e | s text]; cbn in *;
    [discriminate|].
  apply Z.eqb_eq in Hacc. subst s. cbn.
  destruct (write_fails w SESSION_FILE); reflexivity.
Qed.


Lemma post_reply_paused (w : World) (c : Z) (i : nat) :
  post_reply (set_clock c (set_posts_sent (S (posts_sent w)) w)) i
  = post_reply w (S i).
Proof. unfold post_reply. cbn. now rewrite Nat.add_succ_r. Qed.

(** The first [j] replies refused and the next one accepted, within the
    budget: [j + 1] requests, success at turn [a + j], and (when the file
    can be written) the session of that turn on disk. *)
Lemma attempts_from_succeeds (j : nat) :
  forall (k : nat) (a : Z) (t : Instance) (w : World),
  (j < k)%nat ->
  a + Z.of_nat k = maxRetries t + 1 ->
  (forall i, (i < j)%nat -> accepted (post_reply w i) = false) ->
  accepted (post_reply w j) = true ->
  let x := attempts_from k a (VObj props) t w in
  let at_ := set_clock (clock w + Z.of_nat j * retryDelay t) w in
  posts (events x) = S j
  /\ result x = Val (Some (mkOutcome true "✅ Login successful!"
                             (a + Z.of_nat j)
                             (toLocaleString w (clock at_))))
  /\ (write_fails w SESSION_FILE = None ->
      session_file (final_world x)
      = Holds (session_text props at_ (a + Z.of_nat j))).
Proof.
  induction j as [|j IH]; intros k a t w Hk Ha Hfail Hacc x at_; subst x at_.
  - destruct k as [|k]; [lia|].
    rewrite attempts_from_step, attempt_once_success by exact Hacc.
    rewrite Z.add_0_r, Z.mul_0_l, Z.add_0_r.
    destruct (write_fails w SESSION_FILE) as [e|]; cbn; repeat split;
      try discriminate.
  - destruct k as [|k]; [lia|].
    rewrite attempts_from_step, attempt_once_fail by (apply Hfail; lia).
    replace (a <? maxRetries t) with true by (symmetry; apply Z.ltb_lt; lia).
    set (w1 := set_clock _ _).
    assert (Hfail1 : forall i, (i < j)%nat -> accepted (post_reply w1 i) = false).
    { intros i Hi. subst w1. rewrite post_reply_paused. apply Hfail. lia. }
    assert (Hacc1 : accepted (post_reply w1 j) = true).
    { subst w1. now rewrite post_reply_paused. }
    assert (Hk1 : (j < k)%nat) by lia.
    assert (Ha1 : a + 1 + Z.of_nat k = maxRetries t + 1) by lia.
    pose proof (IH k (a + 1) t w1 Hk1 Ha1 Hfail1 Hacc1) as (Hp & Hr & Hs).
    destruct (attempts_from k (a + 1) (VObj props) t w1) as [[[r t2] w2] e2].
    unfold events, final_this, final_world, result, posts in *.
    cbn [fst snd] in *.
    replace (a + Z.of_nat (S j)) with (a + 1 + Z.of_nat j) by lia.
    replace (clock w + Z.of_nat (S j) * retryDelay t)
      with (clock w1 + Z.of_nat j * retryDelay t) by (subst w1; cbn [clock set_clock]; rewrite Nat2Z.inj_succ; ring).
    repeat split.
    + cbn. now rewrite Hp.
    + exact Hr.
    + intros Hw. rewrite (Hs Hw). reflexivity.
Qed.

End LoginWithRetrySuccess.

Section LoginWithRetryFrame.
Import Autologin AutologinSpec.

Variable loginData : Value.

(** One turn either returns the success outcome, or goes on or fails
    without having touched the session file; it never throws. *)
Lemma attempt_once_cases (a : Z) (t : Instance) (w : World) :
  let x := attempt_once a loginData t w in
  (exists o, result x = Val (Some o) /\ success o = true)
  \/ (untouched w x
      /\ (result x = Val None
          \/ exists o, result x = Val (Some o) /\ success o = false)).
Proof.
  unfold untouched.
  unfold attempt_once, saveSession, writeFile, try_catch, bind, axios_post, bind,
    this, host, emit, modify, lift, console_log, console_error, new_Date, ret,
    throw, update, delay, bind, emit, host, modify.
  cbn.
  destruct (post_replies w (posts_sent w)) as [e | s text]; cbn.
  - destruct (a <? maxRetries t); cbn; right; eauto 6.
  - destruct (validateStatus s); cbn.
    + destruct (s =? 200); cbn.
      * destruct loginData; cbn;
          try (destruct (a <? maxRetries t); cbn; right; now eauto 6);
          destruct (write_fails w SESSION_FILE); cbn; left; eauto.
      * destruct (a <? maxRetries t); cbn; right; eauto 6.
    + destruct (a <? maxRetries t); cbn; right; eauto 6.
Qed.

Lemma attempts_from_cases (k : nat) :
  forall (a : Z) (t : Instance) (w : World),
  let x := attempts_from k a loginData t w in
  (exists o, result x = Val (Some o) /\ success o = true)
  \/ (untouched w x
      /\ (result x = Val None
          \/ exists o, result x = Val (Some o) /\ success o = false)).
Proof.
  induction k as [|k IH]; intros a t w x; subst x.
  - right. cbn. unfold untouched. cbn. auto.
  - rewrite attempts_from_step.
    pose proof (attempt_once_cases a t w) as H1.
    destruct (attempt_once a loginData t w) as [[[[[o|]|e] t1] w1] e1];
      unfold untouched, result, final_world, events in *; cbn [fst snd] in *.
    + destruct H1 as [H1 | [[Hs Hw] H1]].
      * left. exact H1.
      * right. rewrite app_nil_r. auto.
    + destruct H1 as [(o & H1 & _) | [[Hs Hw] _]]; [discriminate|].
      pose proof (IH (a + 1) t1 w1) as H2.
      destruct (attempts_from k (a + 1) loginData t1 w1) as [[[r t2] w2] e2].
      unfold untouched, result, final_world, events in *; cbn [fst snd] in *.
      destruct H2 as [H2 | [[Hs2 Hw2] H2]].
      * left. exact H2.
      * right. split; [|exact H2]. split.
        -- congruence.
        -- rewrite existsb_app, Hw, Hw2. reflexivity.
    + destruct H1 as [(o & H1 & _) | [_ [H1 | (o & H1 & _)]]]; discriminate.
Qed.

End LoginWithRetryFrame.

Section LoginWithRetryClaims.
Import Autologin AutologinSpec.

Lemma loginWithRetry_run (loginData : Value) (t : Instance) (w : World) :
  loginWithRetry loginData t w
  = attempts_from (Z.to_nat (maxRetries t)) 1 loginData t w.
Proof.
  unfold loginWithRetry, bind, this.
  destruct (attempts_from _ _ _ _ _) as [[[r t2] w2] e2]. reflexivity.
Qed.

Lemma posts_wire (evs : list Event) : posts evs = posts (wire evs).
Proof.
  unfold posts, wire. induction evs as [|e evs IH]; [reflexivity|].
  destruct e; cbn; rewrite ?IH; reflexivity.
Qed.

Lemma loadSession_holds (t : Instance) (w : World) (v : Value) :
  session_file w = Holds (Json v) ->
  result (loadSession t w) = Val v.
Proof.
  intros H. unfold loadSession, try_catch, bind, readFile, bind, host, file_state.
  rewrite H. reflexivity.
Qed.

(** C4: when every attempt fails, [loginWithRetry] sends exactly three
    requests, pauses the fixed 5 seconds between consecutive ones and not
    after the last, and returns [success = false] with a message built from
    the last error.  (The method never reads the configuration, so this
    holds in particular with [autoRetry = true].) *)
Theorem all_attempts_fail (loginData : Value) (t : Instance) (w : World) :
  maxRetries t = 3 ->
  retryDelay t = 5000 ->
  (forall i, (i < 3)%nat -> accepted (post_reply w i) = false) ->
  let x := loginWithRetry loginData t w in
  wire (events x)
  = [ request loginData; Sleep 5000;
      request loginData; Sleep 5000;
      request loginData ]
  /\ posts (events x) = 3%nat
  /\ exists stamp,
       result x = Val (Some (mkOutcome false
                     ("❌ All login attempts failed: "
                        ++ err_message (failure (post_reply w 2)))
                     3 stamp)).
Proof.
  intros Hmax Hdelay Hfail x. subst x.
  rewrite loginWithRetry_run, Hmax.
  change (Z.to_nat 3) with 3%nat.
  destruct (attempts_from_all_fail loginData 2 1 t w) as (Hw & _ & _ & _ & Hr).
  - rewrite Hmax. reflexivity.
  - intros i Hi. apply Hfail. lia.
  - rewrite Hdelay, Hmax in *. split; [exact Hw|]. split; [|exact Hr].
    rewrite posts_wire, Hw. reflexivity.
Qed.

Lemma all_attempts_fail_witness :
  maxRetries constructor = 3
  /\ retryDelay constructor = 5000
  /\ (forall i, (i < 3)%nat -> accepted (post_reply Sample.offline i) = false)
  /\ posts (events (loginWithRetry (VObj Sample.credentials) constructor
                      Sample.offline)) = 3%nat.
Proof.
  split; [reflexivity|]. split; [reflexivity|]. split; [intros i _; reflexivity|].
  apply (all_attempts_fail (VObj Sample.credentials) constructor Sample.offline);
    [reflexivity | reflexivity | intros i _; reflexivity].
Defined.

(** C3 as [autologin.js] has it, the program with the session store: two
    failed attempts and then a reply with status 200: [loginWithRetry]
    stops after the third request and returns
    [success = true] with [attempt = 3]; the session file then holds a
    record whose [attempt] is 3 (and whose [username] is the one sent),
    which is what [loadSession] reads back.  The record reaches the disk
    when the write does not fail; [saveSession] swallows a failed write. *)
Theorem third_attempt_succeeds
    (props : list (string * Value)) (t : Instance) (w : World) :
  maxRetries t = 3 ->
  accepted (post_reply w 0) = false ->
  accepted (post_reply w 1) = false ->
  accepted (post_reply w 2) = true ->
  let x := loginWithRetry (VObj props) t w in
  posts (events x) = 3%nat
  /\ (exists stamp,
        result x = Val (Some (mkOutcome true "✅ Login successful!" 3 stamp)))
  /\ (write_fails w SESSION_FILE = None ->
      exists record,
        session_file (final_world x) = Holds (Json (VObj record))
        /\ lookup "attempt" record = VNum 3
        /\ lookup "username" record = jsonify (lookup "username" props)
        /\ result (loadSession (final_this x) (final_world x))
           = Val (VObj record)).
Proof.
  intros Hmax H0 H1 H2 x. subst x.
  rewrite loginWithRetry_run, Hmax.
  change (Z.to_nat 3) with 3%nat.
  destruct (attempts_from_succeeds props 2 3 1 t w) as (Hp & Hr & Hs).
  - lia.
  - rewrite Hmax. reflexivity.
  - intros [|[|i]] Hi; [exact H0 | exact H1 | lia].
  - exact H2.
  - split; [exact Hp|]. split; [eexists; exact Hr|].
    intros Hwrite. specialize (Hs Hwrite).
    set (x := attempts_from 3 1 (VObj props) t w) in *.
    unfold session_text, JSON_stringify in Hs. cbn [jsonify] in Hs.
    eexists. split; [exact Hs|].
    split; [|split].
    + destruct (lookup "username" props); reflexivity.
    + destruct (lookup "username" props); reflexivity.
    + apply loadSession_holds. exact Hs.
Qed.

Lemma third_attempt_succeeds_witness :
  let x := loginWithRetry (VObj Sample.credentials) constructor
             Sample.third_time in
  maxRetries constructor = 3
  /\ accepted (post_reply Sample.third_time 0) = false
  /\ accepted (post_reply Sample.third_time 1) = false
  /\ accepted (post_reply Sample.third_time 2) = true
  /\ write_fails Sample.third_time SESSION_FILE = None
  /\ posts (events x) = 3%nat
  /\ exists record,
       session_file (final_world x) = Holds (Json (VObj record))
       /\ lookup "attempt" record = VNum 3.
Proof.
  do 5 (split; [reflexivity|]).
  destruct (third_attempt_succeeds Sample.credentials constructor
              Sample.third_time eq_refl eq_refl eq_refl eq_refl)
    as (Hposts & _ & Hsaved).
  split; [exact Hposts|].
  destruct (Hsaved eq_refl) as (record & Hfile & Hattempt & _).
  exists record. split; [exact Hfile | exact Hattempt].
Defined.

(** C10: a call of [loginWithRetry] whose outcome has [success = false]
    (no attempt was answered with status 200) never writes the session
    file: its content is what it was before the call and no write to it was
    even attempted. *)
Theorem failed_login_keeps_session
    (loginData : Value) (t : Instance) (w : World) (o : LoginOutcome) :
  result (loginWithRetry loginData t w) = Val (Some o) ->
  success o = false ->
  session_file (final_world (loginWithRetry loginData t w)) = session_file w
  /\ existsb writes_session (events (loginWithRetry loginData t w)) = false.
Proof.
  rewrite loginWithRetry_run. intros Hr Ho.
  destruct (attempts_from_cases loginData (Z.to_nat (maxRetries t)) 1 t w)
    as [(o' & Hr' & Ho') | [Hu _]].
  - rewrite Hr in Hr'. injection Hr' as <-. congruence.
  - exact Hu.
Qed.

Lemma failed_login_keeps_session_witness :
  let o := mkOutcome false
             "❌ All login attempts failed: connect ECONNREFUSED 10.0.0.1:80"
             3 "10000" in
  let x := loginWithRetry (VObj Sample.credentials) constructor Sample.offline in
  result x = Val (Some o)
  /\ success o = false
  /\ session_file (final_world x) = session_file Sample.offline
  /\ existsb writes_session (events x) = false.
Proof.
  split; [reflexivity|]. split; [reflexivity|].
  apply (failed_login_keeps_session (VObj Sample.credentials) constructor
           Sample.offline
           (mkOutcome false
              "❌ All login attempts failed: connect ECONNREFUSED 10.0.0.1:80"
              3 "10000"));
    reflexivity.
Defined.

(** C1 (not met by [autologin.js]): [loginWithRetry] never looks at the
    configuration, so behind a portal that refuses every connection it
    sends three POST requests whatever [this.config] holds; in particular
    [executeLogin] does so with [settings.autoRetry = false]. *)
Theorem autoRetry_false_still_retries :
  (forall cfg : Value,
     posts (events (loginWithRetry (VObj Sample.credentials)
                      (set_config cfg constructor) Sample.offline)) = 3%nat)
  /\ (let t := set_config (Sample.user_config false false) constructor in
      get_opt (get_opt (config t) "settings") "autoRetry" = VBool false
      /\ posts (events (executeLogin t Sample.offline)) = 3%nat).
Proof.
  split.
  - intros cfg. rewrite loginWithRetry_run.
    change (Z.to_nat (maxRetries (set_config cfg constructor))) with 3%nat.
    destruct (attempts_from_all_fail (VObj Sample.credentials) 2 1
                (set_config cfg constructor) Sample.offline)
      as (Hwire & _).
    + reflexivity.
    + intros i _. reflexivity.
    + rewrite posts_wire, Hwire. reflexivity.
  - split; vm_compute; reflexivity.
Qed.

End LoginWithRetryClaims.

Section Probe.

(** [autologin.js]: the probe sends one GET and answers whether the reply
    had status 200; it never throws. *)
Lemma autologin_probe_run (t : Autologin.Instance) (w : World) :
  Autologin.checkInternetConnection t w
  = (Val (accepted (probe_reply w)), t, set_gets_sent (S (gets_sent w)) w,
     [Get "http://www.google.com" 10000]).
Proof.
  unfold Autologin.checkInternetConnection, try_catch, bind, axios_get, bind,
    emit, host, modify, lift, ret, probe_reply.
  cbn.
  destruct (get_replies w (gets_sent w)) as [e | s text]; cbn; [reflexivity|].
  unfold status_2xx.
  destruct (Z.eqb_spec s 200) as [-> | Hne]; cbn; [reflexivity|].
  destruct ((200 <=? s) && (s <? 300)); cbn; [|reflexivity].
  apply Z.eqb_neq in Hne. now rewrite Hne.
Qed.

(** [autolofi.js]: the probe answers whether axios resolved, that is whether
    the reply had a 2xx status. *)
Lemma autolofi_probe_run (t : Autolofi.Instance) (w : World) :
  Autolofi.checkInternetConnection t w
  = (Val (is_2xx (probe_reply w)), t, set_gets_sent (S (gets_sent w)) w,
     [Get "http://www.google.com" 5000]).
Proof.
  unfold Autolofi.checkInternetConnection, try_catch, bind, axios_get, bind,
    emit, host, modify, lift, ret, probe_reply.
  cbn.
  destruct (get_replies w (gets_sent w)) as [e | s text]; cbn; [reflexivity|].
  destruct (status_2xx s); reflexivity.
Qed.

(** C5, as the code has it: the probe never throws; in [autologin.js] it
    answers [true] exactly on a reply with status 200, in [autolofi.js]
    exactly on a reply with a 2xx status; without a reply (network error,
    timeout) and on any other status it answers [false]. *)
Theorem probe_answer
    (t : Autologin.Instance) (t' : Autolofi.Instance) (w : World) :
  let a := result (Autologin.checkInternetConnection t w) in
  let b := result (Autolofi.checkInternetConnection t' w) in
  (a = Val true \/ a = Val false)
  /\ (b = Val true \/ b = Val false)
  /\ (a = Val true <-> exists text, probe_reply w = HttpReply 200 text)
  /\ (b = Val true <->
      exists s text, probe_reply w = HttpReply s text /\ 200 <= s < 300).
Proof.
  intros a b. subst a b.
  rewrite autologin_probe_run, autolofi_probe_run.
  unfold result. cbn [fst].
  split; [destruct (accepted (probe_reply w)); auto|].
  split; [destruct (is_2xx (probe_reply w)); auto|].
  destruct (probe_reply w) as [e | s text]; cbn [accepted is_2xx].
  - split; split; try discriminate.
    + intros (text & H). discriminate.
    + intros (s & text & H & _). discriminate.
  - split; split.
    + intros H. injection H as H. apply Z.eqb_eq in H. subst s. now exists text.
    + intros (text' & H). injection H as -> _. reflexivity.
    + intros H. injection H as H. unfold status_2xx in H.
      apply andb_prop in H as [H1 H2].
      exists s, text. split; [reflexivity | lia].
    + intros (s' & text' & H & Hs). injection H as -> _.
      unfold status_2xx. f_equal. apply andb_true_intro. split; lia.
Qed.

(** C5 fails as stated: a 2xx reply other than 200 makes the probe of
    [autologin.js] answer [false]. *)
Lemma probe_rejects_204 :
  is_2xx (probe_reply Sample.no_content) = true
  /\ result (Autologin.checkInternetConnection Autologin.constructor
               Sample.no_content) = Val false.
Proof. split; reflexivity. Qed.

End Probe.

Section ExecuteLogin.
Import Autologin AutologinSpec.

(** [this.log] prints the stamped line and, when [settings.logToFile] is
    set, appends it to the log file; a failing append is reported on the
    console.  Nothing but the log file changes, and nothing is thrown. *)
Lemma log_run (message type : string) (t : Instance) (w : World) :
  exists lines more,
    log message type t w
    = (Val tt, t, set_log_file lines w,
       ConsoleLog ("[" ++ toLocaleString w (clock w) ++ "] " ++ message) :: more)
    /\ forallb is_logging more = true.
Proof.
  unfold log, logToFile, appendFile, try_catch, bind, this, host, emit, modify,
    ret, throw, console_log, console_error, new_Date.
  cbn.
  set (line := "[" ++ toLocaleString w (clock w) ++ "] " ++ message).
  destruct (truthy (get_opt (get_opt (config t) "settings") "logToFile")); cbn.
  - destruct (append_fails w) as [e|]; cbn.
    + exists (log_file w),
        [AppendLog line; ConsoleError ("Failed to write log: " ++ err_message e)].
      split; [|reflexivity]. now destruct w.
    + exists (log_file w ++ [line])%list, [AppendLog line].
      split; reflexivity.
  - exists (log_file w), []. split; [|reflexivity]. now destruct w.
Qed.

Lemma logging_no_post (evs : list Event) :
  forallb is_logging evs = true -> filter is_post evs = [].
Proof.
  induction evs as [|e evs IH]; [reflexivity|].
  cbn. intros H. apply andb_prop in H as [He H].
  destruct e; try discriminate; cbn; auto.
Qed.

Local Arguments log : simpl never.
Local Arguments checkInternetConnection : simpl never.
Local Arguments loginWithRetry : simpl never.

(** C2, as the code has it: with [settings.checkConnection] set and the
    probe answering that there is no connection, [executeLogin] of
    [autologin.js] sends no POST request, leaves the session file alone,
    logs the line [No internet connection] and returns nothing
    ([undefined]), not an outcome object. *)
Theorem disconnected_login_is_skipped
    (t : Instance) (w : World) (settings : Value) :
  get (config t) "settings" = Val settings ->
  truthy (get_opt settings "checkConnection") = true ->
  accepted (probe_reply w) = false ->
  let x := executeLogin t w in
  result x = Val None
  /\ posts (events x) = 0%nat
  /\ session_file (final_world x) = session_file w
  /\ In (ConsoleLog ("[" ++ toLocaleString w (clock w) ++ "] "
                       ++ "❌ No internet connection"))
        (events x).
Proof.
  intros Hsettings Hcheck Hprobe x. subst x.
  unfold probe_reply in Hprobe.
  destruct (log_run "--- Starting login process ---" "info" t w)
    as (l1 & m1 & E1 & L1).
  unfold executeLogin, bind. rewrite E1. cbn.
  rewrite Hsettings. cbn. rewrite Hcheck. cbn.
  rewrite autologin_probe_run. cbn. unfold probe_reply. cbn.
  rewrite Hprobe. cbn.
  match goal with
  | |- context [log ?m ?ty ?t' ?w'] =>
      destruct (log_run m ty t' w') as (l2 & m2 & E2 & L2); rewrite E2
  end.
  cbn. unfold posts.
  split; [reflexivity|]. split; [|split; [reflexivity|]].
  - rewrite !app_nil_r, filter_app. cbn.
    now rewrite (logging_no_post _ L1), (logging_no_post _ L2).
  - right. apply in_or_app. right. right. left. reflexivity.
Qed.

Lemma disconnected_login_is_skipped_witness :
  let t := set_config (Sample.user_config true true) constructor in
  get (config t) "settings" = Val (Sample.settings true true)
  /\ truthy (get_opt (Sample.settings true true) "checkConnection") = true
  /\ accepted (probe_reply Sample.offline) = false
  /\ result (executeLogin t Sample.offline) = Val None.
Proof.
  repeat (split; [reflexivity|]).
  apply (disconnected_login_is_skipped
           (set_config (Sample.user_config true true) constructor)
           Sample.offline (Sample.settings true true));
    reflexivity.
Defined.

(** C2 fails as stated: behind a dead connection the login procedure hands
    back no failure outcome; [executeLogin] returns [undefined]. *)
Lemma disconnected_login_returns_nothing :
  let t := set_config (Sample.user_config true true) constructor in
  let x := executeLogin t Sample.offline in
  truthy (get_opt (get_opt (config t) "settings") "checkConnection") = true
  /\ accepted (probe_reply Sample.offline) = false
  /\ result x = Val None
  /\ ~ (exists o, result x = Val (Some o) /\ success o = false).
Proof.
  cbv zeta.
  assert (E : result (executeLogin
                        (set_config (Sample.user_config true true) constructor)
                        Sample.offline) = Val None) by (vm_compute; reflexivity).
  repeat split; try reflexivity; try exact E.
  intros (o & Ho & _). rewrite E in Ho. discriminate.
Qed.

End ExecuteLogin.

Section StartWithoutCredentials.
Import Autologin AutologinSpec.

(** A parsed configuration whose [username] or [password] is missing (or
    null, or empty) makes [loadConfig] throw, without any other effect. *)
Lemma loadConfig_rejects (t : Instance) (w : World) (v : Value) :
  config_file w = Holds (Json v) ->
  truthy (get_opt v "username") = false \/ truthy (get_opt v "password") = false ->
  exists e, loadConfig t w = (Throw e, t, w, []).
Proof.
  intros Hfile Hlacks.
  unfold loadConfig, try_catch, bind, readFile, bind, host, JSON_parse, lift,
    ret, throw, file_state.
  rewrite Hfile. cbn.
  destruct v as [| |b|n|s|items|props]; cbn in *;
    try (eexists; reflexivity).
  destruct (truthy (lookup "username" props)); cbn.
  - destruct Hlacks as [H|H]; [discriminate|]. rewrite H. cbn.
    eexists; reflexivity.
  - eexists; reflexivity.
Qed.

Local Arguments log : simpl never.
Local Arguments loadConfig : simpl never.

(** C6 as [autologin.js] has it, the program that checks the credentials:
    when the parsed configuration lacks a username or a password, loading
    it fails, [start] reports the failure, arms no timer and leaves
    the service stopped. *)
Theorem start_without_credentials (t : Instance) (w : World) (v : Value) :
  isRunning t = false ->
  config_file w = Holds (Json v) ->
  truthy (get_opt v "username") = false \/ truthy (get_opt v "password") = false ->
  let x := start t w in
  (exists e, result (loadConfig t w) = Throw e)
  /\ result x = Val tt
  /\ isRunning (final_this x) = false
  /\ timers (final_world x) = timers w
  /\ existsb arms_timer (events x) = false
  /\ exists why,
       In (ConsoleLog ("[" ++ toLocaleString w (clock w) ++ "] "
                         ++ "❌ Failed to start service: " ++ why))
          (events x).
Proof.
  intros Hstopped Hfile Hlacks x. subst x.
  split.
  { destruct (loadConfig_rejects t w v Hfile Hlacks) as (e & ->). now exists e. }
  destruct (log_run "🚀 Starting Advanced Auto Login Service..." "info"
              (set_isRunning true t) w) as (l1 & m1 & E1 & L1).
  destruct (loadConfig_rejects (set_isRunning true t) (set_log_file l1 w) v
              Hfile Hlacks) as (e & Eload).
  destruct (log_run ("❌ Failed to start service: " ++ err_message e) "error"
              (set_isRunning true t) (set_log_file l1 w)) as (l2 & m2 & E2 & L2).
  unfold start, start_try, start_catch, bind, try_catch. cbn.
  rewrite Hstopped. cbn.
  rewrite E1. cbn. rewrite Eload. cbn. rewrite E2. cbn.
  split; [reflexivity|]. split; [reflexivity|]. split; [reflexivity|].
  split.
  - rewrite !app_nil_r, existsb_app. cbn.
    assert (Hno : forall m, forallb is_logging m = true ->
                            existsb arms_timer m = false).
    { induction m as [|ev m IH]; [reflexivity|]. cbn. intros H.
      apply andb_prop in H as [Hev H]. rewrite (IH H).
      destruct ev; try discriminate; reflexivity. }
    now rewrite (Hno _ L1), (Hno _ L2).
  - exists (err_message e). right. apply in_or_app. right. left. reflexivity.
Qed.

Lemma start_without_credentials_witness :
  isRunning constructor = false
  /\ config_file Sample.nameless = Holds (Json Sample.nameless_config)
  /\ truthy (get_opt Sample.nameless_config "username") = false
  /\ isRunning (final_this (start constructor Sample.nameless)) = false
  /\ timers (final_world (start constructor Sample.nameless)) = [].
Proof.
  do 3 (split; [reflexivity|]).
  destruct (start_without_credentials constructor Sample.nameless
              Sample.nameless_config eq_refl eq_refl (or_introl eq_refl))
    as (_ & _ & Hstopped & Htimers & _).
  split; [exact Hstopped | exact Htimers].
Defined.

(** [autolofi.js] is different: its [loadConfig] hands back whatever the
    file parses to, with no look at the credentials. *)
Lemma autolofi_loadConfig_unchecked
    (t : Autolofi.Instance) (w : World) (v : Value) :
  config_file w = Holds (Json v) ->
  Autolofi.loadConfig t w = (Val v, t, w, []).
Proof.
  intros Hfile.
  unfold Autolofi.loadConfig, try_catch, bind, readFile, bind, host, JSON_parse,
    ret, file_state.
  rewrite Hfile. reflexivity.
Qed.

End StartWithoutCredentials.

Section SessionStore.
Import Autologin AutologinSpec.

Lemma loadSession_run (t : Instance) (w : World) :
  loadSession t w = (Val (loaded w), t, w, []).
Proof.
  unfold loadSession, loaded, try_catch, bind, readFile, bind, host, JSON_parse,
    ret, throw, file_state.
  cbn. destruct (session_file w) as [|e|[why|v]]; reflexivity.
Qed.

Lemma getLoginStatus_run (t : Instance) (w : World) :
  getLoginStatus t w
  = ((if negb (truthy (loaded w)) then Val "Never logged in"
      else match Date_of w (get_opt (loaded w) "lastLogin") with
           | Some T =>
               Val ("Last login: " ++ toLocaleString w T ++ " ("
                      ++ show ((clock w - T) / (1000 * 60)) ++ " minutes ago)")
           | None =>
               if no_primitive (get_opt (loaded w) "lastLogin")
               then Throw cannot_convert
               else Val "Last login: Invalid Date (NaN minutes ago)"
           end),
     t, w, []).
Proof.
  unfold getLoginStatus, bind. rewrite loadSession_run.
  unfold new_Date_of, bind, lift, host, new_Date, ret, throw. cbn.
  destruct (loaded w) as [| |b|n|s|items|props]; cbn; try reflexivity.
  - destruct b; cbn; [|reflexivity].
    destruct (Date_of w VUndef); reflexivity.
  - destruct (n =? 0); cbn; [reflexivity|].
    destruct (Date_of w VUndef); reflexivity.
  - destruct (s =? "")%string; cbn; [reflexivity|].
    destruct (Date_of w VUndef); reflexivity.
  - destruct (Date_of w VUndef); reflexivity.
  - destruct (Date_of w (lookup "lastLogin" props)); [reflexivity|].
    destruct (no_primitive (lookup "lastLogin" props)); reflexivity.
Qed.

(** C8, as the code has it: [getLoginStatus] answers [Never logged in]
    exactly when [loadSession] hands back a falsy value, that is when the
    session file is missing, unreadable or not JSON, and also when it holds
    a falsy JSON value such as [null]; otherwise, for a stored [lastLogin]
    denoting the instant [T], the minutes it reports are
    [floor((now - T) / 60000)], so 2 for a call 130 seconds after [T]. *)
Theorem login_status (t : Instance) (w : World) :
  let x := getLoginStatus t w in
  (result x = Val "Never logged in" <-> truthy (loaded w) = false)
  /\ (no_session_file w = true -> result x = Val "Never logged in")
  /\ (forall T,
        truthy (loaded w) = true ->
        Date_of w (get_opt (loaded w) "lastLogin") = Some T ->
        result x = Val ("Last login: " ++ toLocaleString w T ++ " ("
                          ++ show ((clock w - T) / 60000) ++ " minutes ago)")
        /\ (clock w = T + 130000 ->
            result x = Val ("Last login: " ++ toLocaleString w T
                              ++ " (2 minutes ago)"))).
Proof.
  intros x. subst x. rewrite getLoginStatus_run. unfold result. cbn [fst].
  split; [|split].
  - destruct (truthy (loaded w)); cbn [negb]; split; intros H;
      try reflexivity; try discriminate.
    destruct (Date_of w (get_opt (loaded w) "lastLogin")); [discriminate|].
    destruct (no_primitive (get_opt (loaded w) "lastLogin")); discriminate.
  - unfold no_session_file, loaded.
    destruct (session_file w) as [|e|[why|v]]; intros H;
      try discriminate; reflexivity.
  - intros T Htruthy HT. rewrite Htruthy, HT. cbn [negb].
    split; [reflexivity|].
    intros Hnow. rewrite Hnow.
    replace (T + 130000 - T) with 130000 by lia. reflexivity.
Qed.

Lemma login_status_witness :
  truthy (loaded Sample.later) = true
  /\ Date_of Sample.later (get_opt (loaded Sample.later) "lastLogin") = Some 1000
  /\ clock Sample.later = 1000 + 130000
  /\ result (getLoginStatus constructor Sample.later)
     = Val "Last login: 1000 (2 minutes ago)".
Proof.
  do 3 (split; [reflexivity|]).
  destruct (login_status constructor Sample.later) as (_ & _ & H).
  destruct (H 1000 eq_refl eq_refl) as (_ & H130).
  exact (H130 eq_refl).
Defined.

(** C8 fails as stated: a session file that is present and parses (to
    [null]) still gives [Never logged in]. *)
Lemma null_session_never_logged_in :
  no_session_file Sample.null_session = false
  /\ result (getLoginStatus constructor Sample.null_session)
     = Val "Never logged in".
Proof. split; reflexivity. Qed.

End SessionStore.

Section RoundTrip.
Import Autologin AutologinSpec.

Lemma lookup_assign (k k' : string) (v : Value) (props : list (string * Value)) :
  lookup k (assign k' v props)
  = if (k =? k')%string then v else lookup k props.
Proof.
  induction props as [|[k0 v0] props IH]; cbn.
  - destruct (k =? k')%string; reflexivity.
  - destruct (String.eqb_spec k' k0) as [-> | Hne]; cbn.
    + destruct (k =? k0)%string; reflexivity.
    + rewrite IH.
      destruct (String.eqb_spec k k0) as [-> | Hne']; [|reflexivity].
      destruct (String.eqb_spec k0 k'); [congruence | reflexivity].
Qed.

Lemma keys_assign (k : string) (v : Value) (props : list (string * Value)) :
  NoDup (map fst props) -> NoDup (map fst (assign k v props)).
Proof.
  assert (Hin : forall x ps, In x (map fst (assign k v ps)) ->
                             x = k \/ In x (map fst ps)).
  { intros x ps. induction ps as [|[k0 v0] ps IH]; cbn.
    - intros [H|[]]; auto.
    - destruct (String.eqb_spec k k0) as [-> | Hne]; cbn; [tauto|].
      intros [H|H]; [auto | destruct (IH H); auto]. }
  induction props as [|[k0 v0] props IH]; cbn; intros Hnd.
  - constructor; [intros [] | constructor].
  - inversion Hnd as [|? ? Hnotin Hnd']; subst.
    destruct (String.eqb_spec k k0) as [-> | Hne]; cbn.
    + constructor; assumption.
    + constructor; [|auto].
      intros H. destruct (Hin _ _ H); [congruence | contradiction].
Qed.

Lemma lookup_absent (k : string) (props : list (string * Value)) :
  ~ In k (map fst props) -> lookup k props = VUndef.
Proof.
  induction props as [|[k0 v0] props IH]; cbn; [reflexivity|].
  intros H. destruct (String.eqb_spec k k0) as [-> | Hne]; [tauto|].
  apply IH. tauto.
Qed.

(** Through [JSON.stringify] and [JSON.parse] each property of an object
    comes back as the round trip of its value. *)
Lemma jsonify_property (k : string) (props : list (string * Value)) :
  NoDup (map fst props) ->
  get_opt (jsonify (VObj props)) k = jsonify (lookup k props).
Proof.
  cbn [jsonify get_opt].
  induction props as [|[k0 v0] props IH]; intros Hnd; [reflexivity|].
  inversion Hnd as [|? ? Hnotin Hnd']; subst.
  specialize (IH Hnd').
  cbn [lookup].
  destruct (String.eqb_spec k k0) as [-> | Hne].
  - destruct v0; cbn [lookup]; rewrite ?String.eqb_refl; try reflexivity.
    rewrite IH, (lookup_absent _ _ Hnotin). reflexivity.
  - destruct v0; cbn [lookup];
      try (destruct (String.eqb_spec k k0); [congruence|]); exact IH.
Qed.

Lemma saveSession_run (v : Value) (t : Instance) (w : World) :
  write_fails w SESSION_FILE = None ->
  let text :=
    JSON_stringify
      (VObj (assign "lastLogin" (VStr (toISOString w (clock w))) (spread v))) in
  saveSession v t w
  = (Val tt, t, set_session_file (Holds text) w, [WriteFile SESSION_FILE text]).
Proof.
  intros Hwrite text.
  unfold saveSession, try_catch, bind, writeFile, bind, emit, host, modify,
    new_Date, throw, set_file.
  cbn -[JSON_stringify assign]. rewrite Hwrite. reflexivity.
Qed.

(** Saving any object and loading it again gives back each of its
    properties but [lastLogin], the stamp [saveSession] sets itself. *)
Lemma saved_property
    (props : list (string * Value)) (k : string) (t : Instance) (w : World) :
  NoDup (map fst props) ->
  k <> "lastLogin" ->
  write_fails w SESSION_FILE = None ->
  let x := saveSession (VObj props) t w in
  get_opt (loaded (final_world x)) k = jsonify (lookup k props).
Proof.
  intros Hnd Hk Hwrite x. subst x.
  rewrite saveSession_run by exact Hwrite.
  unfold final_world, loaded, JSON_stringify.
  cbn [fst snd session_file set_session_file spread].
  rewrite jsonify_property by (apply keys_assign; exact Hnd).
  rewrite lookup_assign.
  destruct (String.eqb_spec k "lastLogin"); [contradiction | reflexivity].
Qed.

(** C9: a session record saved by [saveSession] and read back by
    [loadSession] has the [username] and the [attempt] it was saved with
    (the write not failing; [saveSession] swallows a failed write). *)
Theorem session_round_trip
    (username loginTime : string) (attempt : Z) (t : Instance) (w : World) :
  write_fails w SESSION_FILE = None ->
  let r := session_record username loginTime attempt in
  let x := saveSession r t w in
  let y := loadSession (final_this x) (final_world x) in
  result x = Val tt
  /\ exists stored,
       result y = Val stored
       /\ get stored "username" = get r "username"
       /\ get stored "attempt" = get r "attempt"
       /\ get stored "username" = Val (VStr username)
       /\ get stored "attempt" = Val (VNum attempt).
Proof.
  intros Hwrite r x y. subst y.
  rewrite loadSession_run. unfold result at 2. cbn [fst].
  assert (Hnd : NoDup (map fst [ ("username", VStr username);
                                 ("loginTime", VStr loginTime);
                                 ("attempt", VNum attempt) ])).
  { cbn. repeat constructor; cbn; intuition discriminate. }
  pose proof (saved_property _ "username" t w Hnd ltac:(discriminate) Hwrite) as Hu.
  pose proof (saved_property _ "attempt" t w Hnd ltac:(discriminate) Hwrite) as Ha.
  cbn zeta in Hu, Ha. fold (session_record username loginTime attempt) in Hu, Ha.
  fold r in Hu, Ha. fold x in Hu, Ha.
  split.
  - subst x. now rewrite saveSession_run.
  - exists (loaded (final_world x)). split; [reflexivity|].
    assert (Hobj : exists ps, loaded (final_world x) = VObj ps).
    { subst x. rewrite saveSession_run by exact Hwrite.
      eexists. reflexivity. }
    destruct Hobj as (ps & Hps). rewrite Hps in *. cbn in Hu, Ha |- *.
    rewrite Hu, Ha. repeat split; reflexivity.
Qed.

Lemma session_round_trip_witness :
  write_fails Sample.offline SESSION_FILE = None
  /\ exists stored,
       result (loadSession constructor
                 (final_world (saveSession (session_record "student" "0" 2)
                                 constructor Sample.offline)))
       = Val stored
       /\ get stored "username" = Val (VStr "student")
       /\ get stored "attempt" = Val (VNum 2).
Proof.
  split; [reflexivity|].
  destruct (session_round_trip "student" "0" 2 constructor Sample.offline eq_refl)
    as (_ & stored & Hload & _ & _ & Hu & Ha).
  exists stored. split; [exact Hload|]. split; [exact Hu | exact Ha].
Defined.

End RoundTrip.

(* ----------------------------------------------------------------- *)
(** ** What leaves the scheduler's state alone *)

Section Quiet.
Import Autologin Scheduler.

Lemma quiet_ret {A} (a : A) : quiet (ret a).
Proof. intros t w. reflexivity. Qed.

Lemma quiet_throw {A} (e : JsError) : quiet (@throw Instance A e).
Proof. intros t w. reflexivity. Qed.

Lemma quiet_lift {A} (r : Res A) : quiet (lift r).
Proof. intros t w. reflexivity. Qed.

Lemma quiet_this {A} (f : Instance -> A) : quiet (this f).
Proof. intros t w. reflexivity. Qed.

Lemma quiet_host {A} (f : World -> A) : quiet (host f).
Proof. intros t w. reflexivity. Qed.

Lemma quiet_emit (e : Event) : quiet (emit e).
Proof. intros t w. reflexivity. Qed.

Lemma quiet_bind {A B} (m : M Instance A) (f : A -> M Instance B) :
  quiet m -> (forall a, quiet (f a)) -> quiet (bind m f).
Proof.
  intros Hm Hf t w. specialize (Hm t w). unfold bind.
  destruct (m t w) as [[[[a|e] t1] w1] e1]; cbn in *; [|exact Hm].
  specialize (Hf a t1 w1).
  destruct (f a t1 w1) as [[[r t2] w2] e2]; cbn in *. congruence.
Qed.

Lemma quiet_try_catch {A} (m : M Instance A) (h : JsError -> M Instance A) :
  quiet m -> (forall e, quiet (h e)) -> quiet (try_catch m h).
Proof.
  intros Hm Hh t w. specialize (Hm t w). unfold try_catch.
  destruct (m t w) as [[[[a|e] t1] w1] e1]; cbn in *; [exact Hm|].
  specialize (Hh e t1 w1).
  destruct (h e t1 w1) as [[[r t2] w2] e2]; cbn in *. congruence.
Qed.

Lemma quiet_modify (g : World -> World) :
  (forall w, timers (g w) = timers w) ->
  (forall w, next_timer (g w) = next_timer w) ->
  quiet (modify g).
Proof. intros H1 H2 t w. unfold owned. cbn. now rewrite H1, H2. Qed.

Lemma quiet_retryCount (x : Z) : quiet (update (set_retryCount x)).
Proof. intros t w. reflexivity. Qed.

Create HintDb quiet.
#[local] Hint Resolve quiet_ret quiet_throw quiet_lift quiet_this quiet_host
  quiet_emit quiet_retryCount : quiet.

(** Goes through a computation statement by statement. *)
Ltac quiet :=
  repeat first
    [ progress intros
    | progress cbv zeta
    | solve [auto with quiet]
    | apply quiet_bind
    | apply quiet_try_catch
    | solve [apply quiet_modify; intros; reflexivity]
    | match goal with
      | |- quiet (if ?b then _ else _) => destruct b
      | |- quiet (match ?x with _ => _ end) => destruct x
      end ].

Lemma quiet_console_log (line : string) : quiet (console_log line).
Proof. unfold console_log. quiet. Qed.

Lemma quiet_console_error (line : string) : quiet (console_error line).
Proof. unfold console_error. quiet. Qed.

Lemma quiet_new_Date : quiet (@new_Date Instance).
Proof. unfold new_Date. quiet. Qed.

Lemma quiet_delay (ms : Z) : quiet (delay ms).
Proof. unfold delay. quiet. Qed.

Lemma quiet_axios_post url data ua timeout validate :
  quiet (axios_post url data ua timeout validate).
Proof. unfold axios_post. quiet. Qed.

Lemma quiet_axios_get url timeout : quiet (axios_get url timeout).
Proof. unfold axios_get. quiet. Qed.

Lemma quiet_readFile (f : FileName) : quiet (readFile f).
Proof. unfold readFile. quiet. Qed.

Lemma quiet_writeFile (f : FileName) (text : Text) : quiet (writeFile f text).
Proof. unfold writeFile. quiet. destruct f; quiet. Qed.

Lemma quiet_appendFile (line : string) : quiet (appendFile line).
Proof. unfold appendFile. quiet. Qed.

Lemma quiet_JSON_parse (text : Text) : quiet (JSON_parse text).
Proof. unfold JSON_parse. quiet. Qed.

#[local] Hint Resolve quiet_console_log quiet_console_error quiet_new_Date
  quiet_delay quiet_axios_post quiet_axios_get quiet_readFile quiet_writeFile
  quiet_appendFile quiet_JSON_parse : quiet.

Lemma quiet_logToFile (line : string) : quiet (logToFile line).
Proof. unfold logToFile. quiet. Qed.
#[local] Hint Resolve quiet_logToFile : quiet.

Lemma quiet_log (message type : string) : quiet (log message type).
Proof. unfold log. quiet. Qed.
#[local] Hint Resolve quiet_log : quiet.

Lemma quiet_saveSession (v : Value) : quiet (saveSession v).
Proof. unfold saveSession. quiet. Qed.

Lemma quiet_loadSession : quiet loadSession.
Proof. unfold loadSession. quiet. Qed.

Lemma quiet_createConfigTemplate : quiet createConfigTemplate.
Proof. unfold createConfigTemplate. quiet. Qed.
#[local] Hint Resolve quiet_saveSession quiet_loadSession
  quiet_createConfigTemplate : quiet.

Lemma quiet_loadConfig : quiet loadConfig.
Proof. unfold loadConfig. quiet. Qed.

Lemma quiet_checkInternetConnection : quiet checkInternetConnection.
Proof. unfold checkInternetConnection. quiet. Qed.

Lemma quiet_getLoginStatus : quiet getLoginStatus.
Proof. unfold getLoginStatus. quiet. Qed.

Lemma quiet_attempt_once (a : Z) (loginData : Value) :
  quiet (attempt_once a loginData).
Proof. unfold attempt_once. quiet. Qed.

Lemma quiet_attempts_from (k : nat) :
  forall (a : Z) (loginData : Value), quiet (attempts_from k a loginData).
Proof.
  induction k as [|k IH]; intros a loginData; cbn [attempts_from].
  - quiet.
  - apply quiet_bind; [apply quiet_attempt_once|].
    intros [o|]; [quiet | apply IH].
Qed.

Lemma quiet_loginWithRetry (loginData : Value) : quiet (loginWithRetry loginData).
Proof.
  unfold loginWithRetry. apply quiet_bind; [quiet|].
  intros max. apply quiet_attempts_from.
Qed.

Lemma quiet_sendNotification (r : option LoginOutcome) : quiet (sendNotification r).
Proof. unfold sendNotification. quiet. Qed.

#[local] Hint Resolve quiet_loadConfig quiet_checkInternetConnection
  quiet_getLoginStatus quiet_loginWithRetry quiet_sendNotification : quiet.

Lemma quiet_executeLogin : quiet executeLogin.
Proof. unfold executeLogin. quiet. Qed.
#[local] Hint Resolve quiet_executeLogin : quiet.

Lemma quiet_login_tick : quiet login_tick.
Proof. unfold login_tick. quiet. Qed.

Lemma quiet_connection_tick : quiet connection_tick.
Proof. unfold connection_tick. quiet. Qed.

Lemma quiet_callback (cb : Callback) : quiet (callback cb).
Proof.
  destruct cb; cbn [callback];
    [apply quiet_login_tick | apply quiet_connection_tick | quiet].
Qed.

End Quiet.

(* ----------------------------------------------------------------- *)
(** ** Rules for pre- and postconditions *)

Section Triples.
Import Logic.
Context {T : Type}.

Lemma triple_bind {A B} (P : T -> World -> Prop) (m : M T A) (f : A -> M T B)
    (R : A -> T -> World -> Prop) Q X :
  triple P m R X ->
  (forall a, triple (R a) (f a) Q X) ->
  triple P (bind m f) Q X.
Proof.
  intros Hm Hf t w HP. specialize (Hm t w HP). unfold bind.
  destruct (m t w) as [[[[a|e] t1] w1] e1]; [|exact Hm].
  specialize (Hf a t1 w1 Hm).
  destruct (f a t1 w1) as [[[r t2] w2] e2]. exact Hf.
Qed.

Lemma triple_conseq {A} (P P' : T -> World -> Prop) (m : M T A)
    (Q Q' : A -> T -> World -> Prop) (X X' : JsError -> T -> World -> Prop) :
  triple P' m Q' X' ->
  (forall t w, P t w -> P' t w) ->
  (forall a t w, Q' a t w -> Q a t w) ->
  (forall e t w, X' e t w -> X e t w) ->
  triple P m Q X.
Proof.
  intros Hm HP HQ HX t w H. specialize (Hm t w (HP t w H)).
  destruct (m t w) as [[[[a|e] t1] w1] e1]; auto.
Qed.

Lemma triple_conj {A} (P : T -> World -> Prop) (m : M T A) Q Q' X X' :
  triple P m Q X ->
  triple P m Q' X' ->
  triple P m (fun a t w => Q a t w /\ Q' a t w) (fun e t w => X e t w /\ X' e t w).
Proof.
  intros H1 H2 t w HP. specialize (H1 t w HP). specialize (H2 t w HP).
  destruct (m t w) as [[[[a|e] t1] w1] e1]; auto.
Qed.

End Triples.

Section SchedulerSteps.
Import Logic Autologin AutologinSpec Scheduler.

(** A quiet computation keeps whatever holds of the scheduler's state. *)
Lemma triple_quiet {A} (m : M Instance A) (I : _ -> Prop) :
  quiet m ->
  triple (fun t w => I (owned t w)) m
    (fun _ t w => I (owned t w)) (fun _ t w => I (owned t w)).
Proof.
  intros Hm t w HI. specialize (Hm t w).
  destruct (m t w) as [[[[a|e] t1] w1] e1]; cbn in Hm; now rewrite Hm.
Qed.

(** [loadConfig] only ever returns an object. *)
Lemma loadConfig_value :
  triple (fun _ _ => True) loadConfig
    (fun cfg _ _ => exists props, cfg = VObj props) (fun _ _ _ => True).
Proof.
  intros t w _.
  unfold loadConfig, try_catch, bind, readFile, bind, host, JSON_parse, lift,
    ret, throw, file_state, createConfigTemplate, writeFile, bind, emit, host,
    modify, console_log, emit.
  cbn.
  destruct (config_file w) as [|e|[why|v]]; cbn.
  - destruct (write_fails w CONFIG_FILE); cbn; exact I.
  - destruct (code_is e "ENOENT"); cbn; [|exact I].
    destruct (write_fails w CONFIG_FILE); cbn; exact I.
  - exact I.
  - destruct v as [| |b|n|s|items|props]; cbn; try exact I.
    destruct (truthy (lookup "username" props)); cbn; [|exact I].
    destruct (truthy (lookup "password" props)); cbn; [|exact I].
    now exists props.
Qed.

Local Arguments log : simpl never.
Local Arguments loadConfig : simpl never.
Local Arguments getLoginStatus : simpl never.
Local Arguments executeLogin : simpl never.

(** The [try] block of [start], entered with no timer active: if it
    throws, still no timer is active; if it completes, the timers are
    exactly the ones its handles point to. *)
Lemma start_try_spec :
  triple (fun t w => idle (owned t w)) start_try
    (fun _ t w => isRunning t = true /\ armed t w)
    (fun _ t w => isRunning t = true /\ timers w = []).
Proof.
  unfold start_try.
  eapply triple_bind with
    (R := fun cfg t w => idle (owned t w) /\ exists props, cfg = VObj props).
  { assert (Hload : triple (fun t w => idle (owned t w)) loadConfig
                      (fun cfg _ _ => exists props, cfg = VObj props)
                      (fun _ _ _ => True)).
    { eapply triple_conseq; [apply loadConfig_value | cbn; auto ..]. }
    eapply triple_conseq.
    - exact (triple_conj _ _ _ _ _ _
               (triple_quiet loadConfig idle quiet_loadConfig) Hload).
    - auto.
    - intros a t w H. exact H.
    - intros e t w [H _]. exact H. }
  intros cfg.
  eapply triple_bind with (R := fun _ t w => ready (owned t w)).
  { intros t w [[Hrun Hnone] Hcfg]. cbn in *. auto. }
  intros ?; cbv beta.
  assert (Hquiet : forall A (m : M Instance A), quiet m ->
            triple (fun t w => ready (owned t w)) m
              (fun _ t w => ready (owned t w))
              (fun _ t w => isRunning t = true /\ timers w = [])).
  { intros A m Hm. eapply triple_conseq.
    - apply (triple_quiet m ready Hm).
    - auto.
    - auto.
    - intros e t w H. cbn in H. tauto. }
  eapply triple_bind; [apply Hquiet, quiet_log|]. intros ?; cbv beta.
  eapply triple_bind; [apply Hquiet, quiet_getLoginStatus|]. intros status; cbv beta.
  eapply triple_bind; [apply Hquiet, quiet_log|]. intros ?; cbv beta.
  eapply triple_bind; [apply Hquiet, quiet_executeLogin|]. intros ?; cbv beta.
  intros t w (Hrun & Hnone & props & Hcfg). cbn in Hrun, Hnone, Hcfg.
  unfold bind, this, setInterval, bind, host, emit, modify, update, ret, lift.
  cbn. rewrite Hcfg, Hnone. cbn.
  destruct (truthy (get_opt (lookup "settings" props) "checkConnection")); cbn.
  - match goal with
    | |- context [log ?m ?ty ?t' ?w'] =>
        destruct (log_run m ty t' w') as (l & more & E & _); rewrite E
    end.
    cbn. split; [exact Hrun|].
    exists (next_timer w). split; [reflexivity|].
    right. exists (S (next_timer w)). split; [lia|]. split; reflexivity.
  - match goal with
    | |- context [log ?m ?ty ?t' ?w'] =>
        destruct (log_run m ty t' w') as (l & more & E & _); rewrite E
    end.
    cbn. split; [exact Hrun|].
    exists (next_timer w). split; [reflexivity|]. left. reflexivity.
Qed.

End SchedulerSteps.

Section SchedulerInvariant.
Import Logic Autologin AutologinSpec Scheduler.

Local Arguments log : simpl never.
Local Arguments start_try : simpl never.

(** [start] while running only logs a warning. *)
Lemma start_running (t : Instance) (w : World) :
  isRunning t = true ->
  exists lines more,
    start t w
    = (Val tt, t, set_log_file lines w,
       ConsoleLog ("[" ++ toLocaleString w (clock w) ++ "] "
                     ++ "Service already running") :: more)
    /\ forallb is_logging more = true.
Proof.
  intros Hrun.
  destruct (log_run "Service already running" "warning" t w)
    as (l & more & E & Hmore).
  exists l, more. split; [|exact Hmore].
  unfold start, bind, this. rewrite Hrun, E. reflexivity.
Qed.

(** [start] while stopped, no timer being active: it never throws, and ends
    either stopped without a timer or running with its timers armed. *)
Lemma start_stopped (t : Instance) (w : World) :
  isRunning t = false ->
  timers w = [] ->
  result (start t w) = Val tt /\ invariant (after start (t, w)).
Proof.
  intros Hstop Hnone.
  destruct (log_run "🚀 Starting Advanced Auto Login Service..." "info"
              (set_isRunning true t) w) as (l1 & m1 & E1 & _).
  pose proof (start_try_spec (set_isRunning true t) (set_log_file l1 w)) as Htry.
  unfold after, invariant, final_this, final_world, result. cbn [fst snd].
  unfold start, start_catch, bind, try_catch, this, update.
  rewrite Hstop, E1.
  destruct (start_try (set_isRunning true t) (set_log_file l1 w))
    as [[[[[]|e] t1] w1] e1].
  - destruct Htry as [Hrun Harmed]; [cbn; auto|].
    cbn. split; [reflexivity|]. split; [congruence | right; exact Harmed].
  - destruct Htry as [Hrun Hnone1]; [cbn; auto|].
    destruct (log_run ("❌ Failed to start service: " ++ err_message e) "error"
                t1 w1) as (l2 & m2 & E2 & _).
    rewrite E2. cbn. auto.
Qed.

(** [stop] clears the timers of both handles, lowers the flag and logs; it
    never throws. *)
Lemma stop_run (t : Instance) (w : World) :
  exists lines evs,
    stop t w
    = (Val tt, set_isRunning false t,
       set_log_file lines (set_timers (cleared t w) (next_timer w) w), evs).
Proof.
  unfold cleared.
  unfold stop, bind, this, clearInterval, bind, host, emit, modify, update, ret.
  destruct (loginInterval t) as [a|], (connectionInterval t) as [b|]; cbn;
    match goal with
    | |- context [log ?m ?ty ?t' ?w'] =>
        destruct (log_run m ty t' w') as (l & more & E & _); rewrite E
    end;
    cbn; eexists; eexists; reflexivity.
Qed.

Lemma filter_twice {A} (p q : A -> bool) (l : list A) :
  filter q (filter p (filter q (filter p l))) = filter q (filter p l).
Proof.
  induction l as [|x l IH]; [reflexivity|].
  cbn. destruct (p x) eqn:Hp; cbn; [|exact IH].
  destruct (q x) eqn:Hq; cbn; [|exact IH].
  rewrite Hp. cbn. rewrite Hq. now rewrite IH.
Qed.

Lemma filter_twice_one {A} (p : A -> bool) (l : list A) :
  filter p (filter p l) = filter p l.
Proof.
  induction l as [|x l IH]; [reflexivity|].
  cbn. destruct (p x) eqn:Hp; cbn; [|exact IH].
  rewrite Hp. now rewrite IH.
Qed.

(** Clearing what is already cleared changes nothing. *)
Lemma cleared_again (t : Instance) (w : World) (lines : list string) :
  cleared (set_isRunning false t)
    (set_log_file lines (set_timers (cleared t w) (next_timer w) w))
  = cleared t w.
Proof.
  unfold cleared. cbn.
  destruct (loginInterval t) as [a|], (connectionInterval t) as [b|];
    auto using filter_twice, filter_twice_one.
Qed.

(** Under the invariant, [stop] leaves no timer. *)
Lemma cleared_all (t : Instance) (w : World) :
  invariant (t, w) -> cleared t w = [].
Proof.
  intros [_ [Hnone | (n & Hlogin & Harmed)]]; cbn in *; unfold cleared.
  - rewrite Hnone.
    destruct (loginInterval t), (connectionInterval t); reflexivity.
  - rewrite Hlogin.
    destruct Harmed as [-> | (m & Hm & -> & ->)]; cbn.
    + rewrite Nat.eqb_refl. cbn.
      destruct (connectionInterval t); reflexivity.
    + rewrite Nat.eqb_refl. cbn.
      apply Nat.eqb_neq in Hm. rewrite Hm. cbn.
      now rewrite Nat.eqb_refl.
Qed.

Lemma invariant_owned (t t' : Instance) (w w' : World) :
  owned t' w' = owned t w -> invariant (t, w) -> invariant (t', w').
Proof.
  unfold owned, invariant, armed. cbn. intros H.
  injection H as Hr Hl Hc _ Ht _. rewrite Hr, Hl, Hc, Ht. auto.
Qed.

Lemma invariant_quiet {A} (m : M Instance A) (s : State) :
  quiet m -> invariant s -> invariant (after m s).
Proof.
  intros Hm. destruct s as [t w]. apply invariant_owned. apply Hm.
Qed.

Lemma invariant_stop (s : State) : invariant s -> invariant (after stop s).
Proof.
  destruct s as [t w]. intros Hinv.
  destruct (stop_run t w) as (l & evs & E).
  unfold after, final_this, final_world. cbn [fst snd]. rewrite E. cbn [fst snd].
  rewrite (cleared_all t w Hinv).
  split; cbn; auto.
Qed.

Lemma invariant_start (s : State) : invariant s -> invariant (after start s).
Proof.
  destruct s as [t w]. intros Hinv.
  destruct (isRunning t) eqn:Hrun.
  - destruct (start_running t w Hrun) as (l & more & E & _).
    unfold after, final_this, final_world. cbn [fst snd]. rewrite E. cbn [fst snd].
    revert Hinv. apply invariant_owned. reflexivity.
  - apply start_stopped; [exact Hrun|]. apply Hinv. exact Hrun.
Qed.

Lemma invariant_restart (s : State) : invariant s -> invariant (after restart s).
Proof.
  destruct s as [t w]. intros Hinv.
  destruct (log_run "🔄 Restarting service..." "info" t w) as (l0 & m0 & E0 & _).
  assert (Hinv0 : invariant (t, set_log_file l0 w)).
  { revert Hinv. apply invariant_owned. reflexivity. }
  destruct (stop_run t (set_log_file l0 w)) as (l1 & evs & E1).
  pose proof (cleared_all _ _ Hinv0) as Hnone.
  set (t1 := set_isRunning false t) in *.
  set (w1 := set_log_file l1 _) in *.
  pose proof (start_stopped t1 (set_clock (clock w1 + 2000) w1) eq_refl) as Hstart.
  unfold after, final_this, final_world in *. cbn [fst snd] in *.
  unfold restart, bind. rewrite E0, E1.
  unfold delay, bind, emit, host, modify. cbn [fst snd].
  destruct (start t1 (set_clock (clock w1 + 2000) w1)) as [[[r t2] w2] e2].
  cbn [fst snd] in *. apply Hstart.
  subst w1. cbn. exact Hnone.
Qed.

Lemma invariant_step (s s' : State) : step s s' -> invariant s -> invariant s'.
Proof.
  intros Hstep Hinv. destruct Hstep as [c s | id cb s Hin | t w w' Ht Hn].
  - destruct c; cbn [command].
    + now apply invariant_start.
    + now apply invariant_stop.
    + now apply invariant_restart.
    + apply invariant_quiet; [|exact Hinv].
      apply quiet_bind; [apply quiet_getLoginStatus | intros; apply quiet_ret].
    + apply invariant_quiet; [|exact Hinv].
      apply quiet_bind; [apply quiet_executeLogin | intros; apply quiet_ret].
  - apply invariant_quiet; [apply quiet_callback | exact Hinv].
  - destruct Hinv as [H1 H2]. unfold invariant, armed in *. cbn in *.
    rewrite Ht. auto.
Qed.

Lemma invariant_reachable (s : State) : reachable s -> invariant s.
Proof.
  induction 1 as [w Hnone | s s' _ IH Hstep].
  - split; cbn; auto.
  - exact (invariant_step s s' Hstep IH).
Qed.

Lemma invariant_counts (s : State) :
  invariant s ->
  (login_timers (snd s) <= 1)%nat /\ (connectivity_timers (snd s) <= 1)%nat.
Proof.
  destruct s as [t w].
  unfold login_timers, connectivity_timers.
  intros [_ [Hnone | (n & _ & [H | (m & _ & _ & H)])]]; cbn in *;
    rewrite ?Hnone, ?H; cbn; lia.
Qed.

(** C7: in every reachable state at most one login timer and at most one
    connectivity timer are active; [start] while running changes nothing
    but the log; and a second [stop] in a row changes nothing but the log
    and does not throw. *)
Theorem scheduler_invariants :
  (forall s, reachable s ->
     (login_timers (snd s) <= 1)%nat /\ (connectivity_timers (snd s) <= 1)%nat)
  /\ (forall t w,
        isRunning t = true ->
        let x := start t w in
        result x = Val tt
        /\ final_this x = t
        /\ (exists lines, final_world x = set_log_file lines w)
        /\ forallb is_logging (events x) = true)
  /\ (forall t w,
        let x := stop t w in
        let y := stop (final_this x) (final_world x) in
        result x = Val tt
        /\ result y = Val tt
        /\ final_this y = final_this x
        /\ exists lines, final_world y = set_log_file lines (final_world x)).
Proof.
  split; [|split].
  - intros s Hs. apply invariant_counts, invariant_reachable, Hs.
  - intros t w Hrun x. subst x.
    destruct (start_running t w Hrun) as (l & more & E & Hmore).
    rewrite E. cbn. repeat split; eauto.
  - intros t w x y. subst y x.
    destruct (stop_run t w) as (l1 & e1 & E1). rewrite E1.
    unfold result, final_this, final_world. cbn [fst snd].
    destruct (stop_run (set_isRunning false t)
                (set_log_file l1 (set_timers (cleared t w) (next_timer w) w)))
      as (l2 & e2 & E2).
    rewrite E2. cbn [fst snd]. rewrite cleared_again.
    repeat split. exists l2. reflexivity.
Qed.

End SchedulerInvariant.

Section SchedulerExamples.
Import Autologin Scheduler.

Lemma scheduler_invariants_witness :
  let s := after (command Start) (constructor, Sample.configured) in
  reachable s
  /\ (login_timers (snd s) <= 1)%nat
  /\ (connectivity_timers (snd s) <= 1)%nat.
Proof.
  assert (H : reachable (after (command Start) (constructor, Sample.configured))).
  { apply (reach_step (constructor, Sample.configured));
      [apply reach_init; reflexivity | apply (step_command Start)]. }
  split; [exact H|].
  exact (proj1 scheduler_invariants _ H).
Defined.

(** The bound is reached: after a successful [start] both timers are
    active, one of each kind. *)
Example both_timers_armed :
  let s := after start (constructor, Sample.configured) in
  isRunning (fst s) = true
  /\ timers (snd s) = [(0%nat, CbExecuteLogin); (1%nat, CbConnectionCheck)]
  /\ login_timers (snd s) = 1%nat
  /\ connectivity_timers (snd s) = 1%nat.
Proof. vm_compute. repeat split. Qed.

End SchedulerExamples.

(* ----------------------------------------------------------------- *)
(** ** The login procedure of autolofi.js *)

Section AutolofiLogin.
Import Autolofi.

Lemma autolofi_logToFile_run (message : string) (t : Instance) (w : World) :
  exists lines,
    logToFile message t w = (Val tt, t, set_log_file lines w, [AppendLog message]).
Proof.
  unfold logToFile, appendFile, try_catch, bind, emit, host, modify, throw, ret.
  cbn. destruct (append_fails w); cbn.
  - exists (log_file w). now destruct w.
  - eexists. reflexivity.
Qed.

Local Arguments logToFile : simpl never.

Ltac log_step :=
  match goal with
  | |- context [logToFile ?m ?t' ?w'] =>
      let l := fresh "l" in
      let E := fresh "E" in
      destruct (autolofi_logToFile_run m t' w') as (l & E); rewrite E; cbn
  end.

(** With [settings.autoRetry] off, [executeLogin] of [autolofi.js] sends
    exactly one POST request, whatever the reply. *)
Lemma autolofi_single_attempt
    (config settings flag : Value) (isTest : bool) (t : Instance) (w : World) :
  get config "settings" = Val settings ->
  get settings "autoRetry" = Val flag ->
  truthy flag = false ->
  posts (events (executeLogin config isTest t w)) = 1%nat.
Proof.
  intros Hsettings Hflag Hfalse.
  assert (Hname : exists u, get config "username" = Val u).
  { destruct config; try discriminate; cbn; eauto. }
  assert (Hpass : exists p, get config "password" = Val p).
  { destruct config; try discriminate; cbn; eauto. }
  destruct Hname as (u & Hname). destruct Hpass as (p & Hpass).
  unfold executeLogin, attempt_once, autoRetry, bind, try_catch.
  destruct isTest; cbn; repeat log_step;
    rewrite Hsettings; cbn; rewrite Hflag; cbn; rewrite Hfalse; cbn;
    change (Pos.to_nat 1) with 1%nat; cbn [attempts_from];
    unfold attempt_once, autoRetry, bind, try_catch;
    rewrite Hname; cbn; rewrite Hpass; cbn;
    match goal with
    | |- context [post_replies ?w' ?n] =>
        destruct (post_replies w' n) as [e|s text]; cbn
    end;
    try destruct (status_2xx s); cbn;
    try destruct (s =? 200); cbn;
    repeat log_step;
    try (destruct (1 <? maxRetries t); cbn);
    try rewrite Hsettings; cbn; try rewrite Hflag; cbn; try rewrite Hfalse; cbn;
    repeat log_step; reflexivity.
Qed.

(** The third attempt answered 200: [executeLogin] of [autolofi.js] returns
    [{ success: true, attempt: 3 }] after three requests; this program
    keeps no session file. *)
Example autolofi_third_attempt :
  let x := executeLogin (Sample.user_config true true) false constructor
             Sample.third_time in
  result x = Val (mkOutcome true (Some 3))
  /\ posts (events x) = 3%nat
  /\ session_file (final_world x) = Missing.
Proof. vm_compute. repeat split. Qed.

(** [executeLogin] of [autolofi.js] never probes the connection: with
    [settings.checkConnection] set and the network down it still sends its
    POST requests. *)
Example autolofi_never_probes :
  let x := executeLogin (Sample.user_config true true) false constructor
             Sample.offline in
  gets_sent (final_world x) = 0%nat
  /\ posts (events x) = 3%nat
  /\ result x = Val (mkOutcome false None).
Proof. vm_compute. repeat split. Qed.

(** [startService] of [autolofi.js] starts on a configuration without a
    username: its [loadConfig] does not look at the credentials. *)
Example autolofi_starts_without_username :
  let x := startService constructor Sample.nameless in
  isRunning (final_this x) = true
  /\ timers (final_world x)
     = [(0%nat, CbExecuteLoginWith Sample.nameless_config)].
Proof. vm_compute. split; reflexivity. Qed.

End AutolofiLogin.

(* ================================================================= *)
(** * Further properties of autologin.js *)

Section LoginWithRetryShape.
Import Autologin AutologinSpec.

Variable loginData : Value.

(** One turn sends one request; it either returns an outcome stamped with
    the turn's number (a failure only on the last turn of the budget), or
    pauses for [retryDelay] and lets the loop go on, the instance being
    what it was. *)
Lemma attempt_once_wire (a : Z) (t : Instance) (w : World) :
  let x := attempt_once a loginData t w in
  (exists o,
     result x = Val (Some o)
     /\ attempt o = a
     /\ wire (events x) = [request loginData]
     /\ (success o = false -> maxRetries t <= a))
  \/ (result x = Val None
      /\ a < maxRetries t
      /\ wire (events x) = [request loginData; Sleep (retryDelay t)]
      /\ final_this x = t).
Proof.
  unfold attempt_once, saveSession, writeFile, try_catch, bind, axios_post, bind,
    this, host, emit, modify, lift, console_log, console_error, new_Date, ret,
    throw, update, delay, bind, emit, host, modify.
  cbn.
  destruct (post_replies w (posts_sent w)) as [e | s text]; cbn;
    [| destruct (validateStatus s); cbn;
       [destruct (s =? 200); cbn;
        [destruct loginData; cbn;
         try (destruct (write_fails w SESSION_FILE); cbn; left;
              eexists; repeat split; discriminate) |] |]];
    (destruct (a <? maxRetries t) eqn:Hlt; cbn;
     [ right; repeat split; now apply Z.ltb_lt
     | left; eexists; repeat split; intros _; now apply Z.ltb_ge ]).
Qed.

Lemma paced_more (n : nat) (p s : Event) :
  p :: s :: paced (S n) p s = paced (S (S n)) p s.
Proof. reflexivity. Qed.

Lemma posts_paced (n : nat) (p s : Event) :
  is_post p = true -> is_post s = false -> posts (paced n p s) = n.
Proof.
  intros Hp Hs. unfold posts.
  induction n as [|[|n] IH]; [reflexivity | cbn; now rewrite Hp |].
  rewrite <- paced_more. cbn [filter]. rewrite Hp, Hs. cbn [List.length].
  now rewrite IH.
Qed.

Lemma attempts_from_shape (k : nat) :
  forall (a : Z) (t : Instance) (w : World),
  a + Z.of_nat k = maxRetries t ->
  let x := attempts_from (S k) a loginData t w in
  exists o,
    result x = Val (Some o)
    /\ a <= attempt o <= maxRetries t
    /\ wire (events x)
       = paced (Z.to_nat (attempt o - a + 1)) (request loginData)
           (Sleep (retryDelay t))
    /\ (success o = false -> attempt o = maxRetries t).
Proof.
  induction k as [|k IH]; intros a t w Ha x; subst x;
    rewrite attempts_from_step;
    pose proof (attempt_once_wire a t w) as H1;
    destruct (attempt_once a loginData t w) as [[[[[o|]|e] t1] w1] e1];
    unfold result, events, final_this in *; cbn [fst snd] in *;
    destruct H1 as [(o' & Ho & Hatt & Hwire & Hfail) | (Hr & Hlt & Hwire & Ht)];
    try discriminate.
  - injection Ho as <-. exists o. rewrite app_nil_r, Hwire, Hatt.
    replace (a - a + 1) with 1 by lia.
    repeat split; try lia; intros Hf; specialize (Hfail Hf); lia.
  - lia.
  - injection Ho as <-. exists o. rewrite app_nil_r, Hwire, Hatt.
    replace (a - a + 1) with 1 by lia.
    repeat split; try lia; intros Hf; specialize (Hfail Hf); lia.
  - subst t1.
    destruct (IH (a + 1) t w1 ltac:(lia)) as (o & Hr' & Hrange & Hw' & Hf').
    destruct (attempts_from (S k) (a + 1) loginData t w1) as [[[r t2] w2] e2].
    cbn [fst snd] in *. exists o. split; [exact Hr'|]. split; [lia|].
    split; [|exact Hf'].
    unfold wire in *. rewrite filter_app, Hwire, Hw'. cbn [app].
    replace (Z.to_nat (attempt o - a + 1))
      with (S (Z.to_nat (attempt o - (a + 1) + 1))) by lia.
    destruct (Z.to_nat (attempt o - (a + 1) + 1)) as [|n] eqn:Hn; [lia|].
    reflexivity.
Qed.

(** X1: with a budget of at least one attempt, [loginWithRetry] never
    throws and always returns an outcome; its [attempt] field counts the
    POST requests sent, which are separated by pauses of [retryDelay] with
    none after the last; a failure is returned only once the whole budget
    is spent. *)
Theorem outcome_counts_requests (t : Instance) (w : World) :
  1 <= maxRetries t ->
  let x := loginWithRetry loginData t w in
  exists o,
    result x = Val (Some o)
    /\ 1 <= attempt o <= maxRetries t
    /\ posts (events x) = Z.to_nat (attempt o)
    /\ wire (events x)
       = paced (Z.to_nat (attempt o)) (request loginData) (Sleep (retryDelay t))
    /\ (success o = false -> attempt o = maxRetries t).
Proof.
  intros Hmax x. subst x. rewrite loginWithRetry_run.
  destruct (Z.to_nat (maxRetries t)) as [|k] eqn:Hk; [lia|].
  destruct (attempts_from_shape k 1 t w ltac:(lia)) as (o & Hr & Hrange & Hw & Hf).
  exists o. replace (attempt o - 1 + 1) with (attempt o) in Hw by lia.
  split; [exact Hr|]. split; [exact Hrange|]. split; [|split; [exact Hw | exact Hf]].
  rewrite posts_wire, Hw. apply posts_paced; reflexivity.
Qed.

End LoginWithRetryShape.

Section LoginWithRetryShapeExamples.
Import Autologin AutologinSpec.

Lemma outcome_counts_requests_witness :
  let x := loginWithRetry (VObj Sample.credentials) constructor
             Sample.third_time in
  1 <= maxRetries constructor
  /\ exists o,
       result x = Val (Some o)
       /\ 1 <= attempt o <= maxRetries constructor
       /\ posts (events x) = Z.to_nat (attempt o)
       /\ wire (events x)
          = paced (Z.to_nat (attempt o)) (request (VObj Sample.credentials))
              (Sleep (retryDelay constructor))
       /\ (success o = false -> attempt o = maxRetries constructor).
Proof.
  split; [cbn; lia|].
  apply (outcome_counts_requests (VObj Sample.credentials) constructor
           Sample.third_time).
  cbn; lia.
Defined.

End LoginWithRetryShapeExamples.

Section LoginWithRetryFirstSuccess.
Import Autologin AutologinSpec StatusSpec.

Variable loginData : Value.

(** Among the first [n] values of a test, either none passes or there is a
    first one that does. *)
Lemma first_passing (f : nat -> bool) (n : nat) :
  (forall i, (i < n)%nat -> f i = false)
  \/ exists j, (j < n)%nat /\ f j = true /\ forall i, (i < j)%nat -> f i = false.
Proof.
  induction n as [|n [Hnone | (j & Hj & Hpass & Hfirst)]].
  - left. intros i Hi. lia.
  - destruct (f n) eqn:Hn.
    + right. exists n. repeat split; [lia | exact Hn | exact Hnone].
    + left. intros i Hi. destruct (Nat.eq_dec i n) as [-> | Hne]; [exact Hn|].
      apply Hnone. lia.
  - right. exists j. repeat split; [lia | exact Hpass | exact Hfirst].
Qed.

Lemma post_reply_next (w w' : World) (i : nat) :
  post_replies w' = post_replies w ->
  posts_sent w' = S (posts_sent w) ->
  post_reply w' i = post_reply w (S i).
Proof.
  intros Hr Hs. unfold post_reply. rewrite Hr, Hs. f_equal. lia.
Qed.

(** One turn succeeds exactly on a reply with status 200 to login data
    whose [username] can be read (in the [try] block the read comes after
    the request); otherwise it goes on, or returns the failure on the last
    turn of the budget.  Either way it sends one request. *)
Lemma attempt_once_verdict (a : Z) (t : Instance) (w : World) :
  let x := attempt_once a loginData t w in
  let good := accepted (post_reply w 0) && readable loginData in
  posts (events x) = 1%nat
  /\ post_replies (final_world x) = post_replies w
  /\ posts_sent (final_world x) = S (posts_sent w)
  /\ maxRetries (final_this x) = maxRetries t
  /\ (good = true ->
      exists o, result x = Val (Some o) /\ success o = true /\ attempt o = a)
  /\ (good = false ->
      if a <? maxRetries t then result x = Val None
      else exists o,
             result x = Val (Some o) /\ success o = false /\ attempt o = a).
Proof.
  unfold post_reply. rewrite Nat.add_0_r.
  unfold attempt_once, saveSession, writeFile, try_catch, bind, axios_post, bind,
    this, host, emit, modify, lift, console_log, console_error, new_Date, ret,
    throw, update, delay, bind, emit, host, modify.
  cbn.
  destruct (post_replies w (posts_sent w)) as [e | s text]; cbn.
  - destruct (a <? maxRetries t); cbn; repeat split; try discriminate; eauto.
  - destruct (Z.eqb_spec s 200) as [-> | Hs]; cbn.
    + destruct loginData; cbn;
        try (destruct (write_fails w SESSION_FILE); cbn;
             repeat split; try discriminate; now eauto);
        destruct (a <? maxRetries t); cbn; repeat split; try discriminate;
        eauto.
    + assert (H200 : (s =? 200) = false) by (now apply Z.eqb_neq).
      destruct (validateStatus s); cbn; rewrite ?H200; cbn;
        destruct (a <? maxRetries t); cbn; repeat split; try discriminate;
        eauto.
Qed.

Lemma attempts_from_first_good (j : nat) :
  forall (k : nat) (a : Z) (t : Instance) (w : World),
  (j < k)%nat ->
  a + Z.of_nat k = maxRetries t + 1 ->
  (forall i, (i < j)%nat ->
     accepted (post_reply w i) && readable loginData = false) ->
  accepted (post_reply w j) && readable loginData = true ->
  let x := attempts_from k a loginData t w in
  exists o,
    result x = Val (Some o)
    /\ success o = true
    /\ attempt o = a + Z.of_nat j
    /\ posts (events x) = S j.
Proof.
  induction j as [|j IH]; intros k a t w Hk Ha Hbad Hgood x; subst x;
    (destruct k as [|k]; [lia|]);
    rewrite attempts_from_step;
    destruct (attempt_once_verdict a t w)
      as (Hposts & Hr & Hs & Hmax & Hyes & Hno);
    destruct (attempt_once a loginData t w) as [[[r t1] w1] e1];
    unfold result, events, final_this, final_world in *; cbn [fst snd] in *.
  - destruct (Hyes Hgood) as (o & -> & Hsucc & Hatt).
    exists o. rewrite app_nil_r, Z.add_0_r. auto.
  - specialize (Hno (Hbad 0%nat ltac:(lia))).
    replace (a <? maxRetries t) with true in Hno
      by (symmetry; apply Z.ltb_lt; lia).
    subst r.
    destruct (IH k (a + 1) t1 w1 ltac:(lia) ltac:(lia))
      as (o & Hres & Hsucc & Hatt & Hp).
    { intros i Hi. rewrite (post_reply_next w w1 i Hr Hs). apply Hbad. lia. }
    { rewrite (post_reply_next w w1 j Hr Hs). exact Hgood. }
    destruct (attempts_from k (a + 1) loginData t1 w1) as [[[r2 t2] w2] e2].
    cbn [fst snd] in *. exists o.
    split; [exact Hres|]. split; [exact Hsucc|]. split; [lia|].
    unfold posts in *. rewrite filter_app, length_app. lia.
Qed.

Lemma attempts_from_none_good (k : nat) :
  forall (a : Z) (t : Instance) (w : World),
  a + Z.of_nat k = maxRetries t ->
  (forall i, (i <= k)%nat ->
     accepted (post_reply w i) && readable loginData = false) ->
  let x := attempts_from (S k) a loginData t w in
  exists o, result x = Val (Some o) /\ success o = false.
Proof.
  induction k as [|k IH]; intros a t w Ha Hbad x; subst x;
    rewrite attempts_from_step;
    destruct (attempt_once_verdict a t w)
      as (Hposts & Hr & Hs & Hmax & _ & Hno);
    specialize (Hno (Hbad 0%nat ltac:(lia)));
    destruct (attempt_once a loginData t w) as [[[r t1] w1] e1];
    unfold result, events, final_this, final_world in *; cbn [fst snd] in *.
  - replace (a <? maxRetries t) with false in Hno
      by (symmetry; apply Z.ltb_ge; lia).
    destruct Hno as (o & -> & Hsucc & _).
    exists o. split; [reflexivity | exact Hsucc].
  - replace (a <? maxRetries t) with true in Hno
      by (symmetry; apply Z.ltb_lt; lia).
    subst r.
    destruct (IH (a + 1) t1 w1 ltac:(lia)) as (o & Hres & Hsucc).
    { intros i Hi. rewrite (post_reply_next w w1 i Hr Hs). apply Hbad. lia. }
    destruct (attempts_from (S k) (a + 1) loginData t1 w1)
      as [[[r2 t2] w2] e2].
    cbn [fst snd] in *. exists o. split; assumption.
Qed.

(** X2: whatever the login data, [loginWithRetry] succeeds exactly when
    the login data is neither undefined nor null (so that its [username]
    can be read) and one of the first [maxRetries] replies has status 200,
    and then at the first such reply: its [attempt] is the position of that
    reply and no later reply is asked for. *)
Theorem succeeds_at_first_200 (t : Instance) (w : World) :
  1 <= maxRetries t ->
  let x := loginWithRetry loginData t w in
  exists o,
    result x = Val (Some o)
    /\ (success o = true <->
        readable loginData = true
        /\ exists i, (i < Z.to_nat (maxRetries t))%nat
                     /\ accepted (post_reply w i) = true)
    /\ (success o = true ->
        exists j,
          attempt o = Z.of_nat j + 1
          /\ accepted (post_reply w j) = true
          /\ (forall i, (i < j)%nat -> accepted (post_reply w i) = false)
          /\ posts (events x) = S j).
Proof.
  intros Hmax x. subst x. rewrite loginWithRetry_run.
  destruct (first_passing
              (fun i => accepted (post_reply w i) && readable loginData)
              (Z.to_nat (maxRetries t)))
    as [Hnone | (j & Hj & Hpass & Hfirst)]; cbv beta in *.
  - destruct (Z.to_nat (maxRetries t)) as [|k] eqn:Hk; [lia|].
    destruct (attempts_from_none_good k 1 t w ltac:(lia)) as (o & Hr & Hsucc).
    { intros i Hi. apply Hnone. lia. }
    exists o. split; [exact Hr|]. rewrite Hsucc. split.
    + split; [discriminate|]. intros (Hread & i & Hi & Hacc).
      specialize (Hnone i Hi). rewrite Hacc, Hread in Hnone. discriminate.
    + discriminate.
  - destruct (attempts_from_first_good j (Z.to_nat (maxRetries t)) 1 t w
                Hj ltac:(lia) Hfirst Hpass) as (o & Hr & Hsucc & Hatt & Hp).
    apply andb_prop in Hpass. destruct Hpass as [Hacc Hread].
    assert (Hbefore : forall i, (i < j)%nat -> accepted (post_reply w i) = false).
    { intros i Hi. specialize (Hfirst i Hi). rewrite Hread in Hfirst.
      now rewrite Bool.andb_true_r in Hfirst. }
    exists o. split; [exact Hr|]. split.
    + split; [|intros _; exact Hsucc]. intros _. split; [exact Hread|].
      exists j. auto.
    + intros _. exists j. repeat split; auto. lia.
Qed.

End LoginWithRetryFirstSuccess.

Section LoginWithRetryFirstSuccessExamples.
Import Autologin AutologinSpec StatusSpec.

Lemma succeeds_at_first_200_witness :
  let x := loginWithRetry (VObj Sample.credentials) constructor
             Sample.third_time in
  1 <= maxRetries constructor
  /\ exists o,
       result x = Val (Some o)
       /\ (success o = true <->
           readable (VObj Sample.credentials) = true
           /\ exists i, (i < Z.to_nat (maxRetries constructor))%nat
                        /\ accepted (post_reply Sample.third_time i) = true)
       /\ (success o = true ->
           exists j,
             attempt o = Z.of_nat j + 1
             /\ accepted (post_reply Sample.third_time j) = true
             /\ (forall i, (i < j)%nat ->
                   accepted (post_reply Sample.third_time i) = false)
             /\ posts (events x) = S j).
Proof.
  split; [cbn; lia|].
  apply (succeeds_at_first_200 (VObj Sample.credentials) constructor
           Sample.third_time).
  cbn; lia.
Defined.

End LoginWithRetryFirstSuccessExamples.

Section LoadConfig.
Import Autologin AutologinSpec.

Ltac run_loadConfig :=
  unfold loadConfig, try_catch, bind, readFile, bind, host, JSON_parse, lift,
    ret, throw, file_state, createConfigTemplate, writeFile, bind, emit, host,
    modify, console_log, emit, set_file;
  cbn.

(** X3: [loadConfig] returns a configuration exactly when the file parses
    to an object whose [username] and [password] are both truthy; it then
    returns that object and does nothing else. *)
Theorem loadConfig_accepts (t : Instance) (w : World) (v : Value) :
  (result (loadConfig t w) = Val v <->
   config_file w = Holds (Json v)
   /\ exists props,
        v = VObj props
        /\ truthy (lookup "username" props) = true
        /\ truthy (lookup "password" props) = true)
  /\ (result (loadConfig t w) = Val v -> loadConfig t w = (Val v, t, w, [])).
Proof.
  run_loadConfig.
  destruct (config_file w) as [|e|[why|v']]; cbn.
  - destruct (write_fails w CONFIG_FILE); cbn;
      (split; [split; [discriminate | intros [H _]; discriminate] | discriminate]).
  - destruct (code_is e "ENOENT"); cbn;
      [destruct (write_fails w CONFIG_FILE); cbn|];
      (split; [split; [discriminate | intros [H _]; discriminate] | discriminate]).
  - split; [split; [discriminate | intros [H _]; discriminate] | discriminate].
  - destruct v' as [| |b|n|s|items|props]; cbn;
      try (split; [split; [discriminate
                          | intros [H (ps & -> & _)]; discriminate]
                  | discriminate]).
    destruct (truthy (lookup "username" props)) eqn:Hu; cbn;
      [destruct (truthy (lookup "password" props)) eqn:Hp; cbn|].
    + split.
      * split.
        -- intros H. injection H as <-. split; [reflexivity|].
           exists props. auto.
        -- intros [H _]. injection H as <-. reflexivity.
      * intros H. injection H as <-. reflexivity.
    + split; [split; [discriminate|] | discriminate].
      intros [H (ps & -> & _ & Hp')]. injection H as ->. congruence.
    + split; [split; [discriminate|] | discriminate].
      intros [H (ps & -> & Hu' & _)]. injection H as ->. congruence.
Qed.

Lemma loadConfig_accepts_witness :
  result (loadConfig constructor Sample.configured)
  = Val (Sample.user_config true true)
  /\ loadConfig constructor Sample.configured
     = (Val (Sample.user_config true true), constructor, Sample.configured, []).
Proof.
  assert (H : result (loadConfig constructor Sample.configured)
              = Val (Sample.user_config true true)) by reflexivity.
  split; [exact H|].
  exact (proj2 (loadConfig_accepts constructor Sample.configured
                  (Sample.user_config true true)) H).
Defined.



(** X5: a configuration file that cannot be parsed, or cannot be read for
    another reason than its absence, makes [loadConfig] rethrow that very
    error; the file is left as it is (no template is written over it). *)
Theorem broken_config_is_kept (t : Instance) (w : World) :
  (forall why,
     config_file w = Holds (NotJson why) ->
     loadConfig t w = (Throw (mkError why None), t, w, []))
  /\ (forall e,
        config_file w = Unreadable e ->
        code_is e "ENOENT" = false ->
        loadConfig t w = (Throw e, t, w, [])).
Proof.
  split.
  - intros why Hfile. run_loadConfig. rewrite Hfile. reflexivity.
  - intros e Hfile Hcode. run_loadConfig. rewrite Hfile. cbn.
    rewrite Hcode. reflexivity.
Qed.

Lemma broken_config_is_kept_witness :
  config_file Cases.corrupt = Holds (NotJson "Unexpected end of JSON input")
  /\ final_world (loadConfig constructor Cases.corrupt) = Cases.corrupt.
Proof.
  split; [reflexivity|].
  rewrite (proj1 (broken_config_is_kept constructor Cases.corrupt)
             "Unexpected end of JSON input" eq_refl).
  reflexivity.
Defined.

End LoadConfig.

Section SessionStoreMore.
Import Autologin AutologinSpec StatusSpec.



Lemma saved_lastLogin
    (props : list (string * Value)) (t : Instance) (w : World) :
  NoDup (map fst props) ->
  write_fails w SESSION_FILE = None ->
  get_opt (loaded (final_world (saveSession (VObj props) t w))) "lastLogin"
  = VStr (toISOString w (clock w)).
Proof.
  intros Hnd Hwrite.
  rewrite saveSession_run by exact Hwrite.
  unfold final_world, loaded, JSON_stringify.
  cbn [fst snd session_file set_session_file spread].
  rewrite jsonify_property by (apply keys_assign; exact Hnd).
  rewrite lookup_assign. reflexivity.
Qed.

(** X7: the record [saveSession] stores carries the time of the save as
    [lastLogin], whatever [lastLogin] the data came with, and every other
    property of the data as it round-trips through JSON. *)
Theorem saveSession_stamps_lastLogin
    (props : list (string * Value)) (t : Instance) (w : World) :
  NoDup (map fst props) ->
  write_fails w SESSION_FILE = None ->
  let stored := loaded (final_world (saveSession (VObj props) t w)) in
  get_opt stored "lastLogin" = VStr (toISOString w (clock w))
  /\ forall k, k <> "lastLogin" -> get_opt stored k = jsonify (lookup k props).
Proof.
  intros Hnd Hwrite stored. subst stored. split.
  - now apply saved_lastLogin.
  - intros k Hk. now apply saved_property.
Qed.

Lemma saveSession_stamps_lastLogin_witness :
  let props := [ ("username", VStr "student"); ("lastLogin", VStr "stale") ] in
  NoDup (map fst props)
  /\ write_fails Sample.offline SESSION_FILE = None
  /\ get_opt (loaded (final_world (saveSession (VObj props) constructor
                                     Sample.offline))) "lastLogin"
     = VStr "0".
Proof.
  assert (Hnd : NoDup (map fst [ ("username", VStr "student");
                                 ("lastLogin", VStr "stale") ])).
  { cbn. repeat constructor; cbn; intuition discriminate. }
  split; [exact Hnd|]. split; [reflexivity|].
  exact (proj1 (saveSession_stamps_lastLogin _ constructor Sample.offline
                  Hnd eq_refl)).
Defined.

(** X8: the status asked for in any later state of the host that still
    has the session file a save wrote reports the whole minutes between the
    instant the save stamped and the instant of the query, whatever happened
    in between; provided the write went through and the runtime reads the
    ISO text of the stamp back as the same instant. *)
Theorem status_after_save
    (props : list (string * Value)) (t t' : Instance) (w w' : World) :
  NoDup (map fst props) ->
  write_fails w SESSION_FILE = None ->
  session_file w' = session_file (final_world (saveSession (VObj props) t w)) ->
  Date_of w' (VStr (toISOString w (clock w))) = Some (clock w) ->
  result (getLoginStatus t' w')
  = Val ("Last login: " ++ toLocaleString w' (clock w) ++ " ("
           ++ show ((clock w' - clock w) / 60000) ++ " minutes ago)").
Proof.
  intros Hnd Hwrite Hfile Hdate.
  pose proof (saved_lastLogin props t w Hnd Hwrite) as Hlast.
  assert (Hsame : loaded w' = loaded (final_world (saveSession (VObj props) t w))).
  { unfold loaded. now rewrite Hfile. }
  assert (Htruthy : truthy (loaded w') = true).
  { rewrite Hsame, saveSession_run by exact Hwrite. reflexivity. }
  rewrite getLoginStatus_run. unfold result. cbn [fst].
  rewrite Htruthy, Hsame, Hlast, Hdate. reflexivity.
Qed.

Lemma status_after_save_witness :
  let saved := final_world (saveSession (VObj Sample.credentials) constructor
                              Sample.offline) in
  let later := set_clock 130000 saved in
  NoDup (map fst Sample.credentials)
  /\ write_fails Sample.offline SESSION_FILE = None
  /\ session_file later = session_file saved
  /\ Date_of later (VStr (toISOString Sample.offline (clock Sample.offline)))
     = Some (clock Sample.offline)
  /\ result (getLoginStatus constructor later)
     = Val "Last login: 0 (2 minutes ago)".
Proof.
  assert (Hnd : NoDup (map fst Sample.credentials)).
  { cbn. repeat constructor; cbn; intuition discriminate. }
  split; [exact Hnd|]. do 3 (split; [reflexivity|]).
  exact (status_after_save Sample.credentials constructor constructor
           Sample.offline
           (set_clock 130000
              (final_world (saveSession (VObj Sample.credentials) constructor
                              Sample.offline)))
           Hnd eq_refl eq_refl eq_refl).
Defined.

(** X9: [getLoginStatus] only reads: it changes nothing and causes no
    event, also when it throws.  It throws in one case only, a stored
    session that is truthy and whose [lastLogin] neither denotes an instant
    nor can be turned into a primitive (an object with a [toString] property
    of its own), and then with the [TypeError] of [new Date]; in every other
    case it returns a line, the [Invalid Date] one for a [lastLogin] that is
    not a date (a record without the field, say). *)
Theorem status_only_reads (t : Instance) (w : World) :
  let x := getLoginStatus t w in
  let lastLogin := get_opt (loaded w) "lastLogin" in
  final_this x = t
  /\ final_world x = w
  /\ events x = []
  /\ (status_throws w = true -> result x = Throw cannot_convert)
  /\ (status_throws w = false -> exists line, result x = Val line)
  /\ (truthy (loaded w) = true ->
      Date_of w lastLogin = None ->
      no_primitive lastLogin = false ->
      result x = Val "Last login: Invalid Date (NaN minutes ago)").
Proof.
  intros x lastLogin. subst x lastLogin.
  rewrite getLoginStatus_run. unfold result, final_this, final_world, events.
  cbn [fst snd]. do 3 (split; [reflexivity|]).
  unfold status_throws.
  destruct (truthy (loaded w)); cbn [negb andb].
  - destruct (Date_of w (get_opt (loaded w) "lastLogin")) as [T|].
    + split; [discriminate|]. split; [eauto | discriminate].
    + destruct (no_primitive (get_opt (loaded w) "lastLogin")).
      * split; [reflexivity|]. split; discriminate.
      * split; [discriminate|]. split; [eauto | reflexivity].
  - split; [discriminate|]. split; [eauto | discriminate].
Qed.

Lemma status_only_reads_witness :
  status_throws Cases.unprintable = true
  /\ truthy (loaded Cases.undated) = true
  /\ Date_of Cases.undated (get_opt (loaded Cases.undated) "lastLogin") = None
  /\ no_primitive (get_opt (loaded Cases.undated) "lastLogin") = false
  /\ result (getLoginStatus constructor Cases.unprintable) = Throw cannot_convert
  /\ result (getLoginStatus constructor Cases.undated)
     = Val "Last login: Invalid Date (NaN minutes ago)".
Proof.
  do 4 (split; [reflexivity|]). split.
  - destruct (status_only_reads constructor Cases.unprintable)
      as (_ & _ & _ & H & _).
    exact (H eq_refl).
  - destruct (status_only_reads constructor Cases.undated)
      as (_ & _ & _ & _ & _ & H).
    exact (H eq_refl eq_refl eq_refl).
Defined.

End SessionStoreMore.

Section ExecuteLoginMore.
Import Autologin AutologinSpec StatusSpec Scheduler.

Local Arguments log : simpl never.
Local Arguments checkInternetConnection : simpl never.
Local Arguments loginWithRetry : simpl never.

Ltac log_next :=
  match goal with
  | |- context [log ?m ?ty ?t' ?w'] =>
      let l := fresh "l" in
      let more := fresh "more" in
      let E := fresh "E" in
      let L := fresh "L" in
      destruct (log_run m ty t' w') as (l & more & E & L); rewrite E; cbn
  end.

(** X10: before a configuration has been loaded ([this.config] is still
    undefined, as for the [login] command and for the menu's "Login Now"
    ahead of any start), [executeLogin] throws a [TypeError] right after its
    first log line, the one of reading [settings] of undefined (of null for
    a null configuration): no probe and no request is sent, the session
    file is untouched. *)
Theorem executeLogin_needs_config (t : Instance) (w : World) :
  config t = VUndef \/ config t = VNull ->
  let x := executeLogin t w in
  result x = Throw (match config t with
                    | VNull => null_error "settings"
                    | _ => type_error "settings"
                    end)
  /\ posts (events x) = 0%nat
  /\ gets_sent (final_world x) = gets_sent w
  /\ session_file (final_world x) = session_file w.
Proof.
  intros Hcfg x. subst x.
  unfold executeLogin, bind. log_next.
  unfold posts.
  destruct Hcfg as [-> | ->]; cbn;
    rewrite app_nil_r, (logging_no_post _ L); repeat split.
Qed.

Lemma executeLogin_needs_config_witness :
  config constructor = VUndef
  /\ result (executeLogin constructor Sample.configured)
     = Throw (type_error "settings")
  /\ result (executeLogin (set_config VNull constructor) Sample.configured)
     = Throw (null_error "settings").
Proof.
  split; [reflexivity|]. split.
  - exact (proj1 (executeLogin_needs_config constructor Sample.configured
                    (or_introl eq_refl))).
  - exact (proj1 (executeLogin_needs_config (set_config VNull constructor)
                    Sample.configured (or_intror eq_refl))).
Defined.

Lemma loginWithRetry_returns (loginData : Value) (t : Instance) (w : World) :
  1 <= maxRetries t ->
  exists o t' w' evs,
    loginWithRetry loginData t w = (Val (Some o), t', w', evs)
    /\ config t' = config t
    /\ (posts evs <= Z.to_nat (maxRetries t))%nat.
Proof.
  intros Hmax.
  pose proof (quiet_loginWithRetry loginData t w) as Hq.
  rewrite loginWithRetry_run in *.
  destruct (Z.to_nat (maxRetries t)) as [|k] eqn:Hk; [lia|].
  destruct (attempts_from_shape loginData k 1 t w ltac:(lia))
    as (o & Hr & Hrange & Hw & _).
  destruct (attempts_from (S k) 1 loginData t w) as [[[r t'] w'] evs].
  unfold result, events, final_this, final_world, owned in *. cbn [fst snd] in *.
  subst r. exists o, t', w', evs. split; [reflexivity|].
  split; [congruence|].
  rewrite posts_wire, Hw, posts_paced by reflexivity. lia.
Qed.

Lemma executeLogin_result
    (t : Instance) (w : World) (props : list (string * Value)) :
  config t = VObj props ->
  1 <= maxRetries t ->
  let x := executeLogin t w in
  result x = Val None
  /\ (posts (events x) <= Z.to_nat (maxRetries t))%nat.
Proof.
  intros Hcfg Hmax x. subst x.
  unfold executeLogin, sendNotification, bind. log_next.
  rewrite Hcfg. cbn.
  destruct (truthy (get_opt (lookup "settings" props) "checkConnection")); cbn.
  - rewrite autologin_probe_run. cbn.
    destruct (accepted _); cbn.
    + rewrite Hcfg. cbn.
      match goal with
      | |- context [loginWithRetry ?d ?t' ?w'] =>
          destruct (loginWithRetry_returns d t' w' Hmax)
            as (o & t2 & w2 & evs & E2 & Hc2 & Hp2); rewrite E2
      end.
      cbn. log_next. rewrite Hc2, Hcfg. cbn.
      destruct (truthy (get_opt (lookup "settings" props) "enableNotifications"));
        cbn; [destruct (success o); log_next|];
        (split; [reflexivity|]); unfold posts in *;
        repeat (rewrite ?filter_app, ?app_nil_r; cbn);
        rewrite ?(logging_no_post _ L), ?(logging_no_post _ L0),
          ?(logging_no_post _ L1); cbn; rewrite ?app_nil_r; lia.
    + log_next. split; [reflexivity|]. unfold posts.
      repeat (rewrite ?filter_app, ?app_nil_r; cbn).
      rewrite (logging_no_post _ L), (logging_no_post _ L0). cbn. lia.
  - rewrite Hcfg. cbn.
    match goal with
    | |- context [loginWithRetry ?d ?t' ?w'] =>
        destruct (loginWithRetry_returns d t' w' Hmax)
          as (o & t2 & w2 & evs & E2 & Hc2 & Hp2); rewrite E2
    end.
    cbn. log_next. rewrite Hc2, Hcfg. cbn.
    destruct (truthy (get_opt (lookup "settings" props) "enableNotifications"));
      cbn; [destruct (success o); log_next|];
      (split; [reflexivity|]); unfold posts in *;
      repeat (rewrite ?filter_app, ?app_nil_r; cbn);
      rewrite ?(logging_no_post _ L), ?(logging_no_post _ L0),
        ?(logging_no_post _ L1); cbn; rewrite ?app_nil_r; lia.
Qed.


Lemma executeLogin_returns
    (t : Instance) (w : World) (props : list (string * Value)) :
  config t = VObj props ->
  1 <= maxRetries t ->
  exists t' w' evs,
    executeLogin t w = (Val None, t', w', evs)
    /\ owned t' w' = owned t w.
Proof.
  intros Hcfg Hmax.
  pose proof (executeLogin_result t w props Hcfg Hmax) as [Hr _].
  pose proof (quiet_executeLogin t w) as Hq.
  destruct (executeLogin t w) as [[[r t'] w'] evs].
  unfold result, final_this, final_world in *. cbn [fst snd] in *. subst r.
  exists t', w', evs. auto.
Qed.

(** X11: once a configuration object is loaded and the budget is at least
    one attempt, [executeLogin] never throws: a dead connection, a refused
    login and a failed write all end in a normal return (of [undefined]),
    after at most [maxRetries] POST requests. *)
Theorem executeLogin_never_throws
    (t : Instance) (w : World) (props : list (string * Value)) :
  config t = VObj props ->
  1 <= maxRetries t ->
  let x := executeLogin t w in
  result x = Val None
  /\ (posts (events x) <= Z.to_nat (maxRetries t))%nat.
Proof.
  intros Hcfg Hmax x. subst x.
  destruct (executeLogin_result t w props Hcfg Hmax) as [Hr Hp].
  split; [exact Hr | exact Hp].
Qed.

Lemma executeLogin_never_throws_witness :
  let t := set_config (Sample.user_config true true) constructor in
  config t = VObj [ ("username", VStr "student");
                    ("password", VStr "secret");
                    ("settings", Sample.settings true true) ]
  /\ 1 <= maxRetries t
  /\ result (executeLogin t Sample.third_time) = Val None.
Proof.
  split; [reflexivity|]. split; [cbn; lia|].
  assert (Hmax : 1 <= maxRetries
                        (set_config (Sample.user_config true true) constructor))
    by (cbn; lia).
  exact (proj1 (executeLogin_never_throws
                  (set_config (Sample.user_config true true) constructor)
                  Sample.third_time _ eq_refl Hmax)).
Defined.

Lemma loadConfig_ok (t : Instance) (w : World) (props : list (string * Value)) :
  config_file w = Holds (Json (VObj props)) ->
  truthy (lookup "username" props) = true ->
  truthy (lookup "password" props) = true ->
  loadConfig t w = (Val (VObj props), t, w, []).
Proof.
  intros Hfile Hu Hp.
  unfold loadConfig, try_catch, bind, readFile, bind, host, JSON_parse, lift,
    ret, throw, file_state.
  rewrite Hfile. cbn. rewrite Hu. cbn. rewrite Hp. reflexivity.
Qed.

Local Arguments loadConfig : simpl never.
Local Arguments getLoginStatus : simpl never.
Local Arguments executeLogin : simpl never.

Lemma getLoginStatus_value (t : Instance) (w : World) :
  status_throws w = false ->
  exists line, getLoginStatus t w = (Val line, t, w, []).
Proof.
  intros Hst. rewrite getLoginStatus_run. unfold status_throws in Hst.
  destruct (truthy (loaded w)); cbn [negb andb] in *; [|eauto].
  destruct (Date_of w (get_opt (loaded w) "lastLogin")); [eauto|].
  rewrite Hst. eauto.
Qed.

Lemma getLoginStatus_throws (t : Instance) (w : World) :
  status_throws w = true ->
  getLoginStatus t w = (Throw cannot_convert, t, w, []).
Proof.
  intros Hst. rewrite getLoginStatus_run. unfold status_throws in Hst.
  destruct (truthy (loaded w)); cbn [negb andb] in *; [|discriminate].
  destruct (Date_of w (get_opt (loaded w) "lastLogin")); [discriminate|].
  now rewrite Hst.
Qed.

(** X12: from the stopped state with no timer, a configuration file holding
    an object with a username and a password, and a budget of at least one
    attempt, [start] returns normally.  When the status query of its [try]
    block does not throw, it ends running, whatever the first login did:
    the configuration is loaded, the login timer is armed and referenced by
    [loginInterval], and the connectivity timer is armed (and referenced by
    [connectionInterval]) exactly when [settings.checkConnection] is set.
    When the status query throws (a stored [lastLogin] that [new Date]
    cannot convert), [start] ends stopped, with no timer and without having
    sent a request. *)
Theorem start_succeeds
    (t : Instance) (w : World) (props : list (string * Value)) :
  isRunning t = false ->
  timers w = [] ->
  1 <= maxRetries t ->
  config_file w = Holds (Json (VObj props)) ->
  truthy (lookup "username" props) = true ->
  truthy (lookup "password" props) = true ->
  let x := start t w in
  let n := next_timer w in
  result x = Val tt
  /\ (status_throws w = false ->
      isRunning (final_this x) = true
      /\ config (final_this x) = VObj props
      /\ loginInterval (final_this x) = Some n
      /\ if truthy (get_opt (lookup "settings" props) "checkConnection")
         then connectionInterval (final_this x) = Some (S n)
              /\ timers (final_world x)
                 = [(n, CbExecuteLogin); (S n, CbConnectionCheck)]
         else timers (final_world x) = [(n, CbExecuteLogin)])
  /\ (status_throws w = true ->
      isRunning (final_this x) = false
      /\ timers (final_world x) = []
      /\ posts (events x) = 0%nat).
Proof.
  intros Hstop Hnone Hmax Hfile Hu Hp x n. subst x n.
  unfold start, start_try, start_catch, bind, try_catch.
  cbn. rewrite Hstop. cbn. log_next.
  rewrite (loadConfig_ok _ _ props) by assumption. cbn.
  log_next.
  destruct (status_throws w) eqn:Hst.
  - match goal with
    | |- context [getLoginStatus ?t' ?w'] =>
        rewrite (getLoginStatus_throws t' w' Hst)
    end.
    cbn. log_next.
    split; [reflexivity|]. split; [discriminate|]. intros _.
    split; [reflexivity|]. split; [exact Hnone|].
    unfold posts. repeat (rewrite ?filter_app, ?app_nil_r; cbn).
    now rewrite (logging_no_post _ L), (logging_no_post _ L0),
      (logging_no_post _ L1).
  - match goal with
    | |- context [getLoginStatus ?t' ?w'] =>
        destruct (getLoginStatus_value t' w' Hst) as (line & Estatus);
        rewrite Estatus
    end.
    cbn. log_next.
    match goal with
    | |- context [executeLogin ?t' ?w'] =>
        destruct (executeLogin_returns t' w' props eq_refl Hmax)
          as (t2 & w2 & evs & Elogin & Hown); rewrite Elogin
    end.
    unfold owned in Hown. cbn in Hown.
    injection Hown as Hrun Hlogin Hconn Hcfg Htimers Hnext.
    unfold setInterval, bind, host, emit, modify, ret.
    cbn. rewrite Hcfg, Htimers, Hnext, Hnone. cbn.
    destruct (truthy (get_opt (lookup "settings" props) "checkConnection")); cbn;
      log_next; (split; [reflexivity|]); (split; [|discriminate]); intros _;
      repeat split; assumption.
Qed.

Lemma start_succeeds_witness :
  let x := start constructor Sample.configured in
  let y := start constructor Cases.unprintable in
  isRunning constructor = false
  /\ timers Sample.configured = []
  /\ 1 <= maxRetries constructor
  /\ status_throws Sample.configured = false
  /\ status_throws Cases.unprintable = true
  /\ isRunning (final_this x) = true
  /\ loginInterval (final_this x) = Some 0%nat
  /\ isRunning (final_this y) = false.
Proof.
  split; [reflexivity|]. split; [reflexivity|]. split; [cbn; lia|].
  do 2 (split; [reflexivity|]).
  assert (Hmax : 1 <= maxRetries constructor) by (cbn; lia).
  destruct (start_succeeds constructor Sample.configured _ eq_refl eq_refl Hmax
              eq_refl eq_refl eq_refl) as (_ & Hrunning & _).
  destruct (Hrunning eq_refl) as (Hrun & _ & Hlogin & _).
  destruct (start_succeeds constructor Cases.unprintable _ eq_refl eq_refl Hmax
              eq_refl eq_refl eq_refl) as (_ & _ & Hstopped).
  split; [exact Hrun|]. split; [exact Hlogin|].
  exact (proj1 (Hstopped eq_refl)).
Defined.

End ExecuteLoginMore.

Section SchedulerMore.
Import Autologin AutologinSpec Scheduler.

(** X13: in every reachable state of the service, a stopped service has no
    active timer, and every active timer is the one a handle of the instance
    points to: a login timer is [loginInterval], a connectivity timer is
    [connectionInterval]. *)
Theorem timers_are_owned (s : State) :
  reachable s ->
  (isRunning (fst s) = false -> timers (snd s) = [])
  /\ forall id cb,
       In (id, cb) (timers (snd s)) ->
       (cb = CbExecuteLogin /\ loginInterval (fst s) = Some id)
       \/ (cb = CbConnectionCheck /\ connectionInterval (fst s) = Some id).
Proof.
  intros Hs. destruct (invariant_reachable s Hs) as [Hstopped Hshape].
  split; [exact Hstopped|].
  intros id cb Hin.
  destruct Hshape as [Hnone | (n & Hlogin & [Hone | (m & _ & Hconn & Htwo)])].
  - rewrite Hnone in Hin. contradiction.
  - rewrite Hone in Hin. destruct Hin as [Hin | []].
    injection Hin as <- <-. left. auto.
  - rewrite Htwo in Hin. destruct Hin as [Hin | [Hin | []]];
      injection Hin as <- <-; auto.
Qed.

Lemma timers_are_owned_witness :
  let s := after (command Start) (constructor, Sample.configured) in
  reachable s
  /\ (isRunning (fst s) = false -> timers (snd s) = []).
Proof.
  assert (H : reachable (after (command Start) (constructor, Sample.configured))).
  { apply (reach_step (constructor, Sample.configured));
      [apply reach_init; reflexivity | apply (step_command Start)]. }
  split; [exact H|].
  exact (proj1 (timers_are_owned _ H)).
Defined.

(** X14: from every reachable state, [stop] returns normally and leaves
    the service stopped with no active timer at all. *)
Theorem stop_cancels_every_timer (s : State) :
  reachable s ->
  result (stop (fst s) (snd s)) = Val tt
  /\ isRunning (fst (after stop s)) = false
  /\ timers (snd (after stop s)) = [].
Proof.
  intros Hs. destruct s as [t w].
  pose proof (cleared_all t w (invariant_reachable _ Hs)) as Hclear.
  destruct (stop_run t w) as (l & evs & E).
  unfold after, final_this, final_world, result. cbn [fst snd].
  rewrite E. cbn [fst snd]. rewrite Hclear. repeat split.
Qed.

Lemma stop_cancels_every_timer_witness :
  let s := after (command Start) (constructor, Sample.configured) in
  reachable s
  /\ timers (snd s) = [(0%nat, CbExecuteLogin); (1%nat, CbConnectionCheck)]
  /\ timers (snd (after stop s)) = [].
Proof.
  assert (H : reachable (after (command Start) (constructor, Sample.configured))).
  { apply (reach_step (constructor, Sample.configured));
      [apply reach_init; reflexivity | apply (step_command Start)]. }
  split; [exact H|]. split; [vm_compute; reflexivity|].
  exact (proj2 (proj2 (stop_cancels_every_timer _ H))).
Defined.

(** X15: a login, whether asked for by hand or run by a timer, and a status
    query never change the scheduler's own state: the running flag, the two
    handles, the loaded configuration and the timer table are after the
    call what they were before, also when the call throws. *)
Theorem login_leaves_scheduler_alone (t : Instance) (w : World) :
  (forall cb,
     let x := callback cb t w in
     isRunning (final_this x) = isRunning t
     /\ loginInterval (final_this x) = loginInterval t
     /\ connectionInterval (final_this x) = connectionInterval t
     /\ config (final_this x) = config t
     /\ timers (final_world x) = timers w)
  /\ (let x := executeLogin t w in
      isRunning (final_this x) = isRunning t
      /\ loginInterval (final_this x) = loginInterval t
      /\ connectionInterval (final_this x) = connectionInterval t
      /\ config (final_this x) = config t
      /\ timers (final_world x) = timers w)
  /\ (let x := getLoginStatus t w in
      isRunning (final_this x) = isRunning t
      /\ loginInterval (final_this x) = loginInterval t
      /\ connectionInterval (final_this x) = connectionInterval t
      /\ config (final_this x) = config t
      /\ timers (final_world x) = timers w).
Proof.
  assert (Hq : forall A (m : M Instance A), quiet m ->
            let x := m t w in
            isRunning (final_this x) = isRunning t
            /\ loginInterval (final_this x) = loginInterval t
            /\ connectionInterval (final_this x) = connectionInterval t
            /\ config (final_this x) = config t
            /\ timers (final_world x) = timers w).
  { intros A m Hm x. subst x. specialize (Hm t w). unfold owned in Hm.
    injection Hm as H1 H2 H3 H4 H5 _. auto. }
  split; [|split].
  - intros cb. apply Hq, quiet_callback.
  - apply Hq, quiet_executeLogin.
  - apply Hq, quiet_getLoginStatus.
Qed.

Local Arguments log : simpl never.
Local Arguments checkInternetConnection : simpl never.

Lemma disconnected_skip
    (t : Instance) (w : World) (props : list (string * Value)) :
  config t = VObj props ->
  truthy (get_opt (lookup "settings" props) "checkConnection") = true ->
  accepted (get_replies w (gets_sent w)) = false ->
  exists t' w' evs,
    executeLogin t w = (Val None, t', w', evs)
    /\ posts evs = 0%nat
    /\ gets_sent w' = S (gets_sent w)
    /\ session_file w' = session_file w.
Proof.
  intros Hcfg Hcheck Hdown.
  destruct (log_run "--- Starting login process ---" "info" t w)
    as (l1 & m1 & E1 & L1).
  unfold executeLogin, bind. rewrite E1. cbn.
  rewrite Hcfg. cbn. rewrite Hcheck. cbn.
  rewrite autologin_probe_run. cbn. unfold probe_reply. cbn.
  rewrite Hdown. cbn.
  match goal with
  | |- context [log ?m ?ty ?t' ?w'] =>
      destruct (log_run m ty t' w') as (l2 & m2 & E2 & L2); rewrite E2
  end.
  cbn. eexists. eexists. eexists. split; [reflexivity|].
  unfold posts. split; [|split; reflexivity].
  rewrite !app_nil_r. cbn [filter is_post]. rewrite filter_app.
  cbn [filter is_post].
  now rewrite (logging_no_post _ L1), (logging_no_post _ L2).
Qed.

Local Arguments executeLogin : simpl never.

(** X16: what the connectivity timer does on a tick.  If the probe finds
    the connection up, nothing more happens.  If it finds it down, the
    re-login it starts probes again (the timer only exists with
    [settings.checkConnection] set), so a POST request is sent only when
    that second probe finds the connection up. *)
Theorem connection_tick_posts
    (t : Instance) (w : World) (props : list (string * Value)) :
  config t = VObj props ->
  truthy (get_opt (lookup "settings" props) "checkConnection") = true ->
  let x := connection_tick t w in
  let first := get_replies w (gets_sent w) in
  let second := get_replies w (S (gets_sent w)) in
  (accepted first = true ->
   connection_tick t w
   = (Val tt, t, set_gets_sent (S (gets_sent w)) w,
      [Get "http://www.google.com" 10000]))
  /\ (accepted first = false -> accepted second = false ->
      result x = Val tt
      /\ posts (events x) = 0%nat
      /\ gets_sent (final_world x) = S (S (gets_sent w))
      /\ session_file (final_world x) = session_file w).
Proof.
  intros Hcfg Hcheck x first second. subst x first second.
  unfold connection_tick, bind. rewrite autologin_probe_run.
  unfold probe_reply. cbn [fst snd].
  split.
  - intros Hup. rewrite Hup. reflexivity.
  - intros Hdown Hdown2. rewrite Hdown. cbn [negb].
    destruct (log_run "🌐 Internet connection lost, retrying login..." "warning"
                t (set_gets_sent (S (gets_sent w)) w)) as (l & more & E & L).
    rewrite E.
    pose proof (disconnected_skip t (set_log_file l
                  (set_gets_sent (S (gets_sent w)) w)) props Hcfg Hcheck Hdown2)
      as (t2 & w2 & evs & E2 & Hp & Hg & Hs).
    rewrite E2. cbn. unfold posts in *.
    rewrite ?app_nil_r, filter_app, (logging_no_post _ L). cbn [app].
    repeat split; assumption.
Qed.

Lemma connection_tick_posts_witness :
  let t := set_config (Sample.user_config true true) constructor in
  config t = Sample.user_config true true
  /\ accepted (get_replies Sample.offline (gets_sent Sample.offline)) = false
  /\ posts (events (connection_tick t Sample.offline)) = 0%nat.
Proof.
  do 2 (split; [reflexivity|]).
  destruct (connection_tick_posts
              (set_config (Sample.user_config true true) constructor)
              Sample.offline _ eq_refl eq_refl) as (_ & Hdown).
  exact (proj1 (proj2 (Hdown eq_refl eq_refl))).
Defined.

End SchedulerMore.

(* ================================================================= *)
(** * Further properties of autolofi.js *)

Section AutolofiLoop.
Import Autolofi AutolofiSpec.

Lemma has_settings_reads (config : Value) :
  has_settings config ->
  exists settings,
    get config "settings" = Val settings
    /\ get settings "autoRetry" = Val (get_opt settings "autoRetry")
    /\ get_opt config "settings" = settings
    /\ get config "username" = Val (get_opt config "username")
    /\ get config "password" = Val (get_opt config "password").
Proof.
  intros (props & settings & -> & Hs & Hu & Hn).
  exists settings. cbn. rewrite Hs.
  repeat split. destruct settings; try reflexivity; contradiction.
Qed.

Ltac lofi_log :=
  match goal with
  | |- context [logToFile ?m ?t' ?w'] =>
      let l := fresh "l" in
      let E := fresh "E" in
      destruct (autolofi_logToFile_run m t' w') as (l & E); rewrite E; cbn
  end.

Local Arguments logToFile : simpl never.

(** One turn of the loop: what it returns and what goes over the wire,
    according to the reply. *)
Lemma lofi_turn (config : Value) (isTest : bool) (a : Z)
    (t : Instance) (w : World) :
  has_settings config ->
  let x := attempt_once config isTest a t w in
  let reply := post_reply w 0 in
  final_this x = t
  /\ post_replies (final_world x) = post_replies w
  /\ posts_sent (final_world x) = S (posts_sent w)
  /\ (accepted reply = true ->
      result x = Val (Some (mkOutcome true (Some a)))
      /\ wire (events x) = [request config])
  /\ (accepted reply = false -> is_2xx reply = true ->
      result x = Val None /\ wire (events x) = [request config])
  /\ (is_2xx reply = false ->
      result x = Val None
      /\ wire (events x)
         = request config
           :: (if (a <? maxRetries t)
                  && truthy (get_opt (get_opt config "settings") "autoRetry")
               then [Sleep (retryDelay t)] else [])).
Proof.
  intros Hcfg x reply. subst x reply.
  destruct (has_settings_reads config Hcfg)
    as (settings & Hs & Hflag & Hopt & Hu & Hp).
  unfold post_reply. rewrite Nat.add_0_r.
  unfold attempt_once, autoRetry, bind, try_catch, request.
  rewrite Hu. cbn. rewrite Hp. cbn. rewrite Hopt.
  destruct (post_replies w (posts_sent w)) as [e | s text]; cbn.
  - destruct isTest; cbn; try lofi_log;
      (destruct (a <? maxRetries t); cbn;
       [rewrite Hs; cbn; rewrite Hflag; cbn;
        destruct (truthy (get_opt settings "autoRetry")); cbn|]);
      repeat split; intros; try discriminate; reflexivity.
  - destruct (status_2xx s) eqn:H2; cbn.
    + destruct (s =? 200) eqn:H200; cbn.
      * destruct isTest; cbn; try lofi_log;
          repeat split; intros; try discriminate; reflexivity.
      * repeat split; intros; try discriminate; reflexivity.
    + assert (H200 : (s =? 200) = false).
      { destruct (Z.eqb_spec s 200) as [-> |]; [discriminate | reflexivity]. }
      destruct isTest; cbn; try lofi_log;
        (destruct (a <? maxRetries t); cbn;
         [rewrite Hs; cbn; rewrite Hflag; cbn;
          destruct (truthy (get_opt settings "autoRetry")); cbn|]);
        repeat split; intros; try discriminate; try congruence; reflexivity.
Qed.


Local Arguments attempt_once : simpl never.

Lemma wire_app (l1 l2 : list Event) :
  wire (l1 ++ l2) = (wire l1 ++ wire l2)%list.
Proof. apply filter_app. Qed.

(** The loop on replies that are resolved (2xx) but are not 200: nothing
    is caught, so nothing is logged and no pause is made. *)
Lemma lofi_loop_rejected (config : Value) (isTest : bool) (t : Instance) :
  has_settings config ->
  forall (k : nat) (a : Z) (w : World),
    (forall i, (i < k)%nat ->
       is_2xx (post_reply w i) = true /\ accepted (post_reply w i) = false) ->
    let x := attempts_from k config isTest a t w in
    result x = Val None
    /\ final_this x = t
    /\ wire (events x) = repeat (request config) k.
Proof.
  intros Hcfg k. induction k as [|k IH]; intros a w Hall; cbn zeta.
  - repeat split.
  - destruct (lofi_turn config isTest a t w Hcfg)
      as (Ht & Hr & Hs & _ & Hrej & _).
    destruct (Hall 0%nat ltac:(lia)) as (H2 & Hna).
    destruct (Hrej Hna H2) as (Hres & Hwire).
    cbn [attempts_from]. unfold bind.
    destruct (attempt_once config isTest a t w) as [[[r t1] w1] ev1].
    cbn in Ht, Hr, Hs, Hres, Hwire. subst r t1. cbn.
    specialize (IH (a + 1) w1).
    destruct IH as (IHres & IHt & IHwire).
    { intros i Hi. rewrite (post_reply_next w w1 i Hr Hs).
      apply Hall. lia. }
    destruct (attempts_from k config isTest (a + 1) t w1)
      as [[[r2 t2] w2] ev2].
    cbn in IHres, IHt, IHwire. subst r2 t2. cbn.
    repeat split. unfold wire in *. rewrite filter_app, Hwire, IHwire. reflexivity.
Qed.

(** The loop on replies that make [axios.post] throw, with automatic retry
    on and the last turn being attempt [maxRetries]: a pause after each
    attempt but the last one. *)
Lemma lofi_loop_errors (config : Value) (isTest : bool) (t : Instance) :
  has_settings config ->
  truthy (get_opt (get_opt config "settings") "autoRetry") = true ->
  forall (k : nat) (a : Z) (w : World),
    a + Z.of_nat k = maxRetries t + 1 ->
    (forall i, (i < k)%nat -> is_2xx (post_reply w i) = false) ->
    let x := attempts_from k config isTest a t w in
    result x = Val None
    /\ final_this x = t
    /\ wire (events x) = paced k (request config) (Sleep (retryDelay t)).
Proof.
  intros Hcfg Hon k. induction k as [|k IH]; intros a w Hlast Hall; cbn zeta.
  - repeat split.
  - destruct (lofi_turn config isTest a t w Hcfg)
      as (Ht & Hr & Hs & _ & _ & Herr).
    destruct (Herr (Hall 0%nat ltac:(lia))) as (Hres & Hwire).
    rewrite Hon, Bool.andb_true_r in Hwire.
    cbn [attempts_from]. unfold bind.
    destruct (attempt_once config isTest a t w) as [[[r t1] w1] ev1].
    cbn in Ht, Hr, Hs, Hres, Hwire. subst r t1. cbn.
    specialize (IH (a + 1) w1).
    destruct IH as (IHres & IHt & IHwire); [lia | |].
    { intros i Hi. rewrite (post_reply_next w w1 i Hr Hs).
      apply Hall. lia. }
    destruct (attempts_from k config isTest (a + 1) t w1)
      as [[[r2 t2] w2] ev2].
    cbn in IHres, IHt, IHwire. subst r2 t2. cbn.
    repeat split. unfold wire in *. rewrite filter_app, Hwire, IHwire.
    destruct k as [|k].
    + assert (Hlt : (a <? maxRetries t) = false) by (apply Z.ltb_ge; lia).
      rewrite Hlt. reflexivity.
    + assert (Hlt : (a <? maxRetries t) = true) by (apply Z.ltb_lt; lia).
      rewrite Hlt. reflexivity.
Qed.

(** The loop up to the first reply with status 200. *)
Lemma lofi_loop_first (config : Value) (isTest : bool) (t : Instance) :
  has_settings config ->
  forall (j k : nat) (a : Z) (w : World),
    (j < k)%nat ->
    (forall i, (i < j)%nat -> accepted (post_reply w i) = false) ->
    accepted (post_reply w j) = true ->
    let x := attempts_from k config isTest a t w in
    result x = Val (Some (mkOutcome true (Some (a + Z.of_nat j))))
    /\ final_this x = t
    /\ posts (events x) = S j.
Proof.
  intros Hcfg j. induction j as [|j IH]; intros k a w Hjk Hbefore Hacc;
    cbn zeta; (destruct k as [|k]; [lia|]);
    destruct (lofi_turn config isTest a t w Hcfg)
      as (Ht & Hr & Hs & Hok & Hrej & Herr);
    cbn [attempts_from]; unfold bind;
    destruct (attempt_once config isTest a t w) as [[[r t1] w1] ev1];
    cbn in Ht, Hr, Hs, Hok, Hrej, Herr; subst t1.
  - destruct (Hok Hacc) as (Hres & Hwire). subst r. cbn.
    rewrite Z.add_0_r, app_nil_r. repeat split.
    change (posts ev1 = 1%nat). rewrite posts_wire. unfold wire.
    now rewrite Hwire.
  - assert (Hres : r = Val None /\ posts ev1 = 1%nat).
    { specialize (Hbefore 0%nat ltac:(lia)).
      destruct (is_2xx (post_reply w 0)) eqn:H2.
      - destruct (Hrej Hbefore eq_refl) as (-> & Hwire).
        rewrite posts_wire. unfold wire. now rewrite Hwire.
      - destruct (Herr eq_refl) as (-> & Hwire).
        rewrite posts_wire. unfold wire. rewrite Hwire.
        now destruct ((a <? maxRetries t)
                      && truthy (get_opt (get_opt config "settings") "autoRetry")). }
    destruct Hres as (-> & Hposts). cbn.
    specialize (IH k (a + 1) w1).
    destruct IH as (IHres & IHt & IHposts); [lia | | |].
    { intros i Hi. rewrite (post_reply_next w w1 i Hr Hs).
      apply Hbefore. lia. }
    { rewrite (post_reply_next w w1 j Hr Hs). exact Hacc. }
    destruct (attempts_from k config isTest (a + 1) t w1)
      as [[[r2 t2] w2] ev2].
    cbn in IHres, IHt, IHposts. subst r2 t2. cbn.
    repeat split; [f_equal; f_equal; f_equal; f_equal; lia|].
    unfold posts in *. rewrite filter_app, length_app. lia.
Qed.

(** [executeLogin] is its loop, run for [budget] turns from attempt 1, with
    log lines before and after. *)
Lemma lofi_executeLogin_loop (config : Value) (isTest : bool)
    (t : Instance) (w : World) :
  has_settings config ->
  exists w',
    post_replies w' = post_replies w
    /\ posts_sent w' = posts_sent w
    /\ let x := attempts_from (budget config t) config isTest 1 t w' in
       let y := executeLogin config isTest t w in
       result y = match result x with
                  | Val (Some outcome) => Val outcome
                  | Val None => Val (mkOutcome false None)
                  | Throw e => Throw e
                  end
       /\ wire (events y) = wire (events x)
       /\ final_this y = final_this x.
Proof.
  intros Hcfg.
  destruct (has_settings_reads config Hcfg)
    as (settings & Hs & Hflag & Hopt & _).
  unfold budget. rewrite Hopt.
  unfold executeLogin, autoRetry, bind.
  destruct isTest; cbn; try lofi_log; rewrite Hs; cbn; rewrite Hflag; cbn;
    match goal with
    | |- context [attempts_from _ config _ 1 t ?w1] => exists w1
    end;
    (split; [reflexivity|]); (split; [reflexivity|]);
    (replace (Z.to_nat (if truthy (get_opt settings "autoRetry")
                        then maxRetries t else 1))
       with (if truthy (get_opt settings "autoRetry")
             then Z.to_nat (maxRetries t) else 1%nat)
       by (now destruct (truthy (get_opt settings "autoRetry"))));
    match goal with
    | |- context [attempts_from ?k config ?b 1 t ?w1] =>
        destruct (attempts_from k config b 1 t w1) as [[[r t1] w1'] ev1]
    end;
    destruct r as [[o|]|e]; cbn; try lofi_log;
    rewrite ?app_nil_r; repeat split;
    rewrite ?wire_app; cbn; rewrite ?app_nil_r; reflexivity.
Qed.

End AutolofiLoop.

Section AutolofiExecuteLogin.
Import Autolofi AutolofiSpec.

Lemma lofi_loop_none (config : Value) (isTest : bool) (t : Instance) :
  has_settings config ->
  forall (k : nat) (a : Z) (w : World),
    (forall i, (i < k)%nat -> accepted (post_reply w i) = false) ->
    let x := attempts_from k config isTest a t w in
    result x = Val None
    /\ final_this x = t
    /\ posts (events x) = k.
Proof.
  intros Hcfg k. induction k as [|k IH]; intros a w Hall; cbn zeta.
  - repeat split.
  - destruct (lofi_turn config isTest a t w Hcfg)
      as (Ht & Hr & Hs & _ & Hrej & Herr).
    cbn [attempts_from]. unfold bind.
    destruct (attempt_once config isTest a t w) as [[[r t1] w1] ev1].
    cbn in Ht, Hr, Hs, Hrej, Herr. subst t1.
    assert (Hres : r = Val None /\ posts ev1 = 1%nat).
    { specialize (Hall 0%nat ltac:(lia)).
      destruct (is_2xx (post_reply w 0)) eqn:H2.
      - destruct (Hrej Hall eq_refl) as (-> & Hwire).
        rewrite posts_wire. unfold wire. now rewrite Hwire.
      - destruct (Herr eq_refl) as (-> & Hwire).
        rewrite posts_wire. unfold wire. rewrite Hwire.
        now destruct ((a <? maxRetries t)
                      && truthy (get_opt (get_opt config "settings") "autoRetry")). }
    destruct Hres as (-> & Hposts). cbn.
    specialize (IH (a + 1) w1).
    destruct IH as (IHres & IHt & IHposts).
    { intros i Hi. rewrite (post_reply_next w w1 i Hr Hs).
      apply Hall. lia. }
    destruct (attempts_from k config isTest (a + 1) t w1)
      as [[[r2 t2] w2] ev2].
    cbn in IHres, IHt, IHposts. subst r2 t2. cbn.
    repeat split. unfold posts in *. rewrite filter_app, length_app. lia.
Qed.

Lemma post_reply_same (w w' : World) (i : nat) :
  post_replies w' = post_replies w ->
  posts_sent w' = posts_sent w ->
  post_reply w' i = post_reply w i.
Proof. intros Hr Hs. unfold post_reply. now rewrite Hr, Hs. Qed.

(** X17 ([executeLogin] of autolofi.js).  A reply with a 2xx status other
    than 200 is neither a success nor an error: nothing is caught, so the
    loop goes straight to the next attempt.  When every reply within the
    budget of attempts is of that kind, the requests follow each other
    without any pause and the call returns [{ success: false }]. *)
Theorem rejected_replies_retried_at_once
    (config : Value) (isTest : bool) (t : Instance) (w : World) :
  has_settings config ->
  (forall i, (i < budget config t)%nat ->
     is_2xx (post_reply w i) = true /\ accepted (post_reply w i) = false) ->
  let x := executeLogin config isTest t w in
  result x = Val (mkOutcome false None)
  /\ wire (events x) = repeat (request config) (budget config t).
Proof.
  intros Hcfg Hall x. subst x.
  destruct (lofi_executeLogin_loop config isTest t w Hcfg)
    as (w' & Hr & Hs & Hres & Hwire & _).
  destruct (lofi_loop_rejected config isTest t Hcfg (budget config t) 1 w')
    as (Hloop & _ & Hlwire).
  { intros i Hi. rewrite (post_reply_same w w' i Hr Hs). now apply Hall. }
  rewrite Hres, Hwire, Hloop, Hlwire. split; reflexivity.
Qed.

Lemma rejected_replies_retried_at_once_witness :
  let config := Sample.user_config true true in
  let x := executeLogin config false constructor Cases.portal_204 in
  result x = Val (mkOutcome false None)
  /\ wire (events x) = [request config; request config; request config].
Proof.
  apply (rejected_replies_retried_at_once
           (Sample.user_config true true) false constructor Cases.portal_204).
  - eexists _, _. repeat split; discriminate.
  - intros i _. split; reflexivity.
Defined.

(** X18 ([executeLogin] of autolofi.js).  With [settings.autoRetry] set and
    every request failing with an error (no reply, or a status outside
    200..299), [maxRetries] requests are sent with a pause of [retryDelay]
    between consecutive ones and none after the last, and the call returns
    [{ success: false }]. *)
Theorem thrown_replies_are_paced
    (config : Value) (isTest : bool) (t : Instance) (w : World) :
  has_settings config ->
  truthy (get_opt (get_opt config "settings") "autoRetry") = true ->
  1 <= maxRetries t ->
  (forall i, (i < Z.to_nat (maxRetries t))%nat ->
     is_2xx (post_reply w i) = false) ->
  let x := executeLogin config isTest t w in
  result x = Val (mkOutcome false None)
  /\ wire (events x)
     = paced (Z.to_nat (maxRetries t)) (request config) (Sleep (retryDelay t)).
Proof.
  intros Hcfg Hon Hmax Hall x. subst x.
  destruct (lofi_executeLogin_loop config isTest t w Hcfg)
    as (w' & Hr & Hs & Hres & Hwire & _).
  assert (Hb : budget config t = Z.to_nat (maxRetries t)).
  { unfold budget. now rewrite Hon. }
  rewrite Hb in *.
  destruct (lofi_loop_errors config isTest t Hcfg Hon
              (Z.to_nat (maxRetries t)) 1 w')
    as (Hloop & _ & Hlwire); [lia | |].
  { intros i Hi. rewrite (post_reply_same w w' i Hr Hs). now apply Hall. }
  rewrite Hres, Hwire, Hloop, Hlwire. split; reflexivity.
Qed.

Lemma thrown_replies_are_paced_witness :
  let config := Sample.user_config true true in
  let x := executeLogin config false constructor Sample.offline in
  result x = Val (mkOutcome false None)
  /\ wire (events x)
     = [request config; Sleep 5000; request config; Sleep 5000; request config].
Proof.
  apply (thrown_replies_are_paced
           (Sample.user_config true true) false constructor Sample.offline).
  - eexists _, _. repeat split; discriminate.
  - reflexivity.
  - cbn. lia.
  - intros i _. reflexivity.
Defined.

(** X19 ([executeLogin] of autolofi.js).  On a configuration that has a
    [settings] object the call never throws and its outcome is decided by
    the replies within the budget of attempts ([maxRetries] with
    [settings.autoRetry], one without): when the first status 200 is the
    reply to attempt [j+1] it returns [{ success: true, attempt: j+1 }]
    after exactly [j+1] requests; when there is none it returns
    [{ success: false }] after exactly [budget] requests. *)
Theorem lofi_outcome
    (config : Value) (isTest : bool) (t : Instance) (w : World) :
  has_settings config ->
  let x := executeLogin config isTest t w in
  (forall j, (j < budget config t)%nat ->
     (forall i, (i < j)%nat -> accepted (post_reply w i) = false) ->
     accepted (post_reply w j) = true ->
     result x = Val (mkOutcome true (Some (Z.of_nat j + 1)))
     /\ posts (events x) = S j)
  /\ ((forall i, (i < budget config t)%nat ->
         accepted (post_reply w i) = false) ->
      result x = Val (mkOutcome false None)
      /\ posts (events x) = budget config t).
Proof.
  intros Hcfg x. subst x.
  destruct (lofi_executeLogin_loop config isTest t w Hcfg)
    as (w' & Hr & Hs & Hres & Hwire & _).
  rewrite posts_wire, Hwire, <- posts_wire, Hres. split.
  - intros j Hj Hbefore Hacc.
    destruct (lofi_loop_first config isTest t Hcfg j (budget config t) 1 w')
      as (Hloop & _ & Hposts); trivial.
    + intros i Hi. rewrite (post_reply_same w w' i Hr Hs). now apply Hbefore.
    + now rewrite (post_reply_same w w' j Hr Hs).
    + rewrite Hloop, Hposts. split; [|reflexivity].
      do 3 f_equal. lia.
  - intros Hnone.
    destruct (lofi_loop_none config isTest t Hcfg (budget config t) 1 w')
      as (Hloop & _ & Hposts).
    + intros i Hi. rewrite (post_reply_same w w' i Hr Hs). now apply Hnone.
    + rewrite Hloop, Hposts. split; reflexivity.
Qed.

Lemma lofi_outcome_witness :
  let x := executeLogin (Sample.user_config true true) false constructor
             Sample.third_time in
  result x = Val (mkOutcome true (Some 3)) /\ posts (events x) = 3%nat.
Proof.
  refine (proj1 (lofi_outcome (Sample.user_config true true) false
                   constructor Sample.third_time _) 2%nat _ _ _).
  - eexists _, _. repeat split; discriminate.
  - cbn. lia.
  - intros [|[|i]] Hi; [reflexivity | reflexivity | lia].
  - reflexivity.
Defined.

End AutolofiExecuteLogin.

(* ================================================================= *)
(** * What the computations of autolofi.js leave alone *)

Section Frames.

Context {T X : Type}.
Variable f : T -> World -> X.
Variable P : Event -> bool.

Lemma frames_ret {A} (a : A) : frames f P (ret a).
Proof. intros t w. split; reflexivity. Qed.

Lemma frames_throw {A} (e : JsError) : frames f P (@throw T A e).
Proof. intros t w. split; reflexivity. Qed.

Lemma frames_lift {A} (r : Res A) : frames f P (lift r).
Proof. intros t w. split; reflexivity. Qed.

Lemma frames_this {A} (g : T -> A) : frames f P (this g).
Proof. intros t w. split; reflexivity. Qed.

Lemma frames_host {A} (g : World -> A) : frames f P (host g).
Proof. intros t w. split; reflexivity. Qed.

Lemma frames_emit (e : Event) : P e = false -> frames f P (emit e).
Proof. intros He t w. split; [reflexivity|]. cbn. now rewrite He. Qed.

Lemma frames_modify (g : World -> World) :
  (forall t w, f t (g w) = f t w) -> frames f P (modify g).
Proof. intros Hg t w. split; [apply Hg | reflexivity]. Qed.

Lemma frames_update (g : T -> T) :
  (forall t w, f (g t) w = f t w) -> frames f P (update g).
Proof. intros Hg t w. split; [apply Hg | reflexivity]. Qed.

Lemma frames_bind {A B} (m : M T A) (k : A -> M T B) :
  frames f P m -> (forall a, frames f P (k a)) -> frames f P (bind m k).
Proof.
  intros Hm Hk t w. destruct (Hm t w) as [Hf He]. unfold bind.
  destruct (m t w) as [[[[a|e] t1] w1] e1]; cbn in *; [|now split].
  destruct (Hk a t1 w1) as [Hf2 He2].
  destruct (k a t1 w1) as [[[r t2] w2] e2]; cbn in *.
  split; [congruence|]. rewrite existsb_app, He, He2. reflexivity.
Qed.

Lemma frames_try_catch {A} (m : M T A) (h : JsError -> M T A) :
  frames f P m -> (forall e, frames f P (h e)) -> frames f P (try_catch m h).
Proof.
  intros Hm Hh t w. destruct (Hm t w) as [Hf He]. unfold try_catch.
  destruct (m t w) as [[[[a|e] t1] w1] e1]; cbn in *; [now split|].
  destruct (Hh e t1 w1) as [Hf2 He2].
  destruct (h e t1 w1) as [[[r t2] w2] e2]; cbn in *.
  split; [congruence|]. rewrite existsb_app, He, He2. reflexivity.
Qed.

End Frames.

Create HintDb frames.

(** Goes through a computation statement by statement, down to the
    primitives. *)
Ltac frame :=
  repeat first
    [ progress intros
    | progress cbv zeta
    | progress cbn [negb]
    | assumption
    | solve [auto with frames]
    | apply frames_ret
    | apply frames_throw
    | apply frames_lift
    | apply frames_this
    | apply frames_host
    | solve [apply frames_emit; reflexivity]
    | solve [apply frames_modify; intros; reflexivity]
    | solve [apply frames_update; intros; reflexivity]
    | match goal with
      | |- frames _ _ (if ?b then _ else _) => destruct b
      | |- frames _ _ (match ?x with _ => _ end) => destruct x
      end
    | apply frames_bind
    | apply frames_try_catch
    | progress unfold JSON_parse ].

Section AutolofiFrames.
Import Autolofi AutolofiMenu AutolofiSpec Service.

Lemma frames_loop {X} (f : Instance -> World -> X) (P : Event -> bool)
    (config : Value) (isTest : bool) :
  (forall a, frames f P (attempt_once config isTest a)) ->
  forall (k : nat) (a : Z), frames f P (attempts_from k config isTest a).
Proof.
  intros Hturn k. induction k as [|k IH]; intros a; cbn [attempts_from].
  - apply frames_ret.
  - apply frames_bind; [apply Hturn|].
    intros [o|]; [apply frames_ret | apply IH].
Qed.

(** A login leaves the service's own state alone. *)
Lemma executeLogin_owned (config : Value) (isTest : bool) :
  frames owned touches_timer (executeLogin config isTest).
Proof.
  assert (Hloop : forall k a,
            frames owned touches_timer (attempts_from k config isTest a)).
  { apply frames_loop. intros a. unfold attempt_once. frame. }
  unfold executeLogin. frame.
Qed.

Lemma loadConfig_owned : frames owned touches_timer loadConfig.
Proof. unfold loadConfig. frame. Qed.

(** A test login does not write to [login.log]. *)
Lemma executeLogin_test_log (config : Value) :
  frames (fun _ w => log_file w) appends_log (executeLogin config true).
Proof.
  assert (Hloop : forall k a,
            frames (fun (_ : Instance) w => log_file w) appends_log
              (attempts_from k config true a)).
  { apply frames_loop. intros a. unfold attempt_once. frame. }
  unfold executeLogin. frame.
Qed.

Lemma loadConfig_log :
  frames (fun _ w => log_file w) appends_log loadConfig.
Proof. unfold loadConfig. frame. Qed.


Lemma executeLogin_no_probe (config : Value) (isTest : bool) :
  frames (fun _ w => (session_file w, gets_sent w)) probes_or_saves
    (executeLogin config isTest).
Proof.
  assert (Hloop : forall k a,
            frames (fun (_ : Instance) w => (session_file w, gets_sent w))
              probes_or_saves (attempts_from k config isTest a)).
  { apply frames_loop. intros a. unfold attempt_once. frame. }
  unfold executeLogin. frame.
Qed.

#[local] Hint Resolve executeLogin_owned loadConfig_owned
  executeLogin_test_log loadConfig_log executeLogin_no_probe : frames.

Lemma testLogin_owned : frames owned touches_timer testLogin.
Proof. unfold testLogin. frame. Qed.

Lemma testLogin_log : frames (fun _ w => log_file w) appends_log testLogin.
Proof. unfold testLogin. frame. Qed.

Local Arguments loadConfig : simpl never.
Local Arguments executeLogin : simpl never.

Lemma testLogin_returns (t : Instance) (w : World) :
  result (testLogin t w) = Val tt.
Proof.
  unfold testLogin, bind, try_catch. cbn.
  destruct (loadConfig t w) as [[[[config|e] t1] w1] e1]; cbn; [|reflexivity].
  destruct (executeLogin config true t1 w1) as [[[[o|e] t2] w2] e2]; cbn;
    [|reflexivity].
  destruct (success o); reflexivity.
Qed.

(** X20 ([testLogin] of autolofi.js).  The menu's test login never throws,
    whatever the configuration file and the portal do; it never appends to
    [login.log], and it leaves the service as it is: the running flag, the
    timer handle and the timer table are unchanged and no timer is armed or
    cancelled. *)
Theorem test_login_leaves_no_trace (t : Instance) (w : World) :
  let x := testLogin t w in
  result x = Val tt
  /\ log_file (final_world x) = log_file w
  /\ existsb appends_log (events x) = false
  /\ isRunning (final_this x) = isRunning t
  /\ loginInterval (final_this x) = loginInterval t
  /\ timers (final_world x) = timers w
  /\ existsb touches_timer (events x) = false.
Proof.
  intros x. subst x.
  destruct (testLogin_owned t w) as [Howned Hev].
  destruct (testLogin_log t w) as [Hlog Hev'].
  unfold owned in Howned. injection Howned as Hr Hh Ht _.
  cbv beta in Hlog.
  split; [apply testLogin_returns|]. repeat split; assumption.
Qed.

End AutolofiFrames.

Section LofiService.
Import Autolofi AutolofiMenu AutolofiSpec Service.

Local Arguments loadConfig : simpl never.
Local Arguments executeLogin : simpl never.
Local Arguments logToFile : simpl never.

Lemma startService_running (t : Instance) (w : World) :
  isRunning t = true ->
  let x := startService t w in
  result x = Val tt /\ owned (final_this x) (final_world x) = owned t w.
Proof.
  intros Hrun. unfold startService, bind, this. rewrite Hrun. cbn.
  split; reflexivity.
Qed.

(** From the stopped state [startService] either leaves the service as it
    was (no configuration could be loaded) or ends running with one more
    timer, the one its handle points to. *)
Lemma startService_stopped (t : Instance) (w : World) :
  isRunning t = false ->
  let x := startService t w in
  result x = Val tt
  /\ (owned (final_this x) (final_world x) = owned t w
      \/ exists config,
           isRunning (final_this x) = true
           /\ loginInterval (final_this x) = Some (next_timer w)
           /\ timers (final_world x)
              = (timers w ++ [(next_timer w, CbExecuteLoginWith config)])%list).
Proof.
  intros Hrun. unfold startService, bind, try_catch, this. rewrite Hrun. cbn.
  destruct (loadConfig_owned t w) as [Hload _].
  destruct (loadConfig t w) as [[[[config|e] t1] w1] e1]; cbn in *.
  - set (t2 := set_loginInterval _ _). set (w2 := set_timers _ _ _).
    destruct (executeLogin_owned config false t2 w2) as [Hlogin _].
    destruct (executeLogin config false t2 w2) as [[[[o|e] t3] w3] e3];
      cbn in *;
      [destruct (autolofi_logToFile_run "Service started" t3 w3) as (l & E);
       rewrite E; cbn|];
      (split; [reflexivity|]); right; exists config;
      unfold owned in *; injection Hlogin as -> -> -> _;
      injection Hload as _ _ -> ->; repeat split.
  - split; [reflexivity|]. left. exact Hload.
Qed.

Lemma stopService_run (t : Instance) (w : World) :
  let x := stopService t w in
  result x = Val tt
  /\ if isRunning t
     then isRunning (final_this x) = false
          /\ loginInterval (final_this x) = loginInterval t
          /\ timers (final_world x)
             = match loginInterval t with
               | Some id => filter (fun tc => negb (Nat.eqb (fst tc) id)) (timers w)
               | None => timers w
               end
     else owned (final_this x) (final_world x) = owned t w.
Proof.
  unfold stopService, bind, this.
  destruct (isRunning t) eqn:Hrun; cbn; [|split; reflexivity].
  destruct (loginInterval t) as [id|] eqn:Hid; cbn;
    match goal with
    | |- context [logToFile ?m ?t' ?w'] =>
        destruct (autolofi_logToFile_run m t' w') as (l & E); rewrite E; cbn
    end;
    rewrite ?Hid; repeat split.
Qed.

Lemma service_invariant_command (c : Command) (s : State) :
  invariant s -> invariant (after (command c) s).
Proof.
  destruct s as [t w]. unfold invariant, after. cbn [fst snd].
  intros Hinv. destruct c; cbn [command].
  - destruct (isRunning t) eqn:Hrun.
    + destruct (startService_running t w Hrun) as [_ Hsame].
      unfold owned in Hsame. injection Hsame as -> -> -> _.
      rewrite Hrun. exact Hinv.
    + destruct (startService_stopped t w Hrun)
        as [_ [Hsame | (config & -> & Hh & Ht)]].
      * unfold owned in Hsame. injection Hsame as -> -> -> _.
        rewrite Hrun. exact Hinv.
      * exists (next_timer w), config. rewrite Hh, Ht, Hinv. split; reflexivity.
  - destruct (stopService_run t w) as [_ Hstop].
    destruct (isRunning t) eqn:Hrun.
    + destruct Hstop as (-> & _ & ->).
      destruct Hinv as (n & config & -> & ->). cbn.
      now rewrite Nat.eqb_refl.
    + unfold owned in Hstop. injection Hstop as -> -> -> _.
      rewrite Hrun. exact Hinv.
  - destruct (testLogin_owned t w) as [Hsame _].
    unfold owned in Hsame. injection Hsame as -> -> -> _. exact Hinv.
Qed.

Lemma callback_owned (cb : Callback) : frames owned touches_timer (callback cb).
Proof.
  destruct cb; cbn [callback]; try apply frames_ret.
  apply frames_bind; [apply executeLogin_owned | intros; apply frames_ret].
Qed.

Lemma service_invariant_step (s s' : State) : step s s' -> invariant s -> invariant s'.
Proof.
  intros Hstep Hinv. destruct Hstep as [c s | id cb s Hin | t w w' Ht Hn].
  - now apply service_invariant_command.
  - destruct s as [t w]. unfold invariant, after in *. cbn [fst snd] in *.
    destruct (callback_owned cb t w) as [Hsame _].
    unfold owned in Hsame. injection Hsame as -> -> -> _. exact Hinv.
  - unfold invariant in *. cbn [fst snd] in *. now rewrite Ht.
Qed.

Lemma service_invariant_reachable (s : State) : reachable s -> invariant s.
Proof.
  induction 1 as [w Hw | s s' _ IH Hstep].
  - exact Hw.
  - exact (service_invariant_step s s' Hstep IH).
Qed.

(** X21 (the service of autolofi.js).  In every state the program can
    reach through [startService], [stopService], [testLogin], ticks of its
    timer and changes of the host that leave the timer table alone, the
    service is running exactly when one timer is active, that timer re-runs
    [executeLogin] with a loaded configuration and is the one
    [loginInterval] points to; a stopped service has no timer.  So the
    status line of the main menu tells whether a timer is active. *)
Theorem service_has_one_timer (s : State) :
  reachable s ->
  (isRunning (fst s) = true <->
   exists n config,
     loginInterval (fst s) = Some n
     /\ timers (snd s) = [(n, CbExecuteLoginWith config)])
  /\ (isRunning (fst s) = false <-> timers (snd s) = [])
  /\ result (getServiceStatus (fst s) (snd s))
     = Val (match timers (snd s) with [] => "STOPPED" | _ => "RUNNING" end).
Proof.
  intros Hs. pose proof (service_invariant_reachable s Hs) as Hinv.
  destruct s as [t w]. unfold invariant in Hinv. cbn [fst snd] in *.
  unfold getServiceStatus, bind, this, result. cbn.
  destruct (isRunning t).
  - destruct Hinv as (n & config & Hh & Ht). rewrite Ht.
    repeat split; try discriminate; eauto.
  - rewrite Hinv. repeat split; try discriminate.
    intros (n & config & _ & H). discriminate.
Qed.

Lemma service_has_one_timer_witness :
  let s := after (command StartService) (constructor, Sample.configured) in
  reachable s
  /\ timers (snd s) = [(0%nat, CbExecuteLoginWith (Sample.user_config true true))]
  /\ isRunning (fst s) = true.
Proof.
  assert (H : reachable (after (command StartService)
                           (constructor, Sample.configured))).
  { apply (reach_step (constructor, Sample.configured));
      [apply reach_init; reflexivity | apply step_command]. }
  split; [exact H|]. split; [reflexivity|].
  apply (proj2 (proj1 (service_has_one_timer _ H))).
  exists 0%nat, (Sample.user_config true true). split; reflexivity.
Defined.

(** X22 ([stopService] of autolofi.js).  From every reachable state
    [stopService] returns normally and leaves the service stopped with no
    active timer; on a service that is not running it changes nothing of
    the service. *)
Theorem stopService_cancels_the_timer (s : State) :
  reachable s ->
  result (stopService (fst s) (snd s)) = Val tt
  /\ isRunning (fst (after stopService s)) = false
  /\ timers (snd (after stopService s)) = []
  /\ (isRunning (fst s) = false ->
      owned (fst (after stopService s)) (snd (after stopService s))
      = owned (fst s) (snd s)).
Proof.
  intros Hs. pose proof (service_invariant_reachable s Hs) as Hinv.
  destruct s as [t w]. unfold invariant, after in *. cbn [fst snd] in *.
  destruct (stopService_run t w) as [Hres Hstop].
  split; [exact Hres|].
  destruct (isRunning t) eqn:Hrun.
  - destruct Hstop as (-> & _ & ->).
    destruct Hinv as (n & config & -> & ->). cbn. rewrite Nat.eqb_refl.
    repeat split. discriminate.
  - pose proof Hstop as Hsame.
    unfold owned in Hstop. injection Hstop as -> _ -> _.
    rewrite Hrun. split; [reflexivity|]. split; [exact Hinv|].
    intros _. exact Hsame.
Qed.

Lemma stopService_cancels_the_timer_witness :
  let s := after (command StartService) (constructor, Sample.configured) in
  reachable s
  /\ timers (snd s) = [(0%nat, CbExecuteLoginWith (Sample.user_config true true))]
  /\ timers (snd (after stopService s)) = [].
Proof.
  assert (H : reachable (after (command StartService)
                           (constructor, Sample.configured))).
  { apply (reach_step (constructor, Sample.configured));
      [apply reach_init; reflexivity | apply step_command]. }
  split; [exact H|]. split; [reflexivity|].
  exact (proj1 (proj2 (proj2 (stopService_cancels_the_timer _ H)))).
Defined.

End LofiService.

Section LofiNeverProbes.
Import Autolofi AutolofiMenu AutolofiSpec Service.

#[local] Hint Resolve executeLogin_no_probe : frames.

Lemma loadConfig_no_probe :
  frames (fun _ w => (session_file w, gets_sent w)) probes_or_saves loadConfig.
Proof. unfold loadConfig. frame. Qed.

#[local] Hint Resolve loadConfig_no_probe : frames.

Lemma command_no_probe (c : Command) :
  frames (fun _ w => (session_file w, gets_sent w)) probes_or_saves (command c).
Proof.
  destruct c; cbn [command].
  - unfold startService. frame.
  - unfold stopService. frame.
  - unfold testLogin. frame.
Qed.

Lemma callback_no_probe (cb : Callback) :
  frames (fun _ w => (session_file w, gets_sent w)) probes_or_saves (callback cb).
Proof. destruct cb; cbn [callback]; frame. Qed.

(** X23 (autolofi.js).  The program declares [SESSION_FILE] and writes
    [checkConnection: true] into the configuration it creates, but none of
    the actions of its service (start, stop, test login, a tick of the
    timer) ever sends a GET probe or writes the session file. *)
Theorem service_never_probes_nor_saves (t : Instance) (w : World) :
  (forall c,
     let x := command c t w in
     session_file (final_world x) = session_file w
     /\ gets_sent (final_world x) = gets_sent w
     /\ existsb probes_or_saves (events x) = false)
  /\ (forall cb,
        let x := callback cb t w in
        session_file (final_world x) = session_file w
        /\ gets_sent (final_world x) = gets_sent w
        /\ existsb probes_or_saves (events x) = false).
Proof.
  split.
  - intros c x. subst x. destruct (command_no_probe c t w) as [Hsame Hev].
    cbv beta in Hsame. injection Hsame as Hs Hg. repeat split; assumption.
  - intros cb x. subst x. destruct (callback_no_probe cb t w) as [Hsame Hev].
    cbv beta in Hsame. injection Hsame as Hs Hg. repeat split; assumption.
Qed.

End LofiNeverProbes.

Section LofiStart.
Import Autolofi AutolofiMenu AutolofiSpec Service WizardSpec.

Local Arguments logToFile : simpl never.

Lemma lofi_loadConfig_holds (t : Instance) (w : World) (v : Value) :
  config_file w = Holds (Json v) -> loadConfig t w = (Val v, t, w, []).
Proof.
  intros Hfile.
  unfold loadConfig, try_catch, bind, readFile, bind, host, JSON_parse, ret.
  cbn. rewrite Hfile. reflexivity.
Qed.

(** Without a [settings] object, [config.settings.autoRetry] throws before
    the loop is entered. *)
Lemma executeLogin_no_settings (props : list (string * Value)) (isTest : bool)
    (t : Instance) (w : World) :
  lookup "settings" props = VUndef ->
  let x := executeLogin (VObj props) isTest t w in
  result x = Throw (type_error "autoRetry")
  /\ final_this x = t
  /\ owned (final_this x) (final_world x) = owned t w
  /\ posts (events x) = 0%nat.
Proof.
  intros Hs. unfold executeLogin, autoRetry, bind.
  destruct isTest; cbn;
    try match goal with
        | |- context [logToFile ?m ?t' ?w'] =>
            destruct (autolofi_logToFile_run m t' w') as (l & E); rewrite E; cbn
        end;
    rewrite Hs; cbn; repeat split.
Qed.

Local Arguments loadConfig : simpl never.
Local Arguments executeLogin : simpl never.

(** X24 ([startService] of autolofi.js).  The timer is armed before the
    first login is tried.  With a configuration that has no [settings]
    object that login throws a [TypeError]: the failure is printed, no
    request is sent, and yet the service is left running with its timer
    armed; every later login with that configuration, so every tick of the
    timer, throws the same error without sending a request. *)
Theorem failed_start_stays_running
    (props : list (string * Value)) (t : Instance) (w : World) :
  isRunning t = false ->
  config_file w = Holds (Json (VObj props)) ->
  lookup "settings" props = VUndef ->
  let x := startService t w in
  (result x = Val tt
   /\ In (ConsoleLog ("Failed to start service: "
                        ++ err_message (type_error "autoRetry"))) (events x)
   /\ posts (events x) = 0%nat
   /\ isRunning (final_this x) = true
   /\ loginInterval (final_this x) = Some (next_timer w)
   /\ timers (final_world x)
      = (timers w ++ [(next_timer w, CbExecuteLoginWith (VObj props))])%list)
  /\ forall isTest t' w',
       let y := executeLogin (VObj props) isTest t' w' in
       result y = Throw (type_error "autoRetry") /\ posts (events y) = 0%nat.
Proof.
  intros Hrun Hfile Hs x. subst x. split.
  - unfold startService, bind, try_catch, this. rewrite Hrun. cbn.
    rewrite (lofi_loadConfig_holds t w _ Hfile). cbn.
    set (t2 := set_loginInterval _ _). set (w2 := set_timers _ _ _).
    destruct (executeLogin_no_settings props false t2 w2 Hs)
      as (Hres & Ht & Howned & Hposts).
    destruct (executeLogin (VObj props) false t2 w2) as [[[r t3] w3] e3].
    cbn in Hres, Ht, Howned, Hposts. subst r t3.
    unfold owned in Howned. injection Howned as Htimers _. cbn.
    split; [reflexivity|]. split.
    { right. right. apply in_or_app. left. apply in_or_app. right.
      left. reflexivity. }
    split.
    { unfold posts in *. cbn. rewrite !filter_app, !length_app, Hposts.
      reflexivity. }
    repeat split. rewrite Htimers. reflexivity.
  - intros isTest t' w' y. subst y.
    destruct (executeLogin_no_settings props isTest t' w' Hs)
      as (Hres & _ & _ & Hposts).
    split; assumption.
Qed.

Lemma failed_start_stays_running_witness :
  let x := startService constructor bare in
  isRunning (final_this x) = true
  /\ timers (final_world x) = [(0%nat, CbExecuteLoginWith bare_config)]
  /\ posts (events x) = 0%nat.
Proof.
  destruct (failed_start_stays_running
              [ ("username", VStr "student"); ("password", VStr "secret") ]
              constructor bare eq_refl eq_refl eq_refl)
    as ((_ & _ & Hposts & Hrun & _ & Htimers) & _).
  split; [exact Hrun|]. split; [exact Htimers | exact Hposts].
Defined.

End LofiStart.

Section Wizard.
Import Autolofi AutolofiMenu AutolofiSpec WizardSpec.

Local Arguments loadConfig : simpl never.



(** X26 ([loadConfig] and [setupWizard] of autolofi.js).  With no
    configuration file and a third answer other than [y] or [Y],
    [loadConfig] throws [Setup cancelled by user]; nothing is written, so
    there is still no configuration file and the next call runs the wizard
    again. *)
Theorem wizard_declined (t : Instance) (w : World) :
  config_file w = Missing ->
  is_y (typed w 2) = false ->
  let x := loadConfig t w in
  result x = Throw (mkError "Setup cancelled by user" None)
  /\ final_this x = t
  /\ questions_asked (final_world x) = (questions_asked w + 3)%nat
  /\ config_file (final_world x) = Missing
  /\ existsb writes_file (events x) = false.
Proof.
  intros Hfile Hno x. unfold typed in *.
  replace (questions_asked w + 2)%nat with (S (S (questions_asked w)))
    in Hno by lia.
  replace (questions_asked w + 3)%nat with (S (S (S (questions_asked w))))
    by lia.
  remember (loadConfig t w) as y eqn:E. subst x.
  unfold loadConfig, try_catch, bind, readFile, bind, host, throw in E.
  cbn in E. rewrite Hfile in E. cbn in E. rewrite Hno in E.
  unfold bind in E. cbn in E. subst y. cbn.
  do 3 (split; [reflexivity|]). split; [exact Hfile | reflexivity].
Qed.

Lemma wizard_declined_witness :
  let x := loadConfig constructor declining in
  result x = Throw (mkError "Setup cancelled by user" None)
  /\ config_file (final_world x) = Missing.
Proof.
  destruct (wizard_declined constructor declining eq_refl eq_refl)
    as (Hres & _ & _ & Hfile & _).
  split; [exact Hres | exact Hfile].
Defined.

End Wizard.

Section Logging.
Import Autologin AutologinSpec.

(** X27 ([log] and [logToFile] of autologin.js).  [log] never throws and
    always prints the stamped line.  It appends the line to [login.log]
    exactly when the loaded configuration has [settings.logToFile] set: so
    nothing reaches the file before a configuration is loaded.  An append
    that fails is reported on the console and changes nothing. *)
Theorem log_reaches_file_when_enabled
    (message type : string) (t : Instance) (w : World) :
  let line := "[" ++ toLocaleString w (clock w) ++ "] " ++ message in
  let enabled := truthy (get_opt (get_opt (config t) "settings") "logToFile") in
  let x := log message type t w in
  result x = Val tt
  /\ final_this x = t
  /\ (enabled = false -> x = (Val tt, t, w, [ConsoleLog line]))
  /\ (config t = VUndef -> x = (Val tt, t, w, [ConsoleLog line]))
  /\ (enabled = true -> append_fails w = None ->
      log_file (final_world x) = (log_file w ++ [line])%list
      /\ events x = [ConsoleLog line; AppendLog line])
  /\ (forall e, enabled = true -> append_fails w = Some e ->
      final_world x = w
      /\ events x = [ConsoleLog line; AppendLog line;
                     ConsoleError ("Failed to write log: " ++ err_message e)]).
Proof.
  intros line enabled x. subst line enabled x.
  unfold log, logToFile, appendFile, try_catch, bind, this, host, emit, modify,
    ret, throw, console_log, console_error, new_Date.
  cbn.
  destruct (config t) as [| |b|n|s|items|props] eqn:Hcfg; cbn;
    try (do 4 (split; [reflexivity|]); split; [discriminate|];
         intros e H; discriminate).
  destruct (truthy (get_opt (lookup "settings" props) "logToFile")); cbn.
  - destruct (append_fails w) as [e|]; cbn.
    + do 2 (split; [reflexivity|]). do 2 (split; [discriminate|]).
      split; [discriminate|].
      intros e' _ He. injection He as <-. split; reflexivity.
    + do 2 (split; [reflexivity|]). do 2 (split; [discriminate|]).
      split; [intros _ _; split; reflexivity|].
      intros e' _ He. discriminate.
  - do 4 (split; [reflexivity|]). split; [discriminate|].
    intros e H. discriminate.
Qed.

Lemma log_reaches_file_when_enabled_witness :
  let t := set_config (Sample.user_config true true) constructor in
  truthy (get_opt (get_opt (config t) "settings") "logToFile") = true
  /\ append_fails Sample.offline = None
  /\ log_file (final_world (log "Service stopped" "info" t Sample.offline))
     = ["[0] Service stopped"].
Proof.
  do 2 (split; [reflexivity|]).
  destruct (log_reaches_file_when_enabled "Service stopped" "info"
              (set_config (Sample.user_config true true) constructor)
              Sample.offline)
    as (_ & _ & _ & _ & H & _).
  exact (proj1 (H eq_refl eq_refl)).
Defined.

End Logging.

(* ================================================================= *)
(** * Where autolofi.js departs from autologin.js *)

Section AutolofiGaps.
Import Autolofi AutolofiMenu AutolofiSpec Service.

Lemma executeLogin_no_session (config : Value) (isTest : bool) :
  frames (fun _ w => session_file w) writes_session
    (executeLogin config isTest).
Proof.
  assert (Hloop : forall k a,
            frames (fun (_ : Instance) w => session_file w) writes_session
              (attempts_from k config isTest a)).
  { apply frames_loop. intros a. unfold attempt_once. frame. }
  unfold executeLogin. frame.
Qed.

(** C3 fails in [autolofi.js]: with automatic retry on, two replies that
    are not accepted and then a reply with status 200, [executeLogin]
    stops after the third request and returns
    [{ success: true, attempt: 3 }], as the claim says, but it persists
    nothing: the session file is what it was and nothing is written to it.
    The program declares [SESSION_FILE] and never uses it. *)
Theorem autolofi_success_is_not_persisted
    (config : Value) (isTest : bool) (t : Instance) (w : World) :
  has_settings config ->
  truthy (get_opt (get_opt config "settings") "autoRetry") = true ->
  3 <= maxRetries t ->
  accepted (post_reply w 0) = false ->
  accepted (post_reply w 1) = false ->
  accepted (post_reply w 2) = true ->
  let x := executeLogin config isTest t w in
  result x = Val (mkOutcome true (Some 3))
  /\ posts (events x) = 3%nat
  /\ session_file (final_world x) = session_file w
  /\ existsb writes_session (events x) = false.
Proof.
  intros Hcfg Hon Hmax H0 H1 H2 x. subst x.
  destruct (executeLogin_no_session config isTest t w) as [Hfile Hev].
  cbv beta in Hfile.
  destruct (lofi_executeLogin_loop config isTest t w Hcfg)
    as (w' & Hr & Hs & Hres & Hwire & _).
  assert (Hb : budget config t = Z.to_nat (maxRetries t)).
  { unfold budget. now rewrite Hon. }
  destruct (lofi_loop_first config isTest t Hcfg 2 (budget config t) 1 w')
    as (Hloop & _ & Hposts).
  - rewrite Hb. lia.
  - intros i Hi. rewrite (post_reply_same w w' i Hr Hs).
    destruct i as [|[|i]]; [exact H0 | exact H1 | lia].
  - now rewrite (post_reply_same w w' 2 Hr Hs).
  - rewrite posts_wire, Hwire, <- posts_wire, Hres, Hloop, Hposts.
    repeat split; assumption.
Qed.

Lemma autolofi_success_is_not_persisted_witness :
  let x := executeLogin (Sample.user_config true true) false constructor
             Sample.third_time in
  result x = Val (mkOutcome true (Some 3))
  /\ posts (events x) = 3%nat
  /\ session_file (final_world x) = Missing
  /\ existsb writes_session (events x) = false.
Proof.
  apply (autolofi_success_is_not_persisted (Sample.user_config true true)
           false constructor Sample.third_time).
  - eexists _, _. repeat split; discriminate.
  - reflexivity.
  - cbn. lia.
  - reflexivity.
  - reflexivity.
  - reflexivity.
Defined.

Local Arguments loadConfig : simpl never.
Local Arguments executeLogin : simpl never.
Local Arguments logToFile : simpl never.

(** C6 fails in [autolofi.js]: its [loadConfig] returns whatever the
    configuration file parses to, so for every content of the file, with or
    without a username and a password, loading succeeds and [startService]
    from the stopped state arms its timer and leaves the service running. *)
Theorem autolofi_start_ignores_credentials
    (v : Value) (t : Instance) (w : World) :
  isRunning t = false ->
  config_file w = Holds (Json v) ->
  let x := startService t w in
  result (loadConfig t w) = Val v
  /\ result x = Val tt
  /\ isRunning (final_this x) = true
  /\ loginInterval (final_this x) = Some (next_timer w)
  /\ timers (final_world x)
     = (timers w ++ [(next_timer w, CbExecuteLoginWith v)])%list.
Proof.
  intros Hrun Hfile x. subst x.
  rewrite (lofi_loadConfig_holds t w v Hfile).
  split; [reflexivity|].
  unfold startService, bind, try_catch, this. rewrite Hrun. cbn.
  rewrite (lofi_loadConfig_holds t w v Hfile). cbn.
  set (t2 := set_loginInterval _ _). set (w2 := set_timers _ _ _).
  destruct (executeLogin_owned v false t2 w2) as [Hlogin _].
  destruct (executeLogin v false t2 w2) as [[[[o|e] t3] w3] e3];
    cbn in *;
    [destruct (autolofi_logToFile_run "Service started" t3 w3) as (l & E);
     rewrite E; cbn|];
    unfold owned in *; injection Hlogin as -> -> -> _; repeat split.
Qed.

Lemma autolofi_start_ignores_credentials_witness :
  let x := startService constructor Sample.nameless in
  truthy (get_opt Sample.nameless_config "username") = false
  /\ result (loadConfig constructor Sample.nameless) = Val Sample.nameless_config
  /\ isRunning (final_this x) = true
  /\ timers (final_world x)
     = [(0%nat, CbExecuteLoginWith Sample.nameless_config)].
Proof.
  split; [reflexivity|].
  destruct (autolofi_start_ignores_credentials Sample.nameless_config
              constructor Sample.nameless eq_refl eq_refl)
    as (Hload & _ & Hrunning & _ & Htimers).
  split; [exact Hload|]. split; [exact Hrunning | exact Htimers].
Defined.

End AutolofiGaps.
